(** * AIS / ADS-B to APRS bridge: a shallow embedding of [AISandAPRSbridge.py]

    The development follows the layout of the Python source: the shared
    helpers, the ADS-B section ([parse_sbs], the track manager inside
    [adsb_worker]) and the AIS section (six-bit unpacking, the typed
    decoders, [parse_nmea], the manager inside [ais_worker]).

    Conventions of the embedding.
    - Text is ASCII: a Python [str] is a [string]; a bit string (a [str]
      of the characters 0 and 1) is a [list bool].
    - Python [int] is [Z].
    - In the ADS-B section a Python [float] is a binary64 number, the
      primitive [float] of Rocq: the fields of an SBS record can be any
      float, NaN and the infinities included, the differences that
      [state_changed] compares are rounded, and [int(x)] raises on a NaN
      or an infinity.  In the AIS section every position is the quotient
      of an integer by 600000.0 or 600.0, always finite; positions and
      distances are kept there as exact rationals [Q].
    - A [dict] is a [gmap], a [set] is a [gset]; [last_seen], the one
      dictionary whose items are iterated, keeps its insertion order.
    - An exception that matters for control flow is a [Raise] of the
      exception monad [exn]; a builtin whose [ValueError] is caught on the
      spot ([int(s)], [float(s)]) returns [None] instead.
    - [time.time()], [utc_hhmmss()], the metadata of the JSON feed and the
      outcome of every [aprs.send] are inputs of the steps.
    - The great-circle functions, [float()] and the float format of the
      minutes of a position are parameters of the sections that use them;
      the GUI tables [vessels] and [aircraft] and all printing are left
      out. *)

From Stdlib Require Import ZArith QArith Qabs Qminmax String Ascii List Lia Floats.
From stdpp Require Import base option list gmap sets strings.

#[local] Set Warnings "-inexact-float".

Local Close Scope Q_scope.
Local Open Scope string_scope.
Local Open Scope Z_scope.

(** ** Python builtins on ASCII text *)

Module Py.

(** [str.isspace] on ASCII: TAB..CR, FS..US and the space. *)
Definition is_space (c : ascii) : bool :=
  let n := nat_of_ascii c in
  ((9 <=? n)%nat && (n <=? 13)%nat) || ((28 <=? n)%nat && (n <=? 32)%nat).

Fixpoint lstrip (l : list ascii) : list ascii :=
  match l with
  | c :: l' => if is_space c then lstrip l' else l
  | [] => []
  end.

Definition rstrip (l : list ascii) : list ascii := rev (lstrip (rev l)).

(** [s.strip()] *)
Definition strip (s : string) : string :=
  string_of_list_ascii (rstrip (lstrip (list_ascii_of_string s))).

(** [s.split(sep)] for a one-character separator: never an empty list. *)
Fixpoint split (sep : ascii) (s : string) : list string :=
  match s with
  | EmptyString => [EmptyString]
  | String c s' =>
      if Ascii.eqb c sep then EmptyString :: split sep s'
      else match split sep s' with
           | w :: ws => String c w :: ws
           | [] => [String c EmptyString]
           end
  end.

Definition is_upper (c : ascii) : bool :=
  let n := nat_of_ascii c in (65 <=? n)%nat && (n <=? 90)%nat.

Definition is_lower (c : ascii) : bool :=
  let n := nat_of_ascii c in (97 <=? n)%nat && (n <=? 122)%nat.

Definition is_digit (c : ascii) : bool :=
  let n := nat_of_ascii c in (48 <=? n)%nat && (n <=? 57)%nat.

Definition upper_char (c : ascii) : ascii :=
  if is_lower c then ascii_of_nat (nat_of_ascii c - 32) else c.

(** [s.upper()] *)
Fixpoint upper (s : string) : string :=
  match s with
  | EmptyString => EmptyString
  | String c s' => String (upper_char c) (upper s')
  end.

(** Truthiness of a string: non-empty. *)
Definition truthy (s : string) : bool :=
  match s with EmptyString => false | _ => true end.

(** Truthiness of a value that is [None] or a string. *)
Definition otruthy (o : option string) : bool :=
  match o with Some s => truthy s | None => false end.

(** [a or b] on values that are [None] or a string. *)
Definition or_else (a b : option string) : option string :=
  if otruthy a then a else b.

(** [s[:n]] for [n >= 0]. *)
Fixpoint take (n : nat) (s : string) : string :=
  match n, s with
  | S n', String c s' => String c (take n' s')
  | _, _ => EmptyString
  end.

Fixpoint spaces (n : nat) : string :=
  match n with O => EmptyString | S n' => String " " (spaces n') end.

(** [s.ljust(w)]: pads on the right, never truncates. *)
Definition ljust (w : nat) (s : string) : string :=
  (s ++ spaces (w - String.length s))%string.

Fixpoint zeros (n : nat) : string :=
  match n with O => EmptyString | S n' => String "0" (zeros n') end.

Definition digit_char (d : Z) : ascii := ascii_of_nat (48 + Z.to_nat d).

(** Decimal digits of a positive number, most significant first; the fuel
    bounds the number of digits. *)
Fixpoint dec_digits (fuel : nat) (n : Z) (acc : string) : string :=
  match fuel with
  | O => acc
  | S fuel' =>
      if n <? 10 then String (digit_char n) acc
      else dec_digits fuel' (n / 10) (String (digit_char (n mod 10)) acc)
  end.

(** [str(n)] for [n >= 0]. *)
Definition dec (n : Z) : string := dec_digits (S (Z.to_nat (Z.log2 n))) n EmptyString.

(** [f"{n:0wd}"] for [n >= 0]: zero-padded on the left to at least [w]. *)
Definition fmt_0d (w : nat) (n : Z) : string :=
  let s := dec n in (zeros (w - String.length s) ++ s)%string.

(** [f"{s:<w}"]: padded on the right to at least [w]. *)
Definition fmt_left (w : nat) (s : string) : string := ljust w s.

Definition digit_val (c : ascii) : Z := Z.of_nat (nat_of_ascii c) - 48.

(** The digits of an integer literal: decimal digits, single underscores
    allowed between two digits. *)
Fixpoint int_digits (acc : Z) (after_digit : bool) (l : list ascii) : option Z :=
  match l with
  | [] => if after_digit then Some acc else None
  | c :: l' =>
      if is_digit c then int_digits (10 * acc + digit_val c) true l'
      else if Ascii.eqb c "_" then
             if after_digit then int_digits acc false l' else None
      else None
  end.

(** The whitespace [int()] skips around an ASCII literal: TAB..CR and the
    space, the set of C's [isspace].  The separators FS..US, which
    [str.strip] removes, are not skipped: [int] of a string that starts
    with one of them raises. *)
Definition is_cspace (c : ascii) : bool :=
  let n := nat_of_ascii c in
  ((9 <=? n)%nat && (n <=? 13)%nat) || (n =? 32)%nat.

Fixpoint lskip (l : list ascii) : list ascii :=
  match l with
  | c :: l' => if is_cspace c then lskip l' else l
  | [] => []
  end.

(** [int(s)]: surrounding whitespace, an optional sign, the digits.
    [None] stands for [ValueError]. *)
Definition int (s : string) : option Z :=
  match rev (lskip (rev (lskip (list_ascii_of_string s)))) with
  | "+"%char :: ds => int_digits 0 false ds
  | "-"%char :: ds => Z.opp <$> int_digits 0 false ds
  | ds => int_digits 0 false ds
  end.

(** [str(n)] for an int of either sign. *)
Definition str (n : Z) : string :=
  if n <? 0 then String "-" (dec (- n)) else dec n.

(** [int(x)] on a float of the AIS section, kept as a rational:
    truncation towards zero. *)
Definition trunc (q : Q) : Z := Z.quot (Qnum q) (Z.pos (Qden q)).

(** Comparisons of the floats of the AIS section: [a <= b] and [a < b]. *)
Definition qle (a b : Q) : bool := Qle_bool a b.
Definition qlt (a b : Q) : bool := negb (Qle_bool b a).

End Py.

(** ** Exceptions

    The exceptions the modelled code raises on its own: the [ValueError] of
    [int(b, 2)] on an empty string, of [int(x)] on a NaN and of the [math]
    functions outside their domain, and the [OverflowError] of [int(x)] on
    an infinity. *)

Inductive pyerr : Type := ValueError | OverflowError.

Inductive exn (A : Type) : Type :=
  | Ok (a : A)
  | Raise (e : pyerr).
Arguments Ok {A} a.
Arguments Raise {A} e.

#[global] Instance exn_ret : MRet exn := fun A a => Ok a.
#[global] Instance exn_bind : MBind exn := fun A B f m =>
  match m with Ok a => f a | Raise e => Raise e end.

Definition raises {A} (m : exn A) : bool :=
  match m with Ok _ => false | Raise _ => true end.


(** ** A dictionary that is iterated

    [last_seen] is the one dictionary whose items the code iterates; a
    Python [dict] keeps its keys in the order of their first insertion.
    The items are kept as a list in that order: an assignment to a key
    that is present changes its value in place, an assignment to a new key
    appends it, [pop] removes the key (a key occurs once among the items
    of a dictionary built from the empty one, see [dict_keys_distinct]). *)

Module PyDict.

Record dict (V : Type) : Type := mk_dict { items : list (string * V) }.
Arguments mk_dict {V} _.
Arguments items {V} _.

Fixpoint get {V} (l : list (string * V)) (k : string) : option V :=
  match l with
  | [] => None
  | (k', v) :: l' => if String.eqb k' k then Some v else get l' k
  end.

Fixpoint set {V} (k : string) (v : V) (l : list (string * V)) : list (string * V) :=
  match l with
  | [] => [(k, v)]
  | (k', v') :: l' => if String.eqb k' k then (k, v) :: l' else (k', v') :: set k v l'
  end.

Fixpoint pop {V} (k : string) (l : list (string * V)) : list (string * V) :=
  match l with
  | [] => []
  | (k', v') :: l' => if String.eqb k' k then pop k l' else (k', v') :: pop k l'
  end.

#[global] Instance dict_empty {V} : Empty (dict V) := mk_dict [].
#[global] Instance dict_lookup {V} : Lookup string V (dict V) := λ k d, get (items d) k.
#[global] Instance dict_insert {V} : Insert string V (dict V) :=
  λ k v d, mk_dict (set k v (items d)).
#[global] Instance dict_delete {V} : Delete string (dict V) :=
  λ k d, mk_dict (pop k (items d)).

End PyDict.

(** ** Python floats

    A [float] of Python is a binary64 number: the primitive [float] of
    Rocq, with the same arithmetic (round to nearest, ties to even) and
    the same comparisons (false whenever an operand is NaN). *)

Module PyFloat.

(** [a >= b], [a > b], [a <= b] *)
Definition ge (a b : float) : bool := PrimFloat.leb b a.
Definition gt (a b : float) : bool := PrimFloat.ltb b a.
Definition le (a b : float) : bool := PrimFloat.leb a b.

(** [int(x)]: truncation towards zero; raises [ValueError] on a NaN and
    [OverflowError] on an infinity. *)
Definition int (x : float) : exn Z :=
  match Prim2SF x with
  | S754_nan => Raise ValueError
  | S754_infinity _ => Raise OverflowError
  | S754_zero _ => Ok 0
  | S754_finite s m e =>
      let v := Z.shiftl (Z.pos m) e in
      Ok (if s then - v else v)
  end.

(** The conversion of an int that takes part in float arithmetic: the
    nearest binary64 number. *)
Definition of_int (n : Z) : float := SF2Prim (binary_normalize prec emax n 0 false).

End PyFloat.
(** ** Shared helpers *)

Module Shared.

Section Format.

(** The format [f"{m:05.2f}"] of the minutes is taken as given. *)
Variable fmt_05_2f : float → string.

(** [dm_lat]: [int(a)] raises when the latitude is a NaN or an infinity. *)
Definition dm_lat (lat : float) : exn string :=
  let hemi := if PyFloat.ge lat 0 then "N" else "S" in
  let a := PrimFloat.abs lat in
  d ← PyFloat.int a;
  let m := ((a - PyFloat.of_int d) * 60)%float in
  Ok (Py.fmt_0d 2 d +:+ fmt_05_2f m +:+ hemi).

Definition dm_lon (lon : float) : exn string :=
  let hemi := if PyFloat.ge lon 0 then "E" else "W" in
  let a := PrimFloat.abs lon in
  d ← PyFloat.int a;
  let m := ((a - PyFloat.of_int d) * 60)%float in
  Ok (Py.fmt_0d 3 d +:+ fmt_05_2f m +:+ hemi).

End Format.

End Shared.

(** ** ADS-B section: the SBS line decoder *)

Module SBS.

(** The dictionary returned by [parse_sbs]. *)
Record msg : Type := mk_msg {
  icao : option string;
  callsign : option string;
  lat : PrimFloat.float;
  lon : PrimFloat.float;
  trk : option PrimFloat.float;
  gs : option PrimFloat.float;
  alt : option PrimFloat.float
}.

Definition field (f : list string) (i : nat) : string := nth i f "".

Section Parse.

(** [float(s)] of Python; [None] stands for [ValueError]. *)
Variable float : string → option PrimFloat.float.

(** [try: x = float(s) if s else None / except: x = None] *)
Definition float_or_none (s : string) : option PrimFloat.float :=
  if Py.truthy s then float s else None.

(** The body of [parse_sbs] after [f = line.strip().split(',')]. *)
Definition parse_fields (f : list string) : option msg :=
  if (length f <? 22)%nat || negb (String.eqb (field f 0) "MSG") then None else
  match Py.int (field f 1) with
  | None => None
  | Some subtype =>
      if negb ((subtype =? 3) || (subtype =? 4)) then None else
      let icao := if Py.truthy (field f 4)
                  then Some (Py.upper (Py.strip (field f 4))) else None in
      let callsign := if (10 <? length f)%nat && Py.truthy (Py.strip (field f 10))
                      then Some (Py.strip (field f 10)) else None in
      let lat := float_or_none (field f 14) in
      let lon := float_or_none (field f 15) in
      let alt := float_or_none (field f 11) in
      let gs := float_or_none (field f 12) in
      let trk := float_or_none (field f 13) in
      match lat, lon with
      | Some lat, Some lon => Some (mk_msg icao callsign lat lon trk gs alt)
      | _, _ => None
      end
  end.

Definition parse_sbs (line : string) : option msg :=
  parse_fields (Py.split "," (Py.strip line)).

End Parse.

End SBS.

(** ** ADS-B section: the track manager of [adsb_worker] *)

Module ADSB.

Import SBS.

(** The constants.  Those that the source writes as ints and compares with
    floats ([LANDED_ALT_FT], [LAND_CLEAR_ALT], [EPS_ALT_FT], [EPS_GS_KT],
    the two distances) are given as the floats they are equal to. *)
Definition MAX_PKTS_PER_SEC : Z := 5.
Definition MIN_UPDATE_SEC : Z := 5.
Definition MIN_MOVE_MI : float := 0.5%float.
Definition OBJECT_TTL_SEC : Z := 300.
Definition LANDED_ALT_FT : float := 1000%float.
Definition LANDED_WAIT_SEC : Z := 180.
Definition LAND_CLEAR_ALT : float := 1500%float.
Definition EPS_LATLON_DEG : float := 0.00015%float.
Definition EPS_ALT_FT : float := 25%float.
Definition EPS_TRK_DEG : Z := 3.
Definition EPS_GS_KT : float := 2%float.
Definition KBUF_LAT : float := 42.9405%float.
Definition KBUF_LON : float := (-78.7322)%float.
Definition ADD_DISTANCE_MI : float := 35%float.
Definition CLEAR_DISTANCE_MI : float := 40%float.
Definition APPEND_SYM_TAG : bool := true.

(** [_name_cleaner.sub('', s)]: keeps the characters in [A-Z0-9]. *)
Fixpoint name_cleaner (s : string) : string :=
  match s with
  | EmptyString => EmptyString
  | String c s' =>
      if Py.is_upper c || Py.is_digit c then String c (name_cleaner s') else name_cleaner s'
  end.

Definition normalize_callsign (cs : option string) : option string :=
  if negb (Py.otruthy cs) then None else
  let n := name_cleaner (Py.upper (default "" cs)) in
  if Py.truthy n then Some n else None.

(** The worker always passes a string (possibly empty) for [icao_hex]. *)
Definition name_from_callsign_or_hex (callsign : option string) (icao_hex : string) : string :=
  match normalize_callsign callsign with
  | Some n => Py.ljust 9 (Py.take 9 n)
  | None => Py.ljust 9 (Py.take 9 (if Py.truthy icao_hex then icao_hex else "AIRCRAFT"))
  end.

(** The head of the line built by [make_adsb_aprs_object], up to and
    including the time stamp; [hhmmss] is the value of [utc_hhmmss()]. *)
Definition object_head (name hhmmss : string) : string :=
  ";" +:+ name +:+ "*" +:+ hhmmss +:+ "z".

(** An entry of [last_sent]. *)
Record sent_info : Type := mk_sent {
  si_time : Z;
  si_state : msg;
  si_lat : float;
  si_lon : float;
  si_icao : string
}.

Record state : Type := mk_state {
  last_seen : PyDict.dict Z;
  last_sent : gmap string sent_info;
  low_alt_since : gmap string Z;
  landed_block : gset string;
  hex_to_name : gmap string string;
  name_to_hex : gmap string string;
  last_sec : Z;
  sent_this_sec : Z
}.

Definition init : state := mk_state ∅ ∅ ∅ ∅ ∅ ∅ 0 0.

(** What reaches the APRS connection, and what reaches the handler of the
    outer loop.  [Sent]: [aprs.send] returned for an object update
    ([delete = false]) or for a delete line.  [SendFailed]: [aprs.send]
    raised for an object update; the line is lost and the connection is
    reopened.  A delete line is built and sent inside
    [try: ... except: pass]: when that raises nothing is sent and nothing
    is logged.  [Handler]: an exception left the loop body and reached the
    [except Exception] of the outer loop, which reopens the SBS
    connection and keeps the tables.  [Sent] and [SendFailed] carry the
    clock reading of the step they belong to. *)
Inductive event : Type :=
  | Sent (now : Z) (delete : bool) (name : string) (lat lon : float)
  | SendFailed (now : Z) (name : string)
  | Handler (e : pyerr).

(** What one parsed SBS record brings to the manager: the record; the
    callsign the metadata cache holds for its ICAO address and the value
    of [symbol_for_category] on the metadata (table, code, tag); the value
    of [utc_hhmmss()]; the clock; the outcome of [aprs.send] for the object
    update and for the delete line, if the record sends one. *)
Record input : Type := mk_input {
  in_msg : msg;
  in_json_callsign : option string;
  in_symbol : string * string * string;
  in_hhmmss : string;
  in_now : Z;
  in_send_ok : bool;
  in_delete_ok : bool
}.

(** [k in m] *)
Definition has {K V M} `{Lookup K V M} (m : M) (k : K) : bool :=
  match m !! k with Some _ => true | None => false end.

Definition in_set (s : gset string) (k : string) : bool := bool_decide (k ∈ s).

(** [li["lat"] if li else msg["lat"]], and the same for the longitude. *)
Definition delete_position (st : state) (name : string) (m : msg) : float * float :=
  match last_sent st !! name with
  | Some li => (si_lat li, si_lon li)
  | None => (lat m, lon m)
  end.

(** The identity of the record: [icao_hex], [callsign], [desired_name]. *)
Definition icao_hex_of (i : input) : string := Py.upper (default "" (icao (in_msg i))).

Definition callsign_of (i : input) : option string :=
  Py.or_else (callsign (in_msg i)) (in_json_callsign i).

Definition desired_name_of (i : input) : string :=
  name_from_callsign_or_hex (callsign_of i) (icao_hex_of i).

Definition current_name_for_hex (st : state) (i : input) : option string :=
  hex_to_name st !! icao_hex_of i.

Definition tracked_name_of (st : state) (i : input) : string :=
  let cur := current_name_for_hex st i in
  if Py.otruthy cur then default "" cur else desired_name_of i.

(** The two tests of [state_changed] on an optional field (altitude,
    ground speed): one side is [None] and the other is not, or both are
    known and [abs(c - p) >= eps]. *)
Definition changed_opt (eps : float) (c p : option float) : bool :=
  match c, p with
  | Some c, Some p => PyFloat.ge (PrimFloat.abs (c - p)) eps
  | None, None => false
  | _, _ => true
  end.

(** The same for the track, compared as [int(trk) % 360] on a circle;
    [int] raises on a NaN or an infinity, the current track first. *)
Definition trk_changed (c p : option float) : exn bool :=
  match c, p with
  | Some c, Some p =>
      a ← PyFloat.int c;
      b ← PyFloat.int p;
      let a := a mod 360 in
      let b := b mod 360 in
      let d := Z.abs (a - b) in
      let d := Z.min d (360 - d) in
      Ok (d >=? EPS_TRK_DEG)
  | None, None => Ok false
  | _, _ => Ok true
  end.

(** [state_changed]: the tests in the order of the source; the track is
    only looked at when latitude, longitude and altitude have not changed. *)
Definition state_changed (prev : option msg) (cur : msg) : exn bool :=
  match prev with
  | None => Ok true
  | Some prev =>
      if PyFloat.ge (PrimFloat.abs (lat cur - lat prev)) EPS_LATLON_DEG then Ok true
      else if PyFloat.ge (PrimFloat.abs (lon cur - lon prev)) EPS_LATLON_DEG then Ok true
      else if changed_opt EPS_ALT_FT (alt cur) (alt prev) then Ok true
      else
        trk_changed (trk cur) (trk prev) ≫= λ t : bool,
        if t then Ok true
        else if changed_opt EPS_GS_KT (gs cur) (gs prev) then Ok true
        else Ok false
  end.

Section Manager.

(** The great-circle distance: [math.sin] and [math.cos] raise
    [ValueError] on an infinity, [math.sqrt] on a negative number. *)
Variable haversine_miles : float → float → float → float → exn float.

Variable fmt_05_2f : float → string.

(** [make_adsb_aprs_object]; [hhmmss] is the value of [utc_hhmmss()]. *)
Definition make_adsb_aprs_object (hhmmss name : string) (lat lon : float)
    (table code : string) (trk gs alt : option float)
    (icao callsign sym_tag : option string) (delete : bool) : exn string :=
  lat_s ← Shared.dm_lat fmt_05_2f lat;
  lon_s ← Shared.dm_lon fmt_05_2f lon;
  p_trk ← match trk with
           | Some t => v ← PyFloat.int t; Ok ["TRK " +:+ Py.fmt_0d 3 (v mod 360)]
           | None => Ok []
           end;
  p_gs ← match gs with
          | Some g => v ← PyFloat.int g; Ok ["GS " +:+ Py.str v +:+ "kt"]
          | None => Ok []
          end;
  p_alt ← match alt with
           | Some a => v ← PyFloat.int a; Ok ["ALT " +:+ Py.str v +:+ "ft"]
           | None => Ok []
           end;
  let p_flt := if Py.otruthy callsign
               then match normalize_callsign callsign with
                    | Some cs => ["FLT " +:+ cs]
                    | None => []
                    end
               else [] in
  let p_icao := if Py.otruthy icao then ["ICAO " +:+ default "" icao] else [] in
  let p_sym := if APPEND_SYM_TAG && Py.otruthy sym_tag
               then ["SYM " +:+ default "" sym_tag] else [] in
  let p_del := if delete then ["DEL"] else [] in
  let parts := (p_trk ++ p_gs ++ p_alt ++ p_flt ++ p_icao ++ p_sym ++ p_del)%list in
  let comment := match parts with [] => "ADS-B" | _ => String.concat " " parts end in
  Ok (object_head name hhmmss +:+ lat_s +:+ table +:+ lon_s +:+ code +:+ comment).

(** [try: delpkt = make_adsb_aprs_object(name, lat, lon, table, code,
    sym_tag=sym_tag, delete=True); aprs.send(...) / except: pass]:
    the delete line goes out when it can be built and the send returns. *)
Definition try_delete (now : Z) (hhmmss : string) (symbol : string * string * string)
    (ok : bool) (name : string) (lat lon : float) : list event :=
  let '(table, code, sym_tag) := symbol in
  match make_adsb_aprs_object hhmmss name lat lon table code None None None
          None None (Some sym_tag) true with
  | Ok _ => if ok then [Sent now true name lat lon] else []
  | Raise _ => []
  end.

Definition record_delete (i : input) (name : string) (lat lon : float) : list event :=
  try_delete (in_now i) (in_hhmmss i) (in_symbol i) (in_delete_ok i) name lat lon.

Definition dist_kbuf (i : input) : exn float :=
  haversine_miles KBUF_LAT KBUF_LON (lat (in_msg i)) (lon (in_msg i)).

(** The emission decision: [moved_far_enough] is computed first, then
    [need_send]. *)
Definition need_send (prev_info : option sent_info) (m : msg) (now : Z) : exn bool :=
  match prev_info with
  | None => Ok true
  | Some li =>
      d ← haversine_miles (si_lat li) (si_lon li) (lat m) (lon m);
      if PyFloat.ge d MIN_MOVE_MI then Ok true
      else
        state_changed (Some (si_state li)) m ≫= λ c : bool,
        Ok (c && (now - si_time li >=? MIN_UPDATE_SEC))
  end.

(** The block under [# Range hysteresis]: the track is cleared. *)
Definition range_clear (st : state) (i : input) : state * list event :=
  let tracked_name := tracked_name_of st i in
  let '(lat, lon) := delete_position st tracked_name (in_msg i) in
  (mk_state (delete tracked_name (last_seen st))
            (delete tracked_name (last_sent st))
            (delete tracked_name (low_alt_since st))
            (landed_block st ∖ {[tracked_name]})
            (if Py.otruthy (current_name_for_hex st i)
             then delete (icao_hex_of i) (hex_to_name st) else hex_to_name st)
            (delete tracked_name (name_to_hex st))
            (last_sec st) (sent_this_sec st),
   record_delete i tracked_name lat lon).

(** The delete of the landed dwell. *)
Definition dwell_delete (st : state) (i : input) (tracked_name : string)
    (cur : option string) : state * list event :=
  let '(lat, lon) := delete_position st tracked_name (in_msg i) in
  (mk_state (delete tracked_name (last_seen st))
            (delete tracked_name (last_sent st))
            (low_alt_since st)
            (landed_block st ∪ {[tracked_name]})
            (if Py.otruthy cur then delete (icao_hex_of i) (hex_to_name st) else hex_to_name st)
            (delete tracked_name (name_to_hex st))
            (last_sec st) (sent_this_sec st),
   record_delete i tracked_name lat lon).

(** From [prev_info = last_sent.get(tracked_name)] to the end of the loop
    body: the emission decision, the line and the send.  The decision and
    [make_adsb_aprs_object] are outside the [try] of the send: when one of
    them raises the exception leaves the loop body. *)
Definition emission (st : state) (i : input) (tracked_name : string) : state * list event :=
  let m := in_msg i in
  let now := in_now i in
  let '(table, code, sym_tag) := in_symbol i in
  match need_send (last_sent st !! tracked_name) m now with
  | Raise e => (st, [Handler e])
  | Ok false => (st, [])
  | Ok true =>
      match make_adsb_aprs_object (in_hhmmss i) tracked_name (lat m) (lon m) table code
              (trk m) (gs m) (alt m) (Some (icao_hex_of i)) (callsign_of i)
              (Some sym_tag) false with
      | Raise e => (st, [Handler e])
      | Ok _ =>
          if in_send_ok i then
            (mk_state (last_seen st)
                      (<[tracked_name := mk_sent now m (lat m) (lon m) (icao_hex_of i)]>
                         (last_sent st))
                      (low_alt_since st) (landed_block st) (hex_to_name st) (name_to_hex st)
                      (last_sec st) (sent_this_sec st + 1),
             [Sent now false tracked_name (lat m) (lon m)])
          else (st, [SendFailed now tracked_name])
      end
  end.

(** The block under [# Rename hex -> callsign when flight appears]; returns
    the state, the new [tracked_name] and the delete it sent. *)
Definition rename (st : state) (i : input) (tracked_name : string) (cur : option string)
  : state * string * list event :=
  let desired_name := desired_name_of i in
  let icao_hex := icao_hex_of i in
  let cur_name := default "" cur in
  if Py.otruthy cur && negb (String.eqb desired_name cur_name) then
    let '(lat, lon) := delete_position st cur_name (in_msg i) in
    let last_sent' :=
      match last_sent st !! cur_name with
      | Some prev_info => <[desired_name := prev_info]> (delete cur_name (last_sent st))
      | None => delete cur_name (last_sent st)
      end in
    (mk_state (delete cur_name (last_seen st))
              last_sent'
              (low_alt_since st) (landed_block st)
              (<[icao_hex := desired_name]> (hex_to_name st))
              (<[desired_name := icao_hex]> (delete cur_name (name_to_hex st)))
              (last_sec st) (sent_this_sec st),
     desired_name,
     record_delete i cur_name lat lon)
  else (st, tracked_name, []).

(** The registration of a new ICAO address and the update of [last_seen]. *)
Definition register (st : state) (i : input) (tracked_name : string) : state :=
  let icao_hex := icao_hex_of i in
  let new := Py.truthy icao_hex && negb (has (hex_to_name st) icao_hex) in
  mk_state (<[tracked_name := in_now i]> (last_seen st))
           (last_sent st) (low_alt_since st) (landed_block st)
           (if new then <[icao_hex := tracked_name]> (hex_to_name st) else hex_to_name st)
           (if new then <[tracked_name := icao_hex]> (name_to_hex st) else name_to_hex st)
           (last_sec st) (sent_this_sec st).

(** From [# global throttle] on. *)
Definition throttled (st : state) (i : input) (tracked_name : string) (cur : option string)
  : state * list event :=
  let now := in_now i in
  let st := if negb (now =? last_sec st)
            then mk_state (last_seen st) (last_sent st) (low_alt_since st) (landed_block st)
                          (hex_to_name st) (name_to_hex st) now 0
            else st in
  if sent_this_sec st >=? MAX_PKTS_PER_SEC then (st, []) else
  let '(st, tracked_name, dels) := rename st i tracked_name cur in
  let st := register st i tracked_name in
  let '(st, evs) := emission st i tracked_name in
  (st, (dels ++ evs)%list).

Definition set_low_alt_since (st : state) (m : gmap string Z) : state :=
  mk_state (last_seen st) (last_sent st) m (landed_block st)
           (hex_to_name st) (name_to_hex st) (last_sec st) (sent_this_sec st).

(** From [alt = msg["alt"]] on: what a record goes through once it has
    passed the range hysteresis. *)
Definition in_range (st : state) (i : input) : state * list event :=
  let tracked_name := tracked_name_of st i in
  let cur := current_name_for_hex st i in
  let alt := alt (in_msg i) in
  let now := in_now i in
  let reenable :=
    in_set (landed_block st) tracked_name &&
    match alt with None => true | Some a => PyFloat.gt a LAND_CLEAR_ALT end in
  let st := if reenable
            then mk_state (last_seen st) (last_sent st)
                          (delete tracked_name (low_alt_since st))
                          (landed_block st ∖ {[tracked_name]})
                          (hex_to_name st) (name_to_hex st) (last_sec st) (sent_this_sec st)
            else st in
  let low := match alt with Some a => PyFloat.le a LANDED_ALT_FT | None => false end in
  if in_set (landed_block st) tracked_name && low then (st, []) else
  if low then
    let st := if negb (has (low_alt_since st) tracked_name)
              then set_low_alt_since st (<[tracked_name := now]> (low_alt_since st))
              else st in
    if now - default 0 (low_alt_since st !! tracked_name) >=? LANDED_WAIT_SEC
    then dwell_delete st i tracked_name cur
    else throttled st i tracked_name cur
  else
    throttled (set_low_alt_since st (delete tracked_name (low_alt_since st)))
              i tracked_name cur.

(** The body of the inner loop of [adsb_worker] for one parsed record.
    The distance is computed before anything is changed; when it raises,
    the exception leaves the loop body. *)
Definition adsb_record (st : state) (i : input) : state * list event :=
  let tracked_name := tracked_name_of st i in
  match dist_kbuf i with
  | Raise e => (st, [Handler e])
  | Ok d =>
      if has (last_seen st) tracked_name && PyFloat.gt d CLEAR_DISTANCE_MI
      then range_clear st i
      else if negb (has (last_seen st) tracked_name) && PyFloat.gt d ADD_DISTANCE_MI
      then (st, [])
      else in_range st i
  end.

(** *** The cleanup phase *)

(** What a cleanup phase reads: the clock, the value of [utc_hhmmss()],
    and for each name it deletes the value of [symbol_for_category] on the
    metadata of its address and the outcome of [aprs.send]. *)
Record sweep : Type := mk_sweep {
  sw_now : Z;
  sw_hhmmss : string;
  sw_symbol : string → string * string * string;
  sw_delete_ok : string → bool
}.

(** [to_delete]: the names silent for [OBJECT_TTL_SEC], in the order of
    the items of [last_seen]. *)
Definition to_delete (st : state) (now : Z) : list string :=
  (List.filter (fun '(_, t0) => now - t0 >=? OBJECT_TTL_SEC)
     (PyDict.items (last_seen st))).*1.

(** The body of [for n in to_delete]. *)
Definition expire (c : sweep) (st : state) (n : string) : state * list event :=
  let '(lat, lon) :=
    match last_sent st !! n with
    | Some li => (si_lat li, si_lon li)
    | None => (0%float, 0%float)
    end in
  let hx := name_to_hex st !! n in
  (mk_state (delete n (last_seen st))
            (delete n (last_sent st))
            (delete n (low_alt_since st))
            (landed_block st ∖ {[n]})
            (if Py.otruthy hx then delete (default "" hx) (hex_to_name st) else hex_to_name st)
            (delete n (name_to_hex st))
            (last_sec st) (sent_this_sec st),
   try_delete (sw_now c) (sw_hhmmss c) (sw_symbol c n) (sw_delete_ok c n) n lat lon).

Fixpoint expire_all (c : sweep) (st : state) (names : list string) : state * list event :=
  match names with
  | [] => (st, [])
  | n :: names' =>
      let '(st, ev) := expire c st n in
      let '(st, evs) := expire_all c st names' in
      (st, (ev ++ evs)%list)
  end.

Definition cleanup (st : state) (c : sweep) : state * list event :=
  expire_all c st (to_delete st (sw_now c)).

(** *** Runs of the manager *)

Inductive action : Type :=
  | Record_ (i : input)
  | Cleanup (c : sweep).

Definition action_time (a : action) : Z :=
  match a with Record_ i => in_now i | Cleanup c => sw_now c end.

Definition step (st : state) (a : action) : state * list event :=
  match a with
  | Record_ i => adsb_record st i
  | Cleanup c => cleanup st c
  end.

(** The state after a sequence of actions and everything it sent. *)
Fixpoint run (st : state) (acts : list action) : state * list event :=
  match acts with
  | [] => (st, [])
  | a :: acts' =>
      let '(st, ev) := step st a in
      let '(st, evs) := run st acts' in
      (st, (ev ++ evs)%list)
  end.

End Manager.

End ADSB.

(** ** AIS section: six-bit payloads and the typed decoders *)

Module AIS.

Definition CENTER_LAT : Q := (429 # 10)%Q.
Definition CENTER_LON : Q := (- (789 # 10))%Q.
Definition MAX_RANGE_NM : Q := 250%Q.
Definition TELEPORT_MOVE_NM : Q := 150%Q.
Definition TELEPORT_TIME_SEC : Z := 900.
Definition MAX_PKTS_PER_SEC : Z := 5.

(** [_ASCII2SIX.get(ch, 0)] *)
Definition ascii2six (ch : ascii) : Z :=
  let i := Z.of_nat (nat_of_ascii ch) in
  if (48 <=? i) && (i <? 120) then (if i <? 88 then i - 48 else i - 56) else 0.

(** [f"{v:06b}"] for [v >= 0]: the binary digits, zero-padded to at least 6. *)
Definition fmt_06b (v : Z) : list bool :=
  let w := Nat.max 6 (S (Z.to_nat (Z.log2 v))) in
  (fun i => Z.testbit v (Z.of_nat i)) <$> rev (seq 0 w).

Definition sixbit_unpack (payload : string) : list bool :=
  flat_map (fun ch => fmt_06b (ascii2six ch)) (list_ascii_of_string payload).

(** [bits[start:start+length]] for non-negative [start] and [length]. *)
Definition slice (bits : list bool) (start length : nat) : list bool :=
  take length (drop start bits).

(** Value of a string of binary digits. *)
Definition bin_val (b : list bool) : Z :=
  fold_left (fun acc x => 2 * acc + Z.b2z x) b 0.

(** [int(b, 2)]: raises on the empty string. *)
Definition int2 (b : list bool) : exn Z :=
  match b with
  | [] => Raise ValueError
  | _ => Ok (bin_val b)
  end.

Definition _u (bits : list bool) (start length : nat) : exn Z :=
  int2 (slice bits start length).

Definition _s (bits : list bool) (start length : nat) : Z :=
  let b := slice bits start length in
  match b with
  | [] => 0
  | b0 :: _ =>
      let v := bin_val b in
      if b0 then v - Z.shiftl 1 (Z.of_nat length) else v
  end.

(** [range(start, start + length, 6)] *)
Definition range6 (start length : nat) : list nat :=
  (fun k => (start + 6 * k)%nat) <$> seq 0 ((length + 5) / 6).

Fixpoint sixbit_chars (bits : list bool) (idx : list nat) : exn (list ascii) :=
  match idx with
  | [] => Ok []
  | i :: idx' =>
      val ← _u bits i 6;
      let ch := ascii_of_nat (Z.to_nat (val + 32)) in
      let ch := if Ascii.eqb ch "@" then " "%char else ch in
      out ← sixbit_chars bits idx';
      Ok (ch :: out)
  end.

Definition sixbit_to_ascii (bits : list bool) (start length : nat) : exn string :=
  out ← sixbit_chars bits (range6 start length);
  Ok (Py.strip (string_of_list_ascii out)).

Record info : Type := mk_info {
  i_type : Z;
  i_mmsi : Z;
  i_lat : Q;
  i_lon : Q;
  i_sog : option Q;
  i_cog : option Q;
  i_hdg : option Z
}.

Record static_info : Type := mk_static {
  s_type : Z;
  s_mmsi : Z;
  s_name : string
}.

(** The second component of the decoders' result pairs. *)
Inductive why : Type :=
  | short
  | type_ (msgtype : Z)
  | invalid_latlon
  | not_type4
  | not_type27
  | short5
  | short24
  | partB
  | not_static (msgtype : Z).

(** A decoder returns [(info, None)] or [(None, why)]. *)
Inductive decoded (A : Type) : Type :=
  | Accept (a : A)
  | Reject (w : why).
Arguments Accept {A} a.
Arguments Reject {A} w.

Definition zmem (x : Z) (l : list Z) : bool := existsb (Z.eqb x) l.

Definition len (bits : list bool) : Z := Z.of_nat (length bits).

Definition decode_position (bits : list bool) : exn (decoded info) :=
  if len bits <? 168 then Ok (Reject short) else
  msgtype ← _u bits 0 6;
  if negb (zmem msgtype [1; 2; 3; 18; 19]) then Ok (Reject (type_ msgtype)) else
  '(lon, lat, sog10, cog10, hdg) ←
    (if zmem msgtype [1; 2; 3] then
       sog10 ← _u bits 50 10; cog10 ← _u bits 116 12; hdg ← _u bits 128 9;
       Ok (_s bits 61 28, _s bits 89 27, sog10, cog10, hdg)
     else
       sog10 ← _u bits 46 10; cog10 ← _u bits 112 12; hdg ← _u bits 124 9;
       Ok (_s bits 57 28, _s bits 85 27, sog10, cog10, hdg));
  if (Z.abs lon >=? 108600000) || (Z.abs lat >=? 54600000)
  then Ok (Reject invalid_latlon) else
  mmsi ← _u bits 8 30;
  Ok (Accept {| i_type := msgtype; i_mmsi := mmsi;
                i_lat := (lat # 600000)%Q; i_lon := (lon # 600000)%Q;
                i_sog := if sog10 =? 1023 then None else Some (sog10 # 10)%Q;
                i_cog := if cog10 >=? 3600 then None else Some (cog10 # 10)%Q;
                i_hdg := if hdg =? 511 then None else Some hdg |}).

Definition decode_basestation (bits : list bool) : exn (decoded info) :=
  if len bits <? 168 then Ok (Reject short) else
  msgtype ← _u bits 0 6;
  if negb (msgtype =? 4) then Ok (Reject not_type4) else
  let lon := _s bits 79 28 in
  let lat := _s bits 107 27 in
  if (Z.abs lon >=? 108600000) || (Z.abs lat >=? 54600000)
  then Ok (Reject invalid_latlon) else
  mmsi ← _u bits 8 30;
  Ok (Accept {| i_type := 4; i_mmsi := mmsi;
                i_lat := (lat # 600000)%Q; i_lon := (lon # 600000)%Q;
                i_sog := Some 0%Q; i_cog := Some 0%Q; i_hdg := None |}).

Definition decode_longrange (bits : list bool) : exn (decoded info) :=
  if len bits <? 96 then Ok (Reject short) else
  msgtype ← _u bits 0 6;
  if negb (msgtype =? 27) then Ok (Reject not_type27) else
  let lon := _s bits 44 18 in
  let lat := _s bits 62 17 in
  if (lon =? 0x1FFFF) || (lat =? 0x1FFFF) then Ok (Reject invalid_latlon) else
  mmsi ← _u bits 8 30;
  Ok (Accept {| i_type := 27; i_mmsi := mmsi;
                i_lat := (lat # 600)%Q; i_lon := (lon # 600)%Q;
                i_sog := None; i_cog := None; i_hdg := None |}).

Definition decode_static (bits : list bool) : exn (decoded static_info) :=
  msgtype ← _u bits 0 6;
  if msgtype =? 5 then
    if len bits <? 424 then Ok (Reject short5) else
    mmsi ← _u bits 8 30;
    name ← sixbit_to_ascii bits 112 120;
    Ok (Accept {| s_type := 5; s_mmsi := mmsi; s_name := name |})
  else if msgtype =? 24 then
    if len bits <? 160 then Ok (Reject short24) else
    mmsi ← _u bits 8 30;
    part_no ← _u bits 38 2;
    if zmem part_no [0; 1] then
      name ← sixbit_to_ascii bits 40 120;
      Ok (Accept {| s_type := 24; s_mmsi := mmsi; s_name := name |})
    else Ok (Reject partB)
  else Ok (Reject (not_static msgtype)).

Definition aprs_symbol_for (i : info) : string * string :=
  let t := i_type i in
  if t =? 4 then ("/", "r")
  else if t =? 27 then ("/", "s")
  else if zmem t [1; 2; 3; 18; 19] then ("/", "s")
  else ("/", "s").

(** *** Sentence parsing and fragment reassembly *)

(** An entry of [frag_store]; its ["time"] item is written once and never
    read, and is left out. *)
Record frag_entry : Type := mk_entry {
  total : Z;
  payloads : gmap Z string;
  fill : Z
}.

(** The error strings of [parse_nmea]. *)
Inductive perr : Type := not_AIVDM | short_line | bad_frag_fields | waiting_frag.

Definition field (parts : list string) (i : nat) : string := nth i parts "".

(** [s or d] on strings. *)
Definition or_str (s d : string) : string := if Py.truthy s then s else d.

(** ["".join(payloads.get(i, "") for i in range(1, total + 1))] *)
Definition join_payloads (pl : gmap Z string) (total : Z) : string :=
  String.concat "" ((fun i => default "" (pl !! i)) <$> seqZ 1 total).

(** The fields of a sentence that [parse_nmea] works with. *)
Record sentence : Type := mk_sentence {
  fragcount : Z;
  fragnum : Z;
  seq_id : string;
  channel : string;
  payload : string;
  fillbits : Z
}.

(** [parse_nmea] up to the fill bits: the sentence is recognised and its
    fields are read. *)
Definition fields (line : string) : sentence + perr :=
  if negb (String.prefix "!AIVDM" line || String.prefix "!AIVDO" line)
  then inr not_AIVDM else
  let parts := Py.split "," line in
  if (length parts <? 7)%nat then inr short_line else
  match Py.int (or_str (field parts 1) "1"), Py.int (or_str (field parts 2) "1") with
  | Some fragcount, Some fragnum =>
      let seq_id := field parts 3 in
      let channel := field parts 4 in
      let payload := field parts 5 in
      let fb_raw := hd "" (Py.split "*" (field parts 6)) in
      let fillbits := default 0 (Py.int (or_str fb_raw "0")) in
      inl (mk_sentence fragcount fragnum seq_id channel payload fillbits)
  | _, _ => inr bad_frag_fields
  end.

(** [parse_nmea] from the single-fragment test on, with the global
    [frag_store] threaded through. *)
Definition reassemble (frag_store : gmap (string * string) frag_entry) (s : sentence)
  : gmap (string * string) frag_entry * (string * Z + perr) :=
  if (fragcount s =? 1) && (fragnum s =? 1)
  then (frag_store, inl (payload s, fillbits s)) else
  let key := (seq_id s, channel s) in
  let entry := default (mk_entry (fragcount s) ∅ (fillbits s)) (frag_store !! key) in
  let entry := mk_entry (total entry) (<[fragnum s := payload s]> (payloads entry))
                        (fillbits s) in
  if Z.of_nat (size (payloads entry)) =? total entry
  then (delete key frag_store,
        inl (join_payloads (payloads entry) (total entry), fill entry))
  else (<[key := entry]> frag_store, inr waiting_frag).

Definition parse_nmea (frag_store : gmap (string * string) frag_entry) (line : string)
  : gmap (string * string) frag_entry * (string * Z + perr) :=
  match fields line with
  | inr err => (frag_store, inr err)
  | inl s => reassemble frag_store s
  end.

(** What a sequence of calls of [parse_nmea] returns, and the store after
    the last. *)
Fixpoint feed (frag_store : gmap (string * string) frag_entry) (lines : list string)
  : gmap (string * string) frag_entry * list (string * Z + perr) :=
  match lines with
  | [] => (frag_store, [])
  | line :: lines' =>
      let '(fs, r) := parse_nmea frag_store line in
      let '(fs, rs) := feed fs lines' in
      (fs, r :: rs)
  end.

(** *** The object line *)

(** [int(x or 0)] on an optional float. *)
Definition int_or0 (x : option Q) : Z :=
  match x with Some q => Py.trunc q | None => 0 end.

Definition join_sp (parts : list string) : string := String.concat " " parts.

Section Object.

(** [dm_lat], [dm_lon] (degrees and decimal minutes, a float formatting)
    are taken as given. *)
Variables dm_lat dm_lon : Q → string.

(** [make_ais_aprs_object]; [hhmmss] is the value of [utc_hhmmss()]. *)
Definition make_ais_aprs_object (i : info) (vessel_name : option string) (hhmmss : string)
  : string * string * string * string :=
  let mmsi_str := Py.fmt_0d 9 (i_mmsi i) in
  let obj_name := mmsi_str in
  let ts := hhmmss +:+ "z" in
  let '(table, code) := aprs_symbol_for i in
  let sog := int_or0 (i_sog i) in
  let cog := int_or0 (i_cog i) in
  let comment_parts :=
    ((if Py.otruthy vessel_name then ["NAME " +:+ default "" vessel_name] else []) ++
     ["SOG " +:+ Py.dec sog +:+ "kt"; "COG " +:+ Py.fmt_0d 3 cog] ++
     (match i_hdg i with Some h => ["HDG " +:+ Py.dec h] | None => [] end) ++
     ["MMSI " +:+ mmsi_str])%list in
  let comment := join_sp comment_parts in
  let pkt := ";" +:+ Py.fmt_left 9 obj_name +:+ "*" +:+ ts +:+ dm_lat (i_lat i) +:+ table
             +:+ dm_lon (i_lon i) +:+ code +:+ comment in
  (pkt, obj_name, table, code).

End Object.

(** The object-name field of an object line: the text between the leading
    semicolon and the first asterisk. *)
Fixpoint upto_star (s : string) : string :=
  match s with
  | EmptyString => EmptyString
  | String c s' => if Ascii.eqb c "*" then EmptyString else String c (upto_star s')
  end.

Definition name_field (pkt : string) : string :=
  match pkt with
  | String _ rest => upto_star rest
  | EmptyString => EmptyString
  end.

(** *** The manager: the body of the loop of [ais_worker] *)

Record good_fix : Type := mk_fix { f_lat : Q; f_lon : Q; f_time : Z }.

Record state : Type := mk_state {
  frag_store : gmap (string * string) frag_entry;
  name_cache : gmap Z string;
  last_good : gmap Z good_fix;
  last_sec : Z;
  sent_this_sec : Z
}.

Definition init : state := mk_state ∅ ∅ ∅ 0 0.

(** What one input line does to the APRS connection. *)
Inductive event : Type :=
  | Sent (now : Z) (obj_name : string) (pkt : string)
  | SendFailed (now : Z)
  | Handler (e : pyerr).

(** [bits[:-fill]] *)
Definition drop_fill (bits : list bool) (fill : Z) : list bool :=
  if fill =? 0 then bits
  else if 0 <? fill then take (length bits - Z.to_nat fill) bits
  else take (Z.to_nat (- fill)) bits.

Section Worker.

Variable haversine_nm : Q → Q → Q → Q → Q.
Variables dm_lat dm_lon : Q → string.

(** The three position decoders in the order the worker tries them. *)
Definition decode_any (bits : list bool) : exn (decoded info) :=
  r ← decode_position bits;
  match r with
  | Accept i => Ok (Accept i)
  | Reject _ =>
      r ← decode_basestation bits;
      match r with
      | Accept i => Ok (Accept i)
      | Reject _ => decode_longrange bits
      end
  end.

(** From the range gate to the send, for a decoded position. *)
Definition manage (st : state) (i : info) (now : Z) (hhmmss : string) (send_ok : bool)
  : state * list event :=
  let lat := i_lat i in
  let lon := i_lon i in
  if Py.qlt (Qabs lat) (1 # 1000)%Q && Py.qlt (Qabs lon) (1 # 1000)%Q then (st, []) else
  let d_center := haversine_nm CENTER_LAT CENTER_LON lat lon in
  if Py.qlt MAX_RANGE_NM d_center then (st, []) else
  let teleport :=
    match last_good st !! i_mmsi i with
    | Some prev =>
        let d_move := haversine_nm (f_lat prev) (f_lon prev) lat lon in
        let dt := now - f_time prev in
        (dt <? TELEPORT_TIME_SEC) && Py.qlt TELEPORT_MOVE_NM d_move
    | None => false
    end in
  if teleport then (st, []) else
  let st := if negb (now =? last_sec st)
            then mk_state (frag_store st) (name_cache st) (last_good st) now 0
            else st in
  if sent_this_sec st >=? MAX_PKTS_PER_SEC then (st, []) else
  let st := mk_state (frag_store st) (name_cache st) (last_good st)
                     (last_sec st) (sent_this_sec st + 1) in
  let vname := name_cache st !! i_mmsi i in
  let '(pkt, obj_name, table, code) := make_ais_aprs_object dm_lat dm_lon i vname hhmmss in
  if negb send_ok then (st, [SendFailed now]) else
  (mk_state (frag_store st) (name_cache st)
            (<[i_mmsi i := mk_fix lat lon now]> (last_good st))
            (last_sec st) (sent_this_sec st),
   [Sent now obj_name pkt]).

(** From the armoured payload to the send: what runs inside the [try]
    after a successful [parse_nmea]. *)
Definition process (st : state) (payload : string) (fill : Z)
    (now : Z) (hhmmss : string) (send_ok : bool) : exn (state * list event) :=
  let bits := drop_fill (sixbit_unpack payload) fill in
  static ← decode_static bits;
  match static with
  | Accept si =>
      let name := Py.strip (s_name si) in
      if Py.truthy name
      then Ok (mk_state (frag_store st) (<[s_mmsi si := name]> (name_cache st))
                        (last_good st) (last_sec st) (sent_this_sec st), [])
      else Ok (st, [])
  | Reject _ =>
      r ← decode_any bits;
      match r with
      | Accept i => Ok (manage st i now hhmmss send_ok)
      | Reject _ => Ok (st, [])
      end
  end.

(** One iteration of the loop of [ais_worker] on one input line.  The
    event [Handler] records that an exception reached the
    [except Exception] of the worker, which closes and reopens the APRS
    connection; [SendFailed] that [aprs.send] raised and the line is lost. *)
Definition ais_step (st : state) (line : string) (now : Z) (hhmmss : string) (send_ok : bool)
  : state * list event :=
  let '(fs, parsed) := parse_nmea (frag_store st) line in
  let st := mk_state fs (name_cache st) (last_good st) (last_sec st) (sent_this_sec st) in
  match parsed with
  | inr _ => (st, [])
  | inl (payload, fill) =>
      match process st payload fill now hhmmss send_ok with
      | Ok r => r
      | Raise e => (st, [Handler e])
      end
  end.

(** *** Runs of the worker *)

(** What one iteration reads: the line, the clock, the value of
    [utc_hhmmss()] and the outcome of [aprs.send]. *)
Record input : Type := mk_input {
  in_line : string;
  in_now : Z;
  in_hhmmss : string;
  in_send_ok : bool
}.

Fixpoint run (st : state) (ins : list input) : state * list event :=
  match ins with
  | [] => (st, [])
  | i :: ins' =>
      let '(st, ev) := ais_step st (in_line i) (in_now i) (in_hhmmss i) (in_send_ok i) in
      let '(st, evs) := run st ins' in
      (st, (ev ++ evs)%list)
  end.

End Worker.

End AIS.

(** * Stand-ins for the parameters and example inputs

    [flat_miles] stands in for [haversine_nm] when an example of the AIS
    section is run.  It is zero on coincident points, as the formula of the
    source is; the examples use it on points that coincide. *)

Definition flat_miles (lat1 lon1 lat2 lon2 : Q) : Q :=
  (69 * (Qabs (lat2 - lat1) + Qabs (lon2 - lon1)))%Q.

Definition no_dm (_ : Q) : string := "".

(** The number is neither a NaN nor an infinity. *)
Definition finite (x : float) : bool :=
  match Prim2SF x with
  | S754_nan | S754_infinity _ => false
  | _ => true
  end.

Definition finite_opt (x : option float) : bool :=
  match x with Some x => finite x | None => true end.

(** [flat_distance] stands in for [haversine_miles] when an example of the
    ADS-B section is run.  Like the formula of the source it is zero on
    coincident points, a NaN when a coordinate is a NaN, and it raises
    [ValueError] when a coordinate is an infinity (as [math.sin] and
    [math.cos] do); the examples use it on points that coincide, that lie
    about half a degree of latitude apart, or that lie thousands of miles
    apart. *)
Definition flat_distance (lat1 lon1 lat2 lon2 : float) : exn float :=
  if forallb (λ x, match Prim2SF x with S754_infinity _ => false | _ => true end)
       [lat1; lon1; lat2; lon2]
  then Ok (69 * (PrimFloat.abs (lat2 - lat1) + PrimFloat.abs (lon2 - lon1)))%float
  else Raise ValueError.

(** A stand-in for the format of the minutes. *)
Definition no_fmt (_ : float) : string := "".

(** A stand-in for [float()] used to run the examples: an optional sign,
    digits, and an optional fraction; the value is the quotient of two
    integers, rounded once. *)
Fixpoint frac_digits (num : Z) (den : Z) (l : list ascii) : option float :=
  match l with
  | [] => Some (PyFloat.of_int num / PyFloat.of_int den)%float
  | c :: l' =>
      if Py.is_digit c then frac_digits (10 * num + Py.digit_val c) (10 * den) l' else None
  end.

Fixpoint whole_digits (num : Z) (l : list ascii) : option float :=
  match l with
  | [] => Some (PyFloat.of_int num)
  | c :: l' =>
      if Py.is_digit c then whole_digits (10 * num + Py.digit_val c) l'
      else if Ascii.eqb c "." then frac_digits num 1 l'
      else None
  end.

Definition simple_float (s : string) : option float :=
  match list_ascii_of_string (Py.strip s) with
  | [] => None
  | "-"%char :: ds => PrimFloat.opp <$> whole_digits 0 ds
  | ds => whole_digits 0 ds
  end.

Definition sbs_line_bad_alt : string :=
  "MSG,3,1,1,ABC123,1,2024/01/01,00:00:00.000,2024/01/01,00:00:00.000,,12x,,,42.95,-78.70,,,,,,0".

Definition sbs_line_17_fields : string :=
  "MSG,3,1,1,ABC123,1,2024/01/01,00:00:00.000,2024/01/01,00:00:00.000,,1200,,,42.95,-78.70,".

(** The symbol [symbol_for_category] returns when the metadata cache has
    nothing for the address. *)
Definition plane : string * string * string := ("/", "^", "PLANE").

(** An SBS record with an ICAO address, an optional callsign, a position
    and an optional altitude, processed at time [now] with a working APRS
    connection, an empty metadata cache and the default symbol. *)
Definition rec_at (hex : string) (cs : option string) (lat lon : float)
    (alt : option float) (now : Z) : ADSB.input :=
  ADSB.mk_input (SBS.mk_msg (Some hex) cs lat lon None None alt) None plane "120000"
    now true true.

(** A cleanup phase at time [now] with a working APRS connection. *)
Definition sweep_at (now : Z) : ADSB.sweep :=
  ADSB.mk_sweep now "120000" (λ _, plane) (λ _, true).

(** A track is sent at 800 ft and is still at 800 ft 180 s later: the
    landed dwell deletes it and puts its name in [landed_block]. *)
Definition landing_run : list ADSB.action :=
  [ADSB.Record_ (rec_at "A00001" None ADSB.KBUF_LAT ADSB.KBUF_LON (Some 800%float) 0);
   ADSB.Record_ (rec_at "A00001" None ADSB.KBUF_LAT ADSB.KBUF_LON (Some 800%float) 180)].

Definition landed_state : ADSB.state :=
  (ADSB.run flat_distance no_fmt ADSB.init landing_run).1.

(** The record is not stopped by the range hysteresis: the distance is
    computed, the name is tracked and the test [dist > CLEAR_DISTANCE_MI]
    fails, or the name is not tracked and the test [dist > ADD_DISTANCE_MI]
    fails. *)
Definition passes_range (hav : float → float → float → float → exn float)
    (st : ADSB.state) (i : ADSB.input) : Prop :=
  let name := ADSB.tracked_name_of st i in
  ∃ d, ADSB.dist_kbuf hav i = Ok d ∧
       ((is_Some (ADSB.last_seen st !! name) ∧ PyFloat.gt d ADSB.CLEAR_DISTANCE_MI = false) ∨
        (ADSB.last_seen st !! name = None ∧ PyFloat.gt d ADSB.ADD_DISTANCE_MI = false)).

(** The state in which a name has left the landed set: the effect of the
    block under [# Landed suppression re-enable]. *)
Definition reenabled (st : ADSB.state) (name : string) : ADSB.state :=
  ADSB.mk_state (ADSB.last_seen st) (ADSB.last_sent st)
    (delete name (ADSB.low_alt_since st)) (ADSB.landed_block st ∖ {[name]})
    (ADSB.hex_to_name st) (ADSB.name_to_hex st) (ADSB.last_sec st) (ADSB.sent_this_sec st).

(** *** The emission decision in words *)



(** [abs(c - p) >= eps] on floats: the difference is the rounded one. *)
Definition delta_at_least (eps c p : float) : Prop :=
  PyFloat.ge (PrimFloat.abs (c - p)) eps = true.















(** *** The two identity maps *)

(** Every address mapped to a name is what the name maps back to. *)
Definition maps_agree (st : ADSB.state) : Prop :=
  ∀ h n, ADSB.hex_to_name st !! h = Some n → ADSB.name_to_hex st !! n = Some h.

(** No other ICAO address currently holds the name the record asks for. *)
Definition no_collision (st : ADSB.state) (i : ADSB.input) : Prop :=
  map_Forall (λ h n, n = ADSB.desired_name_of i → h = ADSB.icao_hex_of i)
             (ADSB.hex_to_name st).

(** No record of the run meets a collision in the state it is processed in. *)
Fixpoint collision_free (hav : float → float → float → float → exn float)
    (fmt : float → string) (st : ADSB.state) (acts : list ADSB.action) : bool :=
  match acts with
  | [] => true
  | a :: acts' =>
      match a with
      | ADSB.Record_ i => bool_decide (no_collision st i)
      | ADSB.Cleanup _ => true
      end && collision_free hav fmt (ADSB.step hav fmt st a).1 acts'
  end.

(** Two aircraft report the same callsign. *)
Definition collision_run : list ADSB.action :=
  [ADSB.Record_ (rec_at "A00001" (Some "UAL123") ADSB.KBUF_LAT ADSB.KBUF_LON None 0);
   ADSB.Record_ (rec_at "A00002" (Some "UAL123") ADSB.KBUF_LAT ADSB.KBUF_LON None 0)].

(** An aircraft is first seen without a callsign and renamed when the
    callsign appears; a second aircraft flies out of range; at the end
    everything expires. *)
Definition rename_run : list ADSB.action :=
  [ADSB.Record_ (rec_at "ABCDEF" None ADSB.KBUF_LAT ADSB.KBUF_LON None 0);
   ADSB.Record_ (rec_at "A00002" (Some "DAL42") ADSB.KBUF_LAT ADSB.KBUF_LON None 1);
   ADSB.Cleanup (sweep_at 1);
   ADSB.Record_ (rec_at "ABCDEF" (Some "UAL123") ADSB.KBUF_LAT ADSB.KBUF_LON None 7);
   ADSB.Record_ (rec_at "A00002" (Some "DAL42") 0%float 0%float None 8);
   ADSB.Cleanup (sweep_at 400)].

(** The invariant that the steps preserve: the maps agree, and no address
    and no name in [hex_to_name] is the empty string. *)
Definition agree (h2n n2h : gmap string string) : Prop :=
  ∀ h n, h2n !! h = Some n →
         n2h !! n = Some h ∧ Py.truthy h = true ∧ Py.truthy n = true.

Definition agree_st (st : ADSB.state) : Prop :=
  agree (ADSB.hex_to_name st) (ADSB.name_to_hex st).

(** *** Counting the lines of a second *)

Fixpoint count {A} (p : A → bool) (l : list A) : nat :=
  match l with
  | [] => 0
  | x :: l' => (if p x then 1 else 0) + count p l'
  end.

(** An ADS-B line, of any kind, sent in second [sec]. *)
Definition adsb_line_at (sec : Z) (e : ADSB.event) : bool :=
  match e with
  | ADSB.Sent now _ _ _ _ => now =? sec
  | ADSB.SendFailed _ _ => false
  | ADSB.Handler _ => false
  end.

(** An ADS-B object update (not a delete) sent in second [sec]. *)
Definition adsb_update_at (sec : Z) (e : ADSB.event) : bool :=
  match e with
  | ADSB.Sent now false _ _ _ => now =? sec
  | _ => false
  end.

(** A call of [aprs.send] by the AIS worker in second [sec], whether it
    returned or raised. *)
Definition ais_line_at (sec : Z) (e : AIS.event) : bool :=
  match e with
  | AIS.Sent now _ _ => now =? sec
  | AIS.SendFailed now => now =? sec
  | AIS.Handler _ => false
  end.

(** The clock readings never go backwards, starting from [t0]. *)
Fixpoint nondecreasing (t0 : Z) (times : list Z) : Prop :=
  match times with
  | [] => True
  | t :: times' => t0 <= t ∧ nondecreasing t times'
  end.

(** What the throttle maintains, for a counter of lines per second. *)
Definition throttle_inv (last_sec sent_this_sec : Z) (cnt : Z → nat) : Prop :=
  0 <= sent_this_sec <= 5 ∧
  (∀ sec, (cnt sec <= 5)%nat) ∧
  Z.of_nat (cnt last_sec) <= sent_this_sec ∧
  (∀ sec, last_sec < sec → cnt sec = 0%nat).

(** What one step does to the throttle: nothing; or the second is
    entered and nothing is counted; or the second is entered and one line
    is counted in it. *)
Definition throttle_step (last_sec sent_this_sec now last_sec' sent_this_sec' : Z)
    (cnt_ev : Z → nat) : Prop :=
  let sent0 := if now =? last_sec then sent_this_sec else 0 in
  ((∀ sec, cnt_ev sec = 0%nat) ∧ last_sec' = last_sec ∧ sent_this_sec' = sent_this_sec) ∨
  ((∀ sec, cnt_ev sec = 0%nat) ∧ last_sec' = now ∧ sent_this_sec' = sent0) ∨
  ((∀ sec, cnt_ev sec = if sec =? now then 1%nat else 0%nat) ∧
   last_sec' = now ∧ sent0 < 5 ∧ sent_this_sec' = sent0 + 1).

(** Six aircraft are admitted, five in second 0 and one in second 1, and
    then fall silent; the cleanup phase of second 400 expires them all. *)
Definition expiry_run : list ADSB.action :=
  [ADSB.Record_ (rec_at "A00001" None ADSB.KBUF_LAT ADSB.KBUF_LON None 0);
   ADSB.Record_ (rec_at "A00002" None ADSB.KBUF_LAT ADSB.KBUF_LON None 0);
   ADSB.Record_ (rec_at "A00003" None ADSB.KBUF_LAT ADSB.KBUF_LON None 0);
   ADSB.Record_ (rec_at "A00004" None ADSB.KBUF_LAT ADSB.KBUF_LON None 0);
   ADSB.Record_ (rec_at "A00005" None ADSB.KBUF_LAT ADSB.KBUF_LON None 0);
   ADSB.Cleanup (sweep_at 0);
   ADSB.Record_ (rec_at "A00006" None ADSB.KBUF_LAT ADSB.KBUF_LON None 1);
   ADSB.Cleanup (sweep_at 1);
   ADSB.Cleanup (sweep_at 400)].

(** Seven times the same position report within one second. *)
Definition ais_burst : list AIS.input :=
  replicate 7 (AIS.mk_input "!AIVDM,1,1,,A,1>qc:00000JFli0HS2p00?v00000,0*28" 100 "120000" true).

(** *** Fragments of one message *)

(** The fragment number, the payload and the fill bits [parse_nmea] reads
    from a line. *)
Definition frag_no (line : string) : Z :=
  match AIS.fields line with inl s => AIS.fragnum s | inr _ => 0 end.

Definition frag_payload (line : string) : string :=
  match AIS.fields line with inl s => AIS.payload s | inr _ => "" end.

Definition frag_fill (line : string) : Z :=
  match AIS.fields line with inl s => AIS.fillbits s | inr _ => 0 end.

(** The line is a sentence of a message of [n] fragments under the key
    (sequence id, channel), with a fragment number between 1 and [n]. *)
Definition fragment_of (n : Z) (key : string * string) (line : string) : Prop :=
  ∃ s, AIS.fields line = inl s ∧ AIS.fragcount s = n ∧
       (AIS.seq_id s, AIS.channel s) = key ∧ 1 <= AIS.fragnum s <= n.

(** All fragments 1..n are among the lines. *)
Definition complete (n : Z) (lines : list string) : Prop :=
  ∀ k, 1 <= k <= n → k ∈ frag_no <$> lines.

(** The payload of the last line that carries fragment number [k]. *)
Definition latest (k : Z) (lines : list string) : string :=
  default "" (frag_payload <$> last (List.filter (λ l, frag_no l =? k) lines)).

(** The payloads in ascending fragment number, concatenated. *)
Definition assembled (n : Z) (lines : list string) : string :=
  String.concat "" ((λ k, latest k lines) <$> seqZ 1 n).

(** The payloads [parse_nmea] has collected from the lines. *)
Definition collected (lines : list string) : gmap Z string :=
  foldl (λ m l, <[frag_no l := frag_payload l]> m) ∅ lines.

(** The entry of the key after the lines, none of which completed the
    message. *)
Definition entry_after (n : Z) (lines : list string) : option AIS.frag_entry :=
  match last lines with
  | None => None
  | Some l => Some (AIS.mk_entry n (collected lines) (frag_fill l))
  end.

(** A message of three fragments that arrive in the order 2, 1, 2, 3. *)
Definition three_fragments : list string :=
  ["!AIVDM,3,2,7,A,BBB,0*00"; "!AIVDM,3,1,7,A,AAA,0*00"; "!AIVDM,3,2,7,A,bbb,0*00"].

Definition third_fragment : string := "!AIVDM,3,3,7,A,CC,2*00".

(** *** Object names of the ADS-B lines *)

(** The object name of a line handed to [aprs.send]. *)
Definition event_name (e : ADSB.event) : option string :=
  match e with
  | ADSB.Sent _ _ name _ _ => Some name
  | ADSB.SendFailed _ name => Some name
  | ADSB.Handler _ => None
  end.

Definition nine (s : string) : Prop := String.length s = 9%nat.

(** The line of the event, if it is one, carries a 9-character name. *)
Definition named_nine (e : ADSB.event) : Prop :=
  ∀ n, event_name e = Some n → nine n.

(** Every name the manager keeps is 9 characters wide. *)
Definition names_nine (st : ADSB.state) : Prop :=
  (∀ h n, ADSB.hex_to_name st !! h = Some n → nine n) ∧
  (∀ n t, ADSB.last_seen st !! n = Some t → nine n).

(** *** Records of the range examples *)

(** A first record of A00001 at the centre whose send fails, and a record
    of the same aircraft thousands of miles away. *)
Definition first_failed : ADSB.input :=
  ADSB.mk_input (SBS.mk_msg (Some "A00001") None ADSB.KBUF_LAT ADSB.KBUF_LON None None None)
    None plane "120000" 10 false true.

Definition far_away (hex : string) (cs : option string) (now : Z) : ADSB.input :=
  rec_at hex cs 0%float 0%float None now.

(** A record whose latitude field read [nan]. *)
Definition nan_record : ADSB.input :=
  rec_at "A00003" None nan ADSB.KBUF_LON None 30.

(** * Properties *)

Example dec_ex : Py.dec 366999999 = "366999999" /\ Py.dec 0 = "0" /\ Py.fmt_0d 9 1234 = "000001234".
Proof. repeat split; reflexivity. Qed.

Example int_ex :
  Py.int " 12 " = Some 12 /\ Py.int "-3" = Some (-3) /\ Py.int "1_0" = Some 10 /\
  Py.int "" = None /\ Py.int "3x" = None /\ Py.int "_1" = None /\ Py.int "03" = Some 3.
Proof. repeat split; reflexivity. Qed.

(** [int] does not skip the separators FS..US that [str.strip] removes. *)
Example int_separator_ex :
  Py.int (String (ascii_of_nat 28) "3") = None /\
  Py.strip (String (ascii_of_nat 28) "3") = "3".
Proof. split; reflexivity. Qed.

Example split_ex : Py.split "," "a,,b" = ["a"; ""; "b"] /\ Py.split "," "" = [""].
Proof. repeat split; reflexivity. Qed.

(** ** The AIS decoders *)

Lemma bin_val_app b x : AIS.bin_val (b ++ [x]) = 2 * AIS.bin_val b + Z.b2z x.
Proof. unfold AIS.bin_val. by rewrite fold_left_app. Qed.

Lemma bin_val_bounds b : 0 <= AIS.bin_val b < 2 ^ Z.of_nat (length b).
Proof.
  induction b as [|x b IH] using rev_ind; [cbn; lia|].
  rewrite bin_val_app, length_app, Nat2Z.inj_add, Z.pow_add_r by lia.
  cbn [length]. change (2 ^ Z.of_nat 1) with 2. destruct x; cbn [Z.b2z]; lia.
Qed.

Lemma bin_val_lead_zero b : AIS.bin_val (false :: b) = AIS.bin_val b.
Proof. reflexivity. Qed.

Lemma slice_length bits start n : (length (AIS.slice bits start n) <= n)%nat.
Proof. unfold AIS.slice. rewrite length_take. lia. Qed.

(** A signed read of [n] bits stays below [2^(n-1)]. *)
Lemma _s_upper bits start n :
  (0 < n)%nat → AIS._s bits start n < 2 ^ (Z.of_nat n - 1).
Proof.
  intros Hn. unfold AIS._s.
  pose proof (slice_length bits start n) as Hlen.
  assert (Hpos : 0 < 2 ^ (Z.of_nat n - 1)) by (apply Z.pow_pos_nonneg; lia).
  destruct (AIS.slice bits start n) as [|b0 b] eqn:Hb; [lia|].
  cbn [length] in Hlen.
  assert (Hmono : 2 ^ Z.of_nat (length b) <= 2 ^ (Z.of_nat n - 1))
    by (apply Z.pow_le_mono_r; lia).
  pose proof (bin_val_bounds b) as Hb'.
  rewrite Z.shiftl_1_l.
  destruct b0.
  - pose proof (bin_val_bounds (true :: b)) as Hall.
    assert (2 ^ Z.of_nat (length (true :: b)) <= 2 ^ Z.of_nat n)
      by (apply Z.pow_le_mono_r; cbn [length]; lia).
    lia.
  - rewrite bin_val_lead_zero. lia.
Qed.

(** The latitude read of [decode_longrange] is a signed 17-bit value: it
    never equals the 17-bit pattern of all ones. *)
Lemma longrange_lat_never_sentinel bits : AIS._s bits 62 17 ≠ 0x1FFFF.
Proof.
  pose proof (_s_upper bits 62 17 ltac:(lia)) as H.
  change (2 ^ (Z.of_nat 17 - 1)) with 65536 in H. lia.
Qed.

Lemma bind_Ok {A B} (m : exn A) (f : A → exn B) b :
  m ≫= f = Ok b → ∃ a, m = Ok a ∧ f a = Ok b.
Proof. destruct m; [eauto|done]. Qed.

(** Inversion of a successful run through binds and tests. *)
Ltac exn_inv H :=
  repeat match type of H with
  | (_ ≫= _) = Ok _ => apply bind_Ok in H as (? & ? & H)
  | (if ?c then _ else _) = Ok _ =>
      destruct c eqn:?; [try discriminate H|try discriminate H]
  | Ok _ = Ok _ => injection H as H
  | AIS.Accept _ = AIS.Accept _ => injection H as H
  end.

(** A position report that [decode_position] accepts has raw coordinates
    inside the sanity bounds. *)
Lemma decode_position_bounds bits i :
  AIS.decode_position bits = Ok (AIS.Accept i) →
  Z.abs (Qnum (AIS.i_lon i)) < 108600000 ∧ Z.abs (Qnum (AIS.i_lat i)) < 54600000.
Proof.
  unfold AIS.decode_position. intros H. exn_inv H.
  destruct x0 as [[[[lon lat] sog10] cog10] hdg]. exn_inv H. subst i. cbn.
  match goal with Hb : (_ || _) = false |- _ => apply orb_false_iff in Hb as [? ?] end.
  lia.
Qed.

Lemma decode_basestation_bounds bits i :
  AIS.decode_basestation bits = Ok (AIS.Accept i) →
  Z.abs (Qnum (AIS.i_lon i)) < 108600000 ∧ Z.abs (Qnum (AIS.i_lat i)) < 54600000.
Proof.
  unfold AIS.decode_basestation. intros H. exn_inv H. subst i. cbn.
  match goal with Hb : (_ || _) = false |- _ => apply orb_false_iff in Hb as [? ?] end.
  lia.
Qed.

(** C7 (the code departs from the claim).  The claim: the type-27 decoder
    rejects every bit string whose 17-bit latitude field is all ones.  The
    code: on the payload [K5Mwqgh=75?wwP00] (type 27, latitude field all
    ones) [decode_longrange] accepts the record, with a raw latitude of -1,
    because the field is read signed before it is compared with 0x1FFFF. *)
Theorem C7_longrange_lat_all_ones_accepted :
  let bits := AIS.sixbit_unpack "K5Mwqgh=75?wwP00" in
  AIS.slice bits 62 17 = replicate 17 true ∧
  AIS.decode_longrange bits =
    Ok (AIS.Accept (AIS.mk_info 27 366999999 (-1 # 600)%Q (-47340 # 600)%Q None None None)).
Proof. split; vm_compute; reflexivity. Qed.

(** ** The AIS decode chain and exceptions *)

Lemma _u_empty start n : AIS._u [] start n = Raise ValueError.
Proof. unfold AIS._u, AIS.slice. by rewrite drop_nil, take_nil. Qed.

Lemma decode_static_empty : AIS.decode_static [] = Raise ValueError.
Proof. reflexivity. Qed.

(** Whenever the unpacked payload is empty after the fill bits are
    removed, the chain raises before any decoder has looked at a length. *)
Lemma process_raises_on_empty_bits hav dm1 dm2 st payload fill now ts ok :
  AIS.drop_fill (AIS.sixbit_unpack payload) fill = [] →
  AIS.process hav dm1 dm2 st payload fill now ts ok = Raise ValueError.
Proof. intros H. unfold AIS.process. by rewrite H. Qed.

Lemma _u_ok bits start n :
  (start < length bits)%nat → (0 < n)%nat → ∃ v, AIS._u bits start n = Ok v.
Proof.
  intros Hs Hn. unfold AIS._u, AIS.slice, AIS.int2.
  destruct (take n (drop start bits)) as [|b0 b] eqn:Hb; [|eauto].
  apply (f_equal length) in Hb. rewrite length_take, length_drop in Hb. cbn in Hb. lia.
Qed.

Lemma bind_Ok_eq {A B} (a : A) (f : A → exn B) : Ok a ≫= f = f a.
Proof. reflexivity. Qed.

Ltac u_ok :=
  repeat match goal with
  | |- context [AIS._u ?b ?s ?n] =>
      let v := fresh "v" in
      let Hv := fresh "Hv" in
      destruct (_u_ok b s n) as [v Hv]; [lia|lia|rewrite Hv, ?bind_Ok_eq]
  end.

Ltac by_cases :=
  repeat first
    [ rewrite bind_Ok_eq
    | progress cbn beta iota
    | match goal with |- context [if ?c then _ else _] => destruct c end ];
  eauto.

Lemma decode_position_total bits : ∃ r, AIS.decode_position bits = Ok r.
Proof.
  unfold AIS.decode_position.
  destruct (AIS.len bits <? 168) eqn:Hlen; [eauto|].
  unfold AIS.len in Hlen. apply Z.ltb_ge in Hlen.
  u_ok. by_cases.
Qed.

Lemma decode_basestation_total bits : ∃ r, AIS.decode_basestation bits = Ok r.
Proof.
  unfold AIS.decode_basestation.
  destruct (AIS.len bits <? 168) eqn:Hlen; [eauto|].
  unfold AIS.len in Hlen. apply Z.ltb_ge in Hlen.
  u_ok. by_cases.
Qed.

Lemma decode_longrange_total bits : ∃ r, AIS.decode_longrange bits = Ok r.
Proof.
  unfold AIS.decode_longrange.
  destruct (AIS.len bits <? 96) eqn:Hlen; [eauto|].
  unfold AIS.len in Hlen. apply Z.ltb_ge in Hlen.
  u_ok. by_cases.
Qed.

Lemma sixbit_chars_ok bits idx :
  Forall (λ i, (i < length bits)%nat) idx → ∃ out, AIS.sixbit_chars bits idx = Ok out.
Proof.
  induction 1 as [|i idx Hi _ [out IH]]; [by eexists|].
  cbn [AIS.sixbit_chars]. destruct (_u_ok bits i 6) as [v Hv]; [done|lia|].
  rewrite Hv, bind_Ok_eq, IH, bind_Ok_eq. eauto.
Qed.

Lemma sixbit_to_ascii_ok bits start n :
  (start + n <= length bits)%nat → ∃ s, AIS.sixbit_to_ascii bits start n = Ok s.
Proof.
  intros Hlen. unfold AIS.sixbit_to_ascii.
  destruct (sixbit_chars_ok bits (AIS.range6 start n)) as [out Hout].
  - unfold AIS.range6. apply Forall_fmap, Forall_forall. intros k Hk.
    apply elem_of_seq in Hk. cbn.
    assert (6 * ((n + 5) / 6) <= n + 5)%nat by (apply Nat.Div0.mul_div_le).
    lia.
  - rewrite Hout, bind_Ok_eq. eauto.
Qed.

Lemma decode_static_ok bits : bits ≠ [] → ∃ r, AIS.decode_static bits = Ok r.
Proof.
  intros Hne. unfold AIS.decode_static.
  assert (0 < length bits)%nat by (destruct bits; [done|cbn; lia]).
  destruct (_u_ok bits 0 6) as [t Ht]; [lia|lia|]. rewrite Ht, bind_Ok_eq.
  destruct (t =? 5).
  - destruct (AIS.len bits <? 424) eqn:Hlen; [eauto|].
    unfold AIS.len in Hlen. apply Z.ltb_ge in Hlen.
    u_ok. destruct (sixbit_to_ascii_ok bits 112 120) as [s Hs]; [lia|].
    rewrite Hs, bind_Ok_eq. eauto.
  - destruct (t =? 24); [|eauto].
    destruct (AIS.len bits <? 160) eqn:Hlen; [eauto|].
    unfold AIS.len in Hlen. apply Z.ltb_ge in Hlen.
    u_ok. destruct (sixbit_to_ascii_ok bits 40 120) as [s Hs]; [lia|].
    rewrite Hs, ?bind_Ok_eq. by_cases.
Qed.

Lemma decode_any_total bits : ∃ r, AIS.decode_any bits = Ok r.
Proof.
  unfold AIS.decode_any.
  destruct (decode_position_total bits) as [[i|w] ->]; rewrite bind_Ok_eq; [eauto|].
  destruct (decode_basestation_total bits) as [[i|w'] ->]; rewrite bind_Ok_eq; [eauto|].
  apply decode_longrange_total.
Qed.

(** The chain raises exactly when the bit string is empty: every other
    record, short, unsupported or malformed, is decoded or dropped. *)
Lemma process_raises_iff hav dm1 dm2 st payload fill now ts ok :
  raises (AIS.process hav dm1 dm2 st payload fill now ts ok) = true ↔
  AIS.drop_fill (AIS.sixbit_unpack payload) fill = [].
Proof.
  split.
  - intros Hr. destruct (AIS.drop_fill _ fill) as [|b0 b] eqn:Hb; [done|].
    exfalso. unfold AIS.process in Hr. rewrite Hb in Hr.
    destruct (decode_static_ok (b0 :: b)) as [[si|w] Hs]; [done| |];
      rewrite Hs, bind_Ok_eq in Hr.
    + by destruct (Py.truthy _).
    + destruct (decode_any_total (b0 :: b)) as [[i|w'] Ha];
        rewrite Ha, bind_Ok_eq in Hr; done.
  - intros Hb. by rewrite process_raises_on_empty_bits.
Qed.

(** C9 (the code departs from the claim).  The claim: every AIS input
    line, an empty payload included, is dropped without raising and never
    reaches the exception handler of [ais_worker].  The code: on the
    sentence [!AIVDM,1,1,,A,,0*26] the first decoder tried, [decode_static],
    reads the message type with [_u] from an empty bit string; [int("", 2)]
    raises [ValueError], the handler of [ais_worker] runs and the APRS
    connection is closed and reopened.  This holds in every state of the
    worker. *)
Theorem C9_empty_payload_reaches_handler
    (hav : Q → Q → Q → Q → Q) (dm1 dm2 : Q → string)
    (st : AIS.state) (now : Z) (ts : string) (ok : bool) :
  AIS.parse_nmea (AIS.frag_store st) "!AIVDM,1,1,,A,,0*26"
    = (AIS.frag_store st, inl ("", 0)) ∧
  AIS.decode_static (AIS.drop_fill (AIS.sixbit_unpack "") 0) = Raise ValueError ∧
  (AIS.ais_step hav dm1 dm2 st "!AIVDM,1,1,,A,,0*26" now ts ok).2
    = [AIS.Handler ValueError].
Proof. repeat split; reflexivity. Qed.

(** ** Object names *)

Lemma spaces_length n : String.length (Py.spaces n) = n.
Proof. induction n; cbn; congruence. Qed.

Lemma zeros_length n : String.length (Py.zeros n) = n.
Proof. induction n; cbn; congruence. Qed.

Lemma string_app_cons c (s t : string) : String c s +:+ t = String c (s +:+ t).
Proof. reflexivity. Qed.

Lemma string_app_length (s t : string) :
  String.length (s +:+ t) = (String.length s + String.length t)%nat.
Proof.
  induction s as [|c s IH]; [done|].
  rewrite string_app_cons. simpl. by rewrite IH.
Qed.

Lemma string_app_assoc (s t u : string) : (s +:+ t) +:+ u = s +:+ t +:+ u.
Proof.
  induction s as [|c s IH]; [done|].
  by rewrite !string_app_cons, IH.
Qed.

Lemma take_length n s : String.length (Py.take n s) = Nat.min n (String.length s).
Proof. revert s; induction n; intros [|c s]; cbn; auto. Qed.

Lemma ljust_length w s : String.length (Py.ljust w s) = Nat.max w (String.length s).
Proof. unfold Py.ljust. rewrite string_app_length, spaces_length. lia. Qed.

(** Every name built by [name_from_callsign_or_hex] is 9 characters wide. *)
Lemma name_from_callsign_or_hex_length callsign icao_hex :
  String.length (ADSB.name_from_callsign_or_hex callsign icao_hex) = 9%nat.
Proof.
  unfold ADSB.name_from_callsign_or_hex.
  destruct (ADSB.normalize_callsign callsign); rewrite ljust_length, take_length; lia.
Qed.

(** The time stamp of an ADS-B object line ends in the letter z. *)
Lemma object_head_ends_in_z name ts :
  ∃ pre, ADSB.object_head name ts = pre +:+ "z".
Proof.
  exists (";" +:+ name +:+ "*" +:+ ts). unfold ADSB.object_head.
  by rewrite !string_app_assoc.
Qed.

(** C2 (the code departs from the claim).  The claim: for every AIS record
    the manager accepts, with any 30-bit MMSI, the object name is exactly
    9 characters.  The code: the sentence below is a type-1 position report
    at the centre of the range gate with MMSI 1000000000 (a 30-bit value);
    [decode_position] accepts it, the manager sends it, and the object
    name and the name field of the line are the 10 characters
    [1000000000]: [make_ais_aprs_object] pads to 9 but never truncates. *)
Theorem C2_ten_digit_mmsi_name :
  let line := "!AIVDM,1,1,,A,1>qc:00000JFli0HS2p00?v00000,0*28" in
  let pkt := ";1000000000*120000z/sSOG 0kt COG 000 MMSI 1000000000" in
  (AIS.ais_step flat_miles no_dm no_dm AIS.init line 100 "120000" true).2
    = [AIS.Sent 100 "1000000000" pkt] ∧
  AIS.name_field pkt = "1000000000" ∧
  String.length (AIS.name_field pkt) = 10%nat ∧
  1000000000 < 2 ^ 30.
Proof. repeat split; vm_compute; reflexivity. Qed.

Lemma dec_digits_length fuel : ∀ (k : nat) n acc,
  (1 <= k)%nat → 0 <= n < 10 ^ Z.of_nat k →
  (String.length (Py.dec_digits fuel n acc) <= k + String.length acc)%nat.
Proof.
  induction fuel as [|fuel IH]; intros k n acc Hk Hn; cbn [Py.dec_digits]; [lia|].
  destruct (n <? 10) eqn:Hlt; [cbn [String.length]; lia|].
  apply Z.ltb_ge in Hlt.
  destruct k as [|[|k]]; [lia| change (10 ^ Z.of_nat 1) with 10 in Hn; lia |].
  specialize (IH (S k) (n / 10) (String (Py.digit_char (n mod 10)) acc)).
  cbn [String.length] in IH.
  assert (0 <= n / 10 < 10 ^ Z.of_nat (S k)); [|lia].
  split; [apply Z.div_pos; lia|].
  apply Z.div_lt_upper_bound; [lia|].
  replace (Z.of_nat (S (S k))) with (Z.succ (Z.of_nat (S k))) in Hn by lia.
  rewrite Z.pow_succ_r in Hn by lia. lia.
Qed.

(** For an MMSI of at most nine decimal digits the object name of
    [make_ais_aprs_object] is 9 characters wide. *)
Lemma ais_object_name_length dm1 dm2 i vname ts :
  0 <= AIS.i_mmsi i < 10 ^ 9 →
  String.length (AIS.make_ais_aprs_object dm1 dm2 i vname ts).1.1.2 = 9%nat.
Proof.
  intros H. unfold AIS.make_ais_aprs_object.
  destruct (AIS.aprs_symbol_for i) as [table code]. cbn [fst snd].
  unfold Py.fmt_0d. rewrite string_app_length, zeros_length.
  pose proof (dec_digits_length (S (Z.to_nat (Z.log2 (AIS.i_mmsi i)))) 9
                (AIS.i_mmsi i) "" ltac:(lia) H) as Hlen.
  unfold Py.dec. cbn [String.length] in Hlen. lia.
Qed.

(** ** The SBS line decoder *)

Section SbsProps.

Variable float : string → option PrimFloat.float.

Lemma parse_fields_some f m :
  SBS.parse_fields float f = Some m →
  (22 <= length f)%nat ∧ SBS.field f 0 = "MSG" ∧
  (Py.int (SBS.field f 1) = Some 3 ∨ Py.int (SBS.field f 1) = Some 4).
Proof.
  unfold SBS.parse_fields. intros H.
  destruct (_ || _) eqn:Hg; [done|].
  apply orb_false_iff in Hg as [Hlen Hmsg].
  apply Nat.ltb_ge in Hlen. apply negb_false_iff, String.eqb_eq in Hmsg.
  destruct (Py.int (SBS.field f 1)) as [subtype|]; [|done].
  destruct (negb _) eqn:Hs; [done|].
  apply negb_false_iff, orb_true_iff in Hs as [Hs|Hs]; apply Z.eqb_eq in Hs; subst; auto.
Qed.

Lemma parse_fields_short f : (length f < 22)%nat → SBS.parse_fields float f = None.
Proof.
  intros H. unfold SBS.parse_fields.
  apply Nat.ltb_lt in H. by rewrite H.
Qed.

Lemma field_take f n j : (j < n)%nat → SBS.field (take n f) j = SBS.field f j.
Proof.
  intros H. unfold SBS.field. rewrite nth_firstn.
  apply Nat.ltb_lt in H. by rewrite H.
Qed.

(** The result depends on the line only through its first 16 fields and
    through the test that there are at least 22 of them. *)
Lemma parse_fields_reads_16 f g :
  (22 <= length f)%nat → (22 <= length g)%nat → take 16 f = take 16 g →
  SBS.parse_fields float f = SBS.parse_fields float g.
Proof.
  intros Hf Hg Heq.
  assert (Hfield : ∀ j, (j < 16)%nat → SBS.field f j = SBS.field g j).
  { intros j Hj. rewrite <- (field_take f 16 j), <- (field_take g 16 j) by done.
    by rewrite Heq. }
  unfold SBS.parse_fields.
  rewrite !Hfield by lia.
  assert ((length f <? 22)%nat = (length g <? 22)%nat) as ->.
  { transitivity false; [|symmetry]; apply Nat.ltb_ge; lia. }
  assert ((10 <? length f)%nat = (10 <? length g)%nat) as ->.
  { transitivity true; [|symmetry]; apply Nat.ltb_lt; lia. }
  reflexivity.
Qed.

(** A field that [float()] refuses becomes [None]; the record is still
    returned when the latitude and the longitude are there. *)
Lemma parse_fields_non_numeric f la lo :
  (22 <= length f)%nat → SBS.field f 0 = "MSG" →
  (Py.int (SBS.field f 1) = Some 3 ∨ Py.int (SBS.field f 1) = Some 4) →
  SBS.float_or_none float (SBS.field f 14) = Some la →
  SBS.float_or_none float (SBS.field f 15) = Some lo →
  ∃ m, SBS.parse_fields float f = Some m ∧
       (float (SBS.field f 11) = None → SBS.alt m = None) ∧
       (float (SBS.field f 12) = None → SBS.gs m = None) ∧
       (float (SBS.field f 13) = None → SBS.trk m = None).
Proof.
  intros Hlen Hmsg Hsub Hla Hlo. unfold SBS.parse_fields.
  apply Nat.ltb_ge in Hlen. rewrite Hlen, Hmsg. cbn [orb negb String.eqb].
  change (String.eqb "MSG" "MSG") with true. cbn [negb].
  assert (∃ subtype, Py.int (SBS.field f 1) = Some subtype ∧
                     negb ((subtype =? 3) || (subtype =? 4)) = false)
    as (subtype & -> & ->) by (destruct Hsub; eauto).
  rewrite Hla, Hlo. eexists. split; [reflexivity|]. cbn.
  unfold SBS.float_or_none.
  repeat split; intros ->; by destruct (Py.truthy _).
Qed.

End SbsProps.

(** C10.  [parse_sbs] returns a record only for a line with at least 22
    comma-separated fields whose first field is MSG and whose second field
    parses as the integer 3 or 4; a line with fewer than 22 fields is
    rejected, although the result depends on the first 16 fields only;
    and an altitude, ground-speed or track field that [float()] refuses
    becomes [None] while the record is still returned. *)
Theorem C10_parse_sbs (float : string → option PrimFloat.float) (line : string) :
  let f := Py.split "," (Py.strip line) in
  (∀ m, SBS.parse_sbs float line = Some m →
        (22 <= length f)%nat ∧ SBS.field f 0 = "MSG" ∧
        (Py.int (SBS.field f 1) = Some 3 ∨ Py.int (SBS.field f 1) = Some 4)) ∧
  ((length f < 22)%nat → SBS.parse_sbs float line = None) ∧
  (∀ line', let g := Py.split "," (Py.strip line') in
        (22 <= length f)%nat → (22 <= length g)%nat → take 16 f = take 16 g →
        SBS.parse_sbs float line = SBS.parse_sbs float line') ∧
  ((22 <= length f)%nat → SBS.field f 0 = "MSG" →
   (Py.int (SBS.field f 1) = Some 3 ∨ Py.int (SBS.field f 1) = Some 4) →
   is_Some (SBS.float_or_none float (SBS.field f 14)) →
   is_Some (SBS.float_or_none float (SBS.field f 15)) →
   ∃ m, SBS.parse_sbs float line = Some m ∧
        (float (SBS.field f 11) = None → SBS.alt m = None) ∧
        (float (SBS.field f 12) = None → SBS.gs m = None) ∧
        (float (SBS.field f 13) = None → SBS.trk m = None)).
Proof.
  cbv zeta. unfold SBS.parse_sbs.
  generalize (Py.split "," (Py.strip line)). intros f. repeat split.
  - eapply parse_fields_some; eauto.
  - eapply parse_fields_some; eauto.
  - eapply parse_fields_some; eauto.
  - apply parse_fields_short.
  - intros line'. apply parse_fields_reads_16.
  - intros Hlen Hmsg Hsub [la Hla] [lo Hlo].
    by apply (parse_fields_non_numeric float f la lo).
Qed.

Lemma C10_parse_sbs_witness :
  (∃ m, SBS.parse_sbs simple_float sbs_line_bad_alt = Some m ∧ SBS.alt m = None) ∧
  SBS.parse_sbs simple_float sbs_line_17_fields = None.
Proof.
  split.
  - destruct (C10_parse_sbs simple_float sbs_line_bad_alt) as (_ & _ & _ & H).
    destruct H as (m & Hm & Halt & _).
    + vm_compute. lia.
    + reflexivity.
    + left. reflexivity.
    + eexists. vm_compute. reflexivity.
    + eexists. vm_compute. reflexivity.
    + exists m. split; [exact Hm|]. apply Halt. reflexivity.
  - apply (C10_parse_sbs simple_float sbs_line_17_fields). vm_compute. lia.
Defined.

(** ** The dictionary [last_seen] *)

Section DictProps.

Context {V : Type}.
Implicit Types (d : PyDict.dict V) (k : string) (v : V).

Lemma dict_lookup_empty k : (∅ : PyDict.dict V) !! k = None.
Proof. reflexivity. Qed.

Lemma dict_lookup_insert_eq d k v : <[k := v]> d !! k = Some v.
Proof.
  destruct d as [l]. unfold lookup, insert, PyDict.dict_lookup, PyDict.dict_insert. cbn.
  induction l as [|[k' v'] l IH]; cbn.
  - by rewrite String.eqb_refl.
  - destruct (String.eqb k' k) eqn:He; cbn; [by rewrite String.eqb_refl|by rewrite He].
Qed.

Lemma dict_lookup_insert_ne d k k' v : k ≠ k' → <[k := v]> d !! k' = d !! k'.
Proof.
  intros Hne. destruct d as [l].
  unfold lookup, insert, PyDict.dict_lookup, PyDict.dict_insert. cbn.
  assert (Hk : String.eqb k k' = false) by by apply String.eqb_neq.
  induction l as [|[k0 v0] l IH]; cbn.
  - by rewrite Hk.
  - destruct (String.eqb k0 k) eqn:He; cbn.
    + apply String.eqb_eq in He as ->. by rewrite Hk.
    + by rewrite IH.
Qed.

Lemma dict_lookup_delete_eq d k : delete k d !! k = None.
Proof.
  destruct d as [l]. unfold lookup, delete, PyDict.dict_lookup, PyDict.dict_delete. cbn.
  induction l as [|[k0 v0] l IH]; cbn; [done|].
  destruct (String.eqb k0 k) eqn:He; cbn; [done|by rewrite He].
Qed.

Lemma dict_lookup_delete_ne d k k' : k ≠ k' → delete k d !! k' = d !! k'.
Proof.
  intros Hne. destruct d as [l].
  unfold lookup, delete, PyDict.dict_lookup, PyDict.dict_delete. cbn.
  induction l as [|[k0 v0] l IH]; cbn; [done|].
  destruct (String.eqb k0 k) eqn:He; cbn.
  - apply String.eqb_eq in He as ->.
    assert (String.eqb k k' = false) as -> by by apply String.eqb_neq. done.
  - by rewrite IH.
Qed.

Lemma dict_lookup_delete_Some d k k' v :
  delete k d !! k' = Some v ↔ k ≠ k' ∧ d !! k' = Some v.
Proof.
  destruct (decide (k = k')) as [->|Hne].
  - rewrite dict_lookup_delete_eq. split; [done|by intros [? _]].
  - rewrite dict_lookup_delete_ne by done. split; [done|by intros [_ ?]].
Qed.

Lemma dict_lookup_insert_Some d k k' v v' :
  <[k := v]> d !! k' = Some v' ↔ (k = k' ∧ v = v') ∨ (k ≠ k' ∧ d !! k' = Some v').
Proof.
  destruct (decide (k = k')) as [->|Hne].
  - rewrite dict_lookup_insert_eq. split.
    + intros [= ->]. by left.
    + intros [[_ ->]|[? _]]; done.
  - rewrite dict_lookup_insert_ne by done. split; [by right|].
    intros [[? _]|[_ ?]]; done.
Qed.

(** A key among the items is a key of the dictionary. *)
Lemma dict_items_lookup d k v : (k, v) ∈ PyDict.items d → is_Some (d !! k).
Proof.
  destruct d as [l]. unfold lookup, PyDict.dict_lookup. cbn.
  induction l as [|[k0 v0] l IH]; [by intros ?%elem_of_nil|].
  intros Hin. cbn. destruct (String.eqb k0 k) eqn:He; [eauto|].
  apply elem_of_cons in Hin as [[= <- <-]|Hin]; [by rewrite String.eqb_refl in He|].
  by apply IH.
Qed.

(** The keys of the items stay distinct. *)
Lemma set_keys (l : list (string * V)) k v :
  (PyDict.set k v l).*1
  = match PyDict.get l k with Some _ => l.*1 | None => (l.*1 ++ [k])%list end.
Proof.
  induction l as [|[k0 v0] l IH]; cbn; [done|].
  destruct (String.eqb k0 k) eqn:He; cbn.
  - by apply String.eqb_eq in He as ->.
  - rewrite IH. by destruct (PyDict.get l k).
Qed.

Lemma get_None_keys (l : list (string * V)) k : PyDict.get l k = None → k ∉ l.*1.
Proof.
  induction l as [|[k0 v0] l IH]; cbn; [intros _; by apply not_elem_of_nil|].
  destruct (String.eqb k0 k) eqn:He; [done|].
  apply String.eqb_neq in He. intros Hg. apply not_elem_of_cons. split; [done|]. by apply IH.
Qed.

Lemma pop_keys_sub (l : list (string * V)) k x : x ∈ (PyDict.pop k l).*1 → x ∈ l.*1.
Proof.
  induction l as [|[k0 v0] l IH]; cbn; [done|].
  destruct (String.eqb k0 k); cbn.
  - intros Hx. apply list_elem_of_further. by apply IH.
  - intros Hx. apply elem_of_cons in Hx as [->|Hx]; [apply list_elem_of_here|].
    apply list_elem_of_further. by apply IH.
Qed.

Lemma dict_keys_distinct d k v :
  NoDup (PyDict.items d).*1 →
  NoDup (PyDict.items (<[k := v]> d)).*1 ∧ NoDup (PyDict.items (delete k d)).*1.
Proof.
  destruct d as [l]. unfold insert, delete, PyDict.dict_insert, PyDict.dict_delete. cbn.
  intros Hnd. split.
  - rewrite set_keys. destruct (PyDict.get l k) eqn:Hg; [done|].
    apply NoDup_app. split; [done|]. split; [|apply NoDup_singleton].
    intros x Hx ->%list_elem_of_singleton. by apply (get_None_keys l k).
  - induction l as [|[k0 v0] l IH]; cbn; [apply NoDup_nil_2|].
    cbn in Hnd. apply NoDup_cons in Hnd as [Hk0 Hnd].
    destruct (String.eqb k0 k); [by apply IH|].
    cbn. apply NoDup_cons. split; [|by apply IH].
    intros Hx. by apply Hk0, (pop_keys_sub l k).
Qed.

End DictProps.

Lemma has_true {K V M} `{Lookup K V M} (m : M) (k : K) :
  ADSB.has m k = true ↔ is_Some (m !! k).
Proof. unfold ADSB.has. destruct (m !! k); split; (done || eauto || by intros []). Qed.

Lemma has_false {K V M} `{Lookup K V M} (m : M) (k : K) :
  ADSB.has m k = false ↔ m !! k = None.
Proof. unfold ADSB.has. by destruct (m !! k). Qed.

(** ** Floats: order and finiteness *)

Lemma compare_cont_antisym p q :
  PosDef.Pos.compare_cont Eq q p = CompOpp (PosDef.Pos.compare_cont Eq p q).
Proof. exact (Pos.compare_antisym p q). Qed.

Lemma SFcompare_antisym x y : SFcompare y x = CompOpp <$> SFcompare x y.
Proof.
  destruct x as [sx|sx| |sx mx ex], y as [sy|sy| |sy my ey];
    cbn [SFcompare fmap option_fmap option_map];
    try reflexivity; try (destruct sx; reflexivity); try (destruct sy; reflexivity);
    try (destruct sx, sy; reflexivity).
  f_equal. rewrite (Z.compare_antisym ex ey), (compare_cont_antisym mx my).
  destruct sx, sy; try reflexivity.
  - destruct (ex ?= ey); try reflexivity.
  - destruct (ex ?= ey); try reflexivity.
Qed.

(** [x <= y] excludes [x > y], and [x < y] excludes [x >= y]. *)
Lemma fle_not_gt x y : PyFloat.le x y = true → PyFloat.gt x y = false.
Proof.
  unfold PyFloat.le, PyFloat.gt. rewrite leb_spec, ltb_spec. unfold SFleb, SFltb.
  rewrite (SFcompare_antisym (Prim2SF x) (Prim2SF y)).
  destruct (SFcompare (Prim2SF x) (Prim2SF y)) as [[]|]; cbn; congruence.
Qed.

Lemma fgt_not_le x y : PyFloat.gt x y = true → PyFloat.le x y = false.
Proof.
  intros H. destruct (PyFloat.le x y) eqn:Hle; [|reflexivity].
  apply fle_not_gt in Hle. congruence.
Qed.

Lemma le_landed_not_clear a :
  PyFloat.le a ADSB.LANDED_ALT_FT = true → PyFloat.gt a ADSB.LAND_CLEAR_ALT = false.
Proof.
  unfold PyFloat.le, PyFloat.gt. rewrite leb_spec, ltb_spec. unfold SFleb, SFltb.
  replace (Prim2SF ADSB.LANDED_ALT_FT) with (S754_finite false 8796093022208000 (-43))
    by (vm_compute; reflexivity).
  replace (Prim2SF ADSB.LAND_CLEAR_ALT) with (S754_finite false 6597069766656000 (-42))
    by (vm_compute; reflexivity).
  destruct (Prim2SF a) as [s|s| |s m e]; cbn [SFcompare];
    try (destruct s; congruence); try congruence.
  destruct s; [congruence|].
  destruct (Z.compare_spec e (-43)), (Z.compare_spec (-42) e); try congruence; lia.
Qed.

Lemma gt_clear_not_landed a :
  PyFloat.gt a ADSB.LAND_CLEAR_ALT = true → PyFloat.le a ADSB.LANDED_ALT_FT = false.
Proof.
  intros H. destruct (PyFloat.le a ADSB.LANDED_ALT_FT) eqn:Hle; [|reflexivity].
  apply le_landed_not_clear in Hle. congruence.
Qed.

(** [int(x)] returns exactly on the finite numbers. *)
Lemma int_ok_iff x : (∃ z, PyFloat.int x = Ok z) ↔ finite x = true.
Proof.
  unfold PyFloat.int, finite.
  destruct (Prim2SF x); split; try reflexivity; try discriminate; eauto;
    intros [? ?]; discriminate.
Qed.

Lemma int_ok x : finite x = true → ∃ z, PyFloat.int x = Ok z.
Proof. apply int_ok_iff. Qed.

Lemma int_raises x e : PyFloat.int x = Raise e → finite x = false.
Proof. unfold PyFloat.int, finite. destruct (Prim2SF x); congruence. Qed.

Lemma finite_abs x : finite (PrimFloat.abs x) = finite x.
Proof. unfold finite. rewrite abs_spec. destruct (Prim2SF x); reflexivity. Qed.

(** ** The names of the tracks *)

Lemma desired_name_length i : String.length (ADSB.desired_name_of i) = 9%nat.
Proof. apply name_from_callsign_or_hex_length. Qed.

Lemma truthy_length s : (0 < String.length s)%nat → Py.truthy s = true.
Proof. destruct s; cbn; [lia|done]. Qed.

Lemma desired_name_truthy i : Py.truthy (ADSB.desired_name_of i) = true.
Proof. apply truthy_length. rewrite desired_name_length. lia. Qed.

(** If the ICAO address is already mapped to the tracked name, the name
    is the current one (and so it is not empty). *)
Lemma tracked_is_current st i :
  ADSB.hex_to_name st !! ADSB.icao_hex_of i = Some (ADSB.tracked_name_of st i) →
  Py.otruthy (ADSB.current_name_for_hex st i) = true.
Proof.
  unfold ADSB.tracked_name_of, ADSB.current_name_for_hex.
  destruct (ADSB.hex_to_name st !! ADSB.icao_hex_of i) as [n|] eqn:Hn; [|done].
  cbn. destruct (Py.truthy n) eqn:Ht; [done|].
  intros [= ->]. by rewrite desired_name_truthy in Ht.
Qed.

(** ** The object line of the ADS-B section *)

Section ObjectProps.

Variable fmt : float → string.

Lemma dm_lat_finite lat : finite lat = true → ∃ s, Shared.dm_lat fmt lat = Ok s.
Proof.
  intros Hf. unfold Shared.dm_lat.
  destruct (int_ok (PrimFloat.abs lat)) as [d Hd]; [by rewrite finite_abs|].
  rewrite Hd. eexists. reflexivity.
Qed.

Lemma dm_lat_raises lat e : Shared.dm_lat fmt lat = Raise e → finite lat = false.
Proof.
  unfold Shared.dm_lat. destruct (PyFloat.int (PrimFloat.abs lat)) as [d|e'] eqn:Hd; [done|].
  intros _. apply int_raises in Hd. by rewrite finite_abs in Hd.
Qed.

Lemma dm_lon_finite lon : finite lon = true → ∃ s, Shared.dm_lon fmt lon = Ok s.
Proof.
  intros Hf. unfold Shared.dm_lon.
  destruct (int_ok (PrimFloat.abs lon)) as [d Hd]; [by rewrite finite_abs|].
  rewrite Hd. eexists. reflexivity.
Qed.

Lemma dm_lon_raises lon e : Shared.dm_lon fmt lon = Raise e → finite lon = false.
Proof.
  unfold Shared.dm_lon. destruct (PyFloat.int (PrimFloat.abs lon)) as [d|e'] eqn:Hd; [done|].
  intros _. apply int_raises in Hd. by rewrite finite_abs in Hd.
Qed.

Lemma dm_lat_finite_inv lat s : Shared.dm_lat fmt lat = Ok s → finite lat = true.
Proof.
  unfold Shared.dm_lat. intros H. apply bind_Ok in H as (d & Hd & _).
  rewrite <- finite_abs. apply int_ok_iff. eauto.
Qed.

Lemma dm_lon_finite_inv lon s : Shared.dm_lon fmt lon = Ok s → finite lon = true.
Proof.
  unfold Shared.dm_lon. intros H. apply bind_Ok in H as (d & Hd & _).
  rewrite <- finite_abs. apply int_ok_iff. eauto.
Qed.

(** [make_adsb_aprs_object] returns exactly when the position and the
    track, ground speed and altitude it is given are finite. *)
Lemma make_adsb_aprs_object_finite ts name lat lon table code trk gs alt icao cs tag del :
  finite lat = true → finite lon = true →
  finite_opt trk = true → finite_opt gs = true → finite_opt alt = true →
  ∃ pkt, ADSB.make_adsb_aprs_object fmt ts name lat lon table code trk gs alt icao cs tag del
         = Ok pkt.
Proof.
  intros Hlat Hlon Htrk Hgs Halt. unfold ADSB.make_adsb_aprs_object.
  destruct (dm_lat_finite lat Hlat) as [s1 ->].
  destruct (dm_lon_finite lon Hlon) as [s2 ->]. cbn [mbind exn_bind].
  assert (Hp : ∀ (x : option float) (f : Z → list string), finite_opt x = true →
            ∃ l, match x with
                 | Some t => PyFloat.int t ≫= λ v, Ok (f v)
                 | None => Ok []
                 end = Ok l).
  { intros [t|] f Hf; [|eauto]. destruct (int_ok t Hf) as [v ->]. eexists. reflexivity. }
  destruct (Hp trk (λ v, ["TRK " +:+ Py.fmt_0d 3 (v mod 360)]) Htrk) as [l1 ->].
  destruct (Hp gs (λ v, ["GS " +:+ Py.str v +:+ "kt"]) Hgs) as [l2 ->].
  destruct (Hp alt (λ v, ["ALT " +:+ Py.str v +:+ "ft"]) Halt) as [l3 ->].
  cbn [mbind exn_bind]. eexists. reflexivity.
Qed.

Lemma make_adsb_aprs_object_raises ts name lat lon table code trk gs alt icao cs tag del e :
  ADSB.make_adsb_aprs_object fmt ts name lat lon table code trk gs alt icao cs tag del
    = Raise e →
  finite lat && finite lon && finite_opt trk && finite_opt gs && finite_opt alt = false.
Proof.
  intros Hr.
  destruct (finite lat) eqn:Hlat; [|done]. destruct (finite lon) eqn:Hlon; [|done].
  destruct (finite_opt trk) eqn:Htrk; [|done]. destruct (finite_opt gs) eqn:Hgs; [|done].
  destruct (finite_opt alt) eqn:Halt; [|done].
  destruct (make_adsb_aprs_object_finite ts name lat lon table code trk gs alt icao cs tag del)
    as [pkt Hp]; try done.
  congruence.
Qed.

Lemma int_part_ok (x : option float) (f : Z → list string) l :
  match x with
  | Some t => PyFloat.int t ≫= λ v, Ok (f v)
  | None => Ok []
  end = Ok l → finite_opt x = true.
Proof.
  destruct x as [t|]; [|done]. intros H. apply bind_Ok in H as (v & Hv & _).
  apply int_ok_iff. eauto.
Qed.

Lemma make_adsb_aprs_object_ok ts name lat lon table code trk gs alt icao cs tag del pkt :
  ADSB.make_adsb_aprs_object fmt ts name lat lon table code trk gs alt icao cs tag del
    = Ok pkt →
  finite lat = true ∧ finite lon = true ∧
  finite_opt trk = true ∧ finite_opt gs = true ∧ finite_opt alt = true.
Proof.
  unfold ADSB.make_adsb_aprs_object. intros H.
  apply bind_Ok in H as (s1 & H1 & H). apply bind_Ok in H as (s2 & H2 & H).
  apply bind_Ok in H as (l1 & H3 & H). apply bind_Ok in H as (l2 & H4 & H).
  apply bind_Ok in H as (l3 & H5 & _).
  apply int_part_ok in H3, H4, H5.
  apply dm_lat_finite_inv in H1. apply dm_lon_finite_inv in H2. done.
Qed.

(** The delete line goes out exactly when the send works and the position
    is finite. *)
Lemma try_delete_spec now ts sym ok name lat lon :
  ADSB.try_delete fmt now ts sym ok name lat lon
  = if ok && finite lat && finite lon then [ADSB.Sent now true name lat lon] else [].
Proof.
  unfold ADSB.try_delete. destruct sym as [[table code] tag].
  destruct (ADSB.make_adsb_aprs_object _ _ _ _ _ _ _ _ _ _ _ _ _ _) as [pkt|e] eqn:Hm.
  - apply make_adsb_aprs_object_ok in Hm as (-> & -> & _). by destruct ok.
  - apply make_adsb_aprs_object_raises in Hm. cbn [finite_opt] in Hm.
    rewrite !andb_true_r in Hm.
    destruct ok; cbn [andb]; [by rewrite Hm|done].
Qed.

End ObjectProps.

(** ** The range hysteresis *)

Section RangeProps.

Variable hav : float → float → float → float → exn float.
Variable fmt : float → string.

(** When the distance cannot be computed the exception leaves the loop
    body before anything is changed. *)
Lemma distance_raises st i e :
  ADSB.dist_kbuf hav i = Raise e → ADSB.adsb_record hav fmt st i = (st, [ADSB.Handler e]).
Proof. intros Hd. unfold ADSB.adsb_record. by rewrite Hd. Qed.

(** A record for a name that is not tracked and lies beyond the add
    radius changes nothing and sends nothing. *)
Lemma not_admitted_beyond_add st i d :
  ADSB.dist_kbuf hav i = Ok d →
  ADSB.last_seen st !! ADSB.tracked_name_of st i = None →
  PyFloat.gt d ADSB.ADD_DISTANCE_MI = true →
  ADSB.adsb_record hav fmt st i = (st, []).
Proof.
  intros Hd Hseen Hgt. unfold ADSB.adsb_record.
  apply has_false in Hseen. by rewrite Hd, Hseen, Hgt.
Qed.

Lemma admitted_within_add st i d :
  ADSB.dist_kbuf hav i = Ok d →
  ADSB.last_seen st !! ADSB.tracked_name_of st i = None →
  PyFloat.gt d ADSB.ADD_DISTANCE_MI = false →
  ADSB.adsb_record hav fmt st i = ADSB.in_range hav fmt st i.
Proof.
  intros Hd Hseen Hgt. unfold ADSB.adsb_record.
  apply has_false in Hseen. by rewrite Hd, Hseen, Hgt.
Qed.

Lemma cleared_beyond_clear st i d :
  ADSB.dist_kbuf hav i = Ok d →
  is_Some (ADSB.last_seen st !! ADSB.tracked_name_of st i) →
  PyFloat.gt d ADSB.CLEAR_DISTANCE_MI = true →
  ADSB.adsb_record hav fmt st i = ADSB.range_clear fmt st i.
Proof.
  intros Hd Hseen Hgt. unfold ADSB.adsb_record.
  apply has_true in Hseen. by rewrite Hd, Hseen, Hgt.
Qed.

Lemma retained_within_clear st i d :
  ADSB.dist_kbuf hav i = Ok d →
  is_Some (ADSB.last_seen st !! ADSB.tracked_name_of st i) →
  PyFloat.gt d ADSB.CLEAR_DISTANCE_MI = false →
  ADSB.adsb_record hav fmt st i = ADSB.in_range hav fmt st i.
Proof.
  intros Hd Hseen Hgt. unfold ADSB.adsb_record.
  apply has_true in Hseen. by rewrite Hd, Hseen, Hgt.
Qed.

(** What [range_clear] sends and what it leaves behind. *)
Lemma range_clear_effect st i :
  let name := ADSB.tracked_name_of st i in
  let r := ADSB.range_clear fmt st i in
  let pos := match ADSB.last_sent st !! name with
             | Some li => (ADSB.si_lat li, ADSB.si_lon li)
             | None => (SBS.lat (ADSB.in_msg i), SBS.lon (ADSB.in_msg i))
             end in
  r.2 = (if ADSB.in_delete_ok i && finite pos.1 && finite pos.2
         then [ADSB.Sent (ADSB.in_now i) true name pos.1 pos.2] else []) ∧
  ADSB.last_seen r.1 = delete name (ADSB.last_seen st) ∧
  ADSB.last_sent r.1 = delete name (ADSB.last_sent st) ∧
  ADSB.low_alt_since r.1 = delete name (ADSB.low_alt_since st) ∧
  ADSB.landed_block r.1 = ADSB.landed_block st ∖ {[name]} ∧
  ADSB.name_to_hex r.1 = delete name (ADSB.name_to_hex st) ∧
  ADSB.hex_to_name r.1
  = (if Py.otruthy (ADSB.hex_to_name st !! ADSB.icao_hex_of i)
     then delete (ADSB.icao_hex_of i) (ADSB.hex_to_name st)
     else ADSB.hex_to_name st).
Proof.
  intros name r pos. subst r pos. unfold ADSB.range_clear, ADSB.delete_position.
  fold name.
  destruct (ADSB.last_sent st !! name) as [li|]; cbn [fst snd];
    unfold ADSB.record_delete; rewrite try_delete_spec; done.
Qed.

End RangeProps.

(** C5, the claim as stated fails, in three ways.  (1) The delete of a
    range clear is not always at a last-sent position: the first send of
    A00001 fails, so the name is in [last_seen] and not in [last_sent];
    the next record, thousands of miles away, clears the track with a
    delete at the position of that record.  (2) Not all entries of the
    track are removed: after [collision_run] the addresses A00001 and
    A00002 both map to the name UAL123; the far record of A00002 clears the
    track and [hex_to_name] still maps A00001 to the cleared name.  (3) A
    track is admitted although its distance is not at most 35 mi: the
    latitude of [nan_record] is a NaN, so is its distance, both range
    tests fail and the name is entered in [last_seen]. *)
Lemma C5_range_hysteresis_counterexample :
  let st1 := (ADSB.adsb_record flat_distance no_fmt ADSB.init first_failed).1 in
  let far1 := far_away "A00001" None 20 in
  let st2 := (ADSB.run flat_distance no_fmt ADSB.init collision_run).1 in
  let far2 := far_away "A00002" (Some "UAL123") 20 in
  (ADSB.last_seen st1 !! "A00001   " = Some 10 ∧
   ADSB.last_sent st1 !! "A00001   " = None ∧
   (ADSB.adsb_record flat_distance no_fmt st1 far1).2
   = [ADSB.Sent 20 true "A00001   " 0 0]) ∧
  ((ADSB.adsb_record flat_distance no_fmt st2 far2).2
   = [ADSB.Sent 20 true "UAL123   " ADSB.KBUF_LAT ADSB.KBUF_LON] ∧
   ADSB.last_seen (ADSB.adsb_record flat_distance no_fmt st2 far2).1 !! "UAL123   " = None ∧
   ADSB.hex_to_name (ADSB.adsb_record flat_distance no_fmt st2 far2).1 !! "A00001"
   = Some "UAL123   ") ∧
  (ADSB.last_seen ADSB.init !! ADSB.tracked_name_of ADSB.init nan_record = None ∧
   ADSB.dist_kbuf flat_distance nan_record = Ok nan ∧
   PyFloat.le nan ADSB.ADD_DISTANCE_MI = false ∧
   ADSB.last_seen (ADSB.adsb_record flat_distance no_fmt ADSB.init nan_record).1
     !! ADSB.tracked_name_of ADSB.init nan_record = Some 30).
Proof. cbv zeta. repeat split; vm_compute; reflexivity. Qed.

(** C5, amended.  For every record whose distance from (KBUF_LAT,
    KBUF_LON) is computed: a record for a name that is not in [last_seen]
    is dropped without any change when the test [dist > ADD_DISTANCE_MI]
    holds, and goes on to the rest of the loop body when it fails (the
    distance is at most 35 mi, or it is a NaN); a record for a name in
    [last_seen] clears the track when the test [dist > CLEAR_DISTANCE_MI]
    holds: the entries of the name in [last_seen], [last_sent],
    [low_alt_since], [landed_block] and [name_to_hex] are removed, the
    entry of the ICAO address of the record in [hex_to_name] is removed
    when the address was mapped (the entries of other addresses are
    left), and one delete line is sent, at the last-sent position when
    [last_sent] has the name and at the position of the record otherwise,
    provided that position is finite and the send works (a failure is
    swallowed, the entries are removed all the same); when the test fails,
    in particular between 35 and 40 mi, the record goes on to the rest of
    the loop body.  When the distance cannot be computed, the exception
    leaves the loop body and nothing is changed. *)
Theorem C5_range_hysteresis_amended
    (hav : float → float → float → float → exn float) (fmt : float → string)
    (st : ADSB.state) (i : ADSB.input) :
  let name := ADSB.tracked_name_of st i in
  let r := ADSB.adsb_record hav fmt st i in
  let pos := match ADSB.last_sent st !! name with
             | Some li => (ADSB.si_lat li, ADSB.si_lon li)
             | None => (SBS.lat (ADSB.in_msg i), SBS.lon (ADSB.in_msg i))
             end in
  (∀ e, ADSB.dist_kbuf hav i = Raise e → r = (st, [ADSB.Handler e])) ∧
  (∀ d, ADSB.dist_kbuf hav i = Ok d →
     (ADSB.last_seen st !! name = None →
        (PyFloat.gt d ADSB.ADD_DISTANCE_MI = true → r = (st, [])) ∧
        (PyFloat.gt d ADSB.ADD_DISTANCE_MI = false → r = ADSB.in_range hav fmt st i) ∧
        (PyFloat.le d ADSB.ADD_DISTANCE_MI = true → r = ADSB.in_range hav fmt st i)) ∧
     (is_Some (ADSB.last_seen st !! name) →
        (PyFloat.gt d ADSB.CLEAR_DISTANCE_MI = true →
           r.2 = (if ADSB.in_delete_ok i && finite pos.1 && finite pos.2
                  then [ADSB.Sent (ADSB.in_now i) true name pos.1 pos.2] else []) ∧
           ADSB.last_seen r.1 = delete name (ADSB.last_seen st) ∧
           ADSB.last_sent r.1 = delete name (ADSB.last_sent st) ∧
           ADSB.low_alt_since r.1 = delete name (ADSB.low_alt_since st) ∧
           ADSB.landed_block r.1 = ADSB.landed_block st ∖ {[name]} ∧
           ADSB.name_to_hex r.1 = delete name (ADSB.name_to_hex st) ∧
           ADSB.hex_to_name r.1
           = (if Py.otruthy (ADSB.hex_to_name st !! ADSB.icao_hex_of i)
              then delete (ADSB.icao_hex_of i) (ADSB.hex_to_name st)
              else ADSB.hex_to_name st)) ∧
        (PyFloat.gt d ADSB.CLEAR_DISTANCE_MI = false → r = ADSB.in_range hav fmt st i) ∧
        (PyFloat.le d ADSB.CLEAR_DISTANCE_MI = true → r = ADSB.in_range hav fmt st i))).
Proof.
  cbv zeta. split; [intros e He; by apply distance_raises|].
  intros d Hd. split.
  - intros Hseen. split; [|split].
    + intros Hgt. by apply (not_admitted_beyond_add hav fmt st i d).
    + intros Hgt. by apply (admitted_within_add hav fmt st i d).
    + intros Hle. apply (admitted_within_add hav fmt st i d); [done..|].
      by apply fle_not_gt.
  - intros Hseen. split; [|split].
    + intros Hgt. rewrite (cleared_beyond_clear hav fmt st i d Hd Hseen Hgt).
      apply range_clear_effect.
    + intros Hgt. by apply (retained_within_clear hav fmt st i d).
    + intros Hle. apply (retained_within_clear hav fmt st i d); [done..|].
      by apply fle_not_gt.
Qed.

Lemma C5_range_hysteresis_amended_witness :
  let st := (ADSB.adsb_record flat_distance no_fmt ADSB.init
               (rec_at "A00001" None ADSB.KBUF_LAT ADSB.KBUF_LON None 10)).1 in
  let far := far_away "A00001" None 20 in
  let near := rec_at "A00001" None (ADSB.KBUF_LAT + 0.55)%float ADSB.KBUF_LON None 20 in
  ADSB.adsb_record flat_distance no_fmt ADSB.init far = (ADSB.init, []) ∧
  (ADSB.adsb_record flat_distance no_fmt st far).2
    = [ADSB.Sent 20 true "A00001   " ADSB.KBUF_LAT ADSB.KBUF_LON] ∧
  ADSB.last_seen (ADSB.adsb_record flat_distance no_fmt st far).1
    = delete "A00001   " (ADSB.last_seen st) ∧
  ADSB.adsb_record flat_distance no_fmt st near = ADSB.in_range flat_distance no_fmt st near.
Proof.
  intros st far near.
  destruct (C5_range_hysteresis_amended flat_distance no_fmt ADSB.init far) as [_ H0].
  destruct (C5_range_hysteresis_amended flat_distance no_fmt st far) as [_ H1].
  destruct (C5_range_hysteresis_amended flat_distance no_fmt st near) as [_ H2].
  assert (Hfar : ADSB.dist_kbuf flat_distance far = Ok 8395.4163000000008%float)
    by (vm_compute; reflexivity).
  assert (Hnear : ADSB.dist_kbuf flat_distance near = Ok 37.949999999999804%float)
    by (vm_compute; reflexivity).
  assert (Hnone : ADSB.last_seen ADSB.init !! ADSB.tracked_name_of ADSB.init far = None)
    by (vm_compute; reflexivity).
  assert (Hfs : is_Some (ADSB.last_seen st !! ADSB.tracked_name_of st far))
    by (eexists; vm_compute; reflexivity).
  assert (Hns : is_Some (ADSB.last_seen st !! ADSB.tracked_name_of st near))
    by (eexists; vm_compute; reflexivity).
  destruct (H0 _ Hfar) as [H0' _]. destruct (H0' Hnone) as [H0'' _].
  destruct (H1 _ Hfar) as [_ H1']. destruct (H1' Hfs) as [H1'' _].
  destruct (H2 _ Hnear) as [_ H2']. destruct (H2' Hns) as (_ & H2'' & _).
  assert (Hgt : PyFloat.gt 8395.4163000000008 ADSB.CLEAR_DISTANCE_MI = true)
    by (vm_compute; reflexivity).
  destruct (H1'' Hgt) as (He & Hs & _).
  split; [apply H0''; vm_compute; reflexivity|].
  split; [exact He|]. split; [exact Hs|].
  apply H2''. vm_compute. reflexivity.
Defined.

(** ** The landed suppression *)

Section LandedProps.

Variable hav : float → float → float → float → exn float.
Variable fmt : float → string.

Lemma passes_range_in_range st i :
  passes_range hav st i → ADSB.adsb_record hav fmt st i = ADSB.in_range hav fmt st i.
Proof.
  unfold passes_range. intros (d & Hd & [[Hs Hgt]|[Hs Hgt]]).
  - by apply (retained_within_clear hav fmt st i d).
  - by apply (admitted_within_add hav fmt st i d).
Qed.

Lemma emission_landed_block st i n :
  ADSB.landed_block (ADSB.emission hav fmt st i n).1 = ADSB.landed_block st.
Proof.
  unfold ADSB.emission. destruct (ADSB.in_symbol i) as [[table code] tag].
  destruct (ADSB.need_send _ _ _ _) as [[|]|e]; [|done..].
  destruct (ADSB.make_adsb_aprs_object _ _ _ _ _ _ _ _ _ _ _ _ _ _); [|done].
  by destruct (ADSB.in_send_ok i).
Qed.

Lemma rename_landed_block st i n cur :
  ADSB.landed_block (ADSB.rename fmt st i n cur).1.1 = ADSB.landed_block st.
Proof.
  unfold ADSB.rename.
  destruct (_ && _); [|done].
  by destruct (ADSB.delete_position _ _ _).
Qed.

Lemma throttled_landed_block st i n cur :
  ADSB.landed_block (ADSB.throttled hav fmt st i n cur).1 = ADSB.landed_block st.
Proof.
  unfold ADSB.throttled.
  set (st1 := if negb _ then _ else st).
  assert (Hst1 : ADSB.landed_block st1 = ADSB.landed_block st)
    by (subst st1; by destruct (negb _)).
  destruct (_ >=? _); [done|].
  pose proof (rename_landed_block st1 i n cur) as Hr.
  destruct (ADSB.rename fmt st1 i n cur) as [[st2 n2] dels]. cbn [fst] in Hr.
  pose proof (emission_landed_block (ADSB.register st2 i n2) i n2) as He.
  destruct (ADSB.emission hav fmt (ADSB.register st2 i n2) i n2) as [st3 evs].
  cbn [fst] in *. rewrite He. cbn. congruence.
Qed.

(** In the landed set and at or below LANDED_ALT_FT: the record is ignored. *)
Lemma landed_low_ignored st i a :
  ADSB.tracked_name_of st i ∈ ADSB.landed_block st → passes_range hav st i →
  SBS.alt (ADSB.in_msg i) = Some a → PyFloat.le a ADSB.LANDED_ALT_FT = true →
  ADSB.adsb_record hav fmt st i = (st, []).
Proof.
  intros Hin Hr Ha Hle. rewrite (passes_range_in_range st i Hr).
  unfold ADSB.in_range. rewrite Ha.
  rewrite (le_landed_not_clear a Hle), andb_false_r, Hle.
  unfold ADSB.in_set. by rewrite bool_decide_eq_true_2.
Qed.

(** In the landed set with an altitude that is neither at most
    LANDED_ALT_FT nor above LAND_CLEAR_ALT: the record goes on to the
    throttle and the send, the name stays in the set. *)
Lemma landed_band_processed st i a :
  let name := ADSB.tracked_name_of st i in
  name ∈ ADSB.landed_block st → passes_range hav st i →
  SBS.alt (ADSB.in_msg i) = Some a →
  PyFloat.le a ADSB.LANDED_ALT_FT = false → PyFloat.gt a ADSB.LAND_CLEAR_ALT = false →
  ADSB.adsb_record hav fmt st i
    = ADSB.throttled hav fmt
        (ADSB.set_low_alt_since st (delete name (ADSB.low_alt_since st)))
        i name (ADSB.current_name_for_hex st i) ∧
  name ∈ ADSB.landed_block (ADSB.adsb_record hav fmt st i).1.
Proof.
  intros name Hin Hr Ha Hle Hgt. rewrite (passes_range_in_range st i Hr).
  unfold ADSB.in_range. fold name. rewrite Ha, Hgt, Hle, !andb_false_r.
  split; [done|]. by rewrite throttled_landed_block.
Qed.

(** In the landed set with an unknown altitude or above LAND_CLEAR_ALT:
    the name leaves the set and the record goes on to the throttle. *)
Lemma landed_cleared st i :
  let name := ADSB.tracked_name_of st i in
  name ∈ ADSB.landed_block st → passes_range hav st i →
  (SBS.alt (ADSB.in_msg i) = None ∨
   ∃ a, SBS.alt (ADSB.in_msg i) = Some a ∧ PyFloat.gt a ADSB.LAND_CLEAR_ALT = true) →
  ADSB.adsb_record hav fmt st i
    = ADSB.throttled hav fmt (reenabled st name) i name (ADSB.current_name_for_hex st i) ∧
  name ∉ ADSB.landed_block (ADSB.adsb_record hav fmt st i).1.
Proof.
  intros name Hin Hr Halt. rewrite (passes_range_in_range st i Hr).
  unfold ADSB.in_range. fold name.
  assert (Hset : ADSB.in_set (ADSB.landed_block st) name = true)
    by (unfold ADSB.in_set; by rewrite bool_decide_eq_true_2).
  rewrite Hset. cbn [andb].
  assert (Hout : ADSB.in_set (ADSB.landed_block st ∖ {[name]}) name = false).
  { unfold ADSB.in_set. apply bool_decide_eq_false_2.
    rewrite elem_of_difference, elem_of_singleton. by intros [_ ?]. }
  assert (Hgoal : ∀ r,
    r = ADSB.throttled hav fmt (reenabled st name) i name (ADSB.current_name_for_hex st i) →
    r = ADSB.throttled hav fmt (reenabled st name) i name (ADSB.current_name_for_hex st i) ∧
    name ∉ ADSB.landed_block r.1).
  { intros r ->. split; [done|]. rewrite throttled_landed_block. cbn.
    rewrite elem_of_difference, elem_of_singleton. by intros [_ ?]. }
  apply Hgoal.
  destruct Halt as [Ha|(a & Ha & Hgt)]; rewrite Ha.
  - cbn [ADSB.landed_block]. rewrite Hout. cbn [andb].
    unfold reenabled, ADSB.set_low_alt_since. cbn.
    by rewrite delete_delete_eq.
  - rewrite Hgt. cbn [ADSB.landed_block].
    rewrite Hout. cbn [andb].
    rewrite (gt_clear_not_landed a Hgt).
    unfold reenabled, ADSB.set_low_alt_since. cbn.
    by rewrite delete_delete_eq.
Qed.

End LandedProps.

(** C3, the claim as stated fails: a record for a name in the landed set
    is not ignored when its altitude is 1200 ft (at most LAND_CLEAR_ALT),
    nor when its altitude is unknown.  The track of [landing_run] has been
    deleted by the landed dwell; the next record at 1200 ft is sent while
    the name stays in the set, and a record without an altitude is sent
    and takes the name out of the set. *)
Lemma C3_landed_suppression_counterexample :
  let st := landed_state in
  let at_1200 := rec_at "A00001" None ADSB.KBUF_LAT ADSB.KBUF_LON (Some 1200%float) 181 in
  let no_alt := rec_at "A00001" None ADSB.KBUF_LAT ADSB.KBUF_LON None 181 in
  ADSB.tracked_name_of st at_1200 = "A00001   " ∧
  ADSB.tracked_name_of st no_alt = "A00001   " ∧
  elements (ADSB.landed_block st) = ["A00001   "] ∧
  PyFloat.le 1200 ADSB.LAND_CLEAR_ALT = true ∧
  ADSB.adsb_record flat_distance no_fmt st at_1200 ≠ (st, []) ∧
  ADSB.adsb_record flat_distance no_fmt st no_alt ≠ (st, []) ∧
  (ADSB.adsb_record flat_distance no_fmt st at_1200).2
    = [ADSB.Sent 181 false "A00001   " ADSB.KBUF_LAT ADSB.KBUF_LON] ∧
  elements (ADSB.landed_block (ADSB.adsb_record flat_distance no_fmt st at_1200).1)
    = ["A00001   "] ∧
  (ADSB.adsb_record flat_distance no_fmt st no_alt).2
    = [ADSB.Sent 181 false "A00001   " ADSB.KBUF_LAT ADSB.KBUF_LON] ∧
  elements (ADSB.landed_block (ADSB.adsb_record flat_distance no_fmt st no_alt).1) = [].
Proof.
  cbv zeta. repeat split; try (vm_compute; reflexivity).
  - intros H. apply (f_equal snd) in H. vm_compute in H. discriminate.
  - intros H. apply (f_equal snd) in H. vm_compute in H. discriminate.
Qed.

(** C3, amended.  For a record whose tracked name is in the landed set and
    that passes the range hysteresis: when the altitude is known and at
    most LANDED_ALT_FT = 1000 ft the record is ignored, nothing is sent and
    the state is unchanged; when the altitude is above 1000 ft and at most
    LAND_CLEAR_ALT = 1500 ft the record goes on to the throttle and the
    send while the name stays in the set; when the altitude is unknown or
    above 1500 ft the name leaves the set and the record goes on to the
    throttle and the send.  The comparisons are those of floats; an
    altitude that fails all of them (a NaN) is treated like one between
    1000 and 1500 ft. *)
Theorem C3_landed_suppression_amended
    (hav : float → float → float → float → exn float) (fmt : float → string)
    (st : ADSB.state) (i : ADSB.input) :
  let name := ADSB.tracked_name_of st i in
  let alt := SBS.alt (ADSB.in_msg i) in
  let r := ADSB.adsb_record hav fmt st i in
  name ∈ ADSB.landed_block st → passes_range hav st i →
  (∀ a, alt = Some a → PyFloat.le a ADSB.LANDED_ALT_FT = true → r = (st, [])) ∧
  (∀ a, alt = Some a →
     PyFloat.gt a ADSB.LANDED_ALT_FT = true → PyFloat.le a ADSB.LAND_CLEAR_ALT = true →
     r = ADSB.throttled hav fmt
           (ADSB.set_low_alt_since st (delete name (ADSB.low_alt_since st)))
           i name (ADSB.current_name_for_hex st i) ∧
     name ∈ ADSB.landed_block r.1) ∧
  (alt = None ∨ (∃ a, alt = Some a ∧ PyFloat.gt a ADSB.LAND_CLEAR_ALT = true) →
     r = ADSB.throttled hav fmt (reenabled st name) i name (ADSB.current_name_for_hex st i) ∧
     name ∉ ADSB.landed_block r.1) ∧
  (∀ a, alt = Some a →
     PyFloat.le a ADSB.LANDED_ALT_FT = false → PyFloat.gt a ADSB.LAND_CLEAR_ALT = false →
     r = ADSB.throttled hav fmt
           (ADSB.set_low_alt_since st (delete name (ADSB.low_alt_since st)))
           i name (ADSB.current_name_for_hex st i) ∧
     name ∈ ADSB.landed_block r.1).
Proof.
  cbv zeta. intros Hin Hr. split; [|split; [|split]].
  - intros a Ha Hle. by apply (landed_low_ignored hav fmt st i a).
  - intros a Ha Hgt Hle. apply (landed_band_processed hav fmt st i a); [done..| |].
    + by apply fgt_not_le.
    + by apply fle_not_gt.
  - intros Halt. by apply landed_cleared.
  - intros a Ha Hle Hgt. by apply (landed_band_processed hav fmt st i a).
Qed.

Lemma C3_landed_suppression_amended_witness :
  let st := landed_state in
  let at_900 := rec_at "A00001" None ADSB.KBUF_LAT ADSB.KBUF_LON (Some 900%float) 181 in
  let at_1200 := rec_at "A00001" None ADSB.KBUF_LAT ADSB.KBUF_LON (Some 1200%float) 181 in
  let at_1600 := rec_at "A00001" None ADSB.KBUF_LAT ADSB.KBUF_LON (Some 1600%float) 181 in
  ADSB.adsb_record flat_distance no_fmt st at_900 = (st, []) ∧
  ADSB.tracked_name_of st at_1200
    ∈ ADSB.landed_block (ADSB.adsb_record flat_distance no_fmt st at_1200).1 ∧
  ADSB.tracked_name_of st at_1600
    ∉ ADSB.landed_block (ADSB.adsb_record flat_distance no_fmt st at_1600).1.
Proof.
  intros st at_900 at_1200 at_1600.
  assert (Hin : ∀ alt, ADSB.tracked_name_of st
                         (rec_at "A00001" None ADSB.KBUF_LAT ADSB.KBUF_LON alt 181)
                       ∈ ADSB.landed_block st)
    by (intros alt; apply (bool_decide_unpack _); vm_compute; exact I).
  assert (Hr : ∀ alt, passes_range flat_distance st
                        (rec_at "A00001" None ADSB.KBUF_LAT ADSB.KBUF_LON alt 181)).
  { intros alt. exists 0%float. split; [vm_compute; reflexivity|].
    right. split; vm_compute; reflexivity. }
  split; [|split].
  - destruct (C3_landed_suppression_amended flat_distance no_fmt st at_900 (Hin _) (Hr _))
      as (H & _ & _).
    apply (H 900%float); [reflexivity|]. vm_compute. reflexivity.
  - destruct (C3_landed_suppression_amended flat_distance no_fmt st at_1200 (Hin _) (Hr _))
      as (_ & H & _).
    apply (H 1200%float); [reflexivity| |]; vm_compute; reflexivity.
  - destruct (C3_landed_suppression_amended flat_distance no_fmt st at_1600 (Hin _) (Hr _))
      as (_ & _ & H & _).
    apply H. right. exists 1600%float. split; [reflexivity|]. vm_compute. reflexivity.
Defined.

(** ** The emission decision *)

(** The constants are the floats Python reads from the literals, and the
    deltas are rounded differences: a latitude of 42.9405 followed by
    42.94065 is 0.00014999999999787406 away and stays below
    EPS_LATLON_DEG; a ground speed of 0.9 followed by 2.9 is 2.0 away and
    reaches EPS_GS_KT. *)
Example rounded_deltas :
  ADSB.EPS_LATLON_DEG = (15 / 100000)%float ∧
  ADSB.KBUF_LAT = (429405 / 10000)%float ∧
  ADSB.KBUF_LON = (- (787322 / 10000))%float ∧
  PrimFloat.abs (42.94065 - 42.9405) = 0.00014999999999787406%float ∧
  ¬ delta_at_least ADSB.EPS_LATLON_DEG 42.94065 42.9405 ∧
  delta_at_least ADSB.EPS_GS_KT 2.9 0.9.
Proof.
  repeat split; try (vm_compute; reflexivity).
  unfold delta_at_least. vm_compute. discriminate.
Qed.






Section EmissionProps.

Variable hav : float → float → float → float → exn float.
Variable fmt : float → string.




End EmissionProps.




(** ** The identity maps *)

Lemma agree_current_truthy h2n n2h hex :
  agree h2n n2h → Py.otruthy (h2n !! hex) = false → h2n !! hex = None.
Proof.
  intros Ha Hc. destruct (h2n !! hex) as [n|] eqn:Hn; [|done].
  destruct (Ha hex n Hn) as (_ & _ & Ht). cbn in Hc. congruence.
Qed.

(** The two pops of a range clear or a landed dwell. *)
Lemma agree_unmap h2n n2h hex desired :
  agree h2n n2h → (∀ h, h2n !! h = Some desired → h = hex) →
  let cur := h2n !! hex in
  let n := if Py.otruthy cur then default "" cur else desired in
  agree (if Py.otruthy cur then delete hex h2n else h2n) (delete n n2h).
Proof.
  intros Ha Hnc cur n. subst n.
  destruct (Py.otruthy cur) eqn:Hc.
  - destruct cur as [n|] eqn:Hcur; [|done]. change (default "" (Some n)) with n.
    intros h' n' Hl. apply lookup_delete_Some in Hl as [Hne Hl].
    destruct (Ha h' n' Hl) as (Hback & Hh & Hn). split; [|done].
    rewrite lookup_delete_ne; [done|].
    intros ->. destruct (Ha hex n' Hcur) as (Hback' & _). congruence.
  - pose proof (agree_current_truthy h2n n2h hex Ha Hc) as Hnone.
    intros h' n' Hl. destruct (Ha h' n' Hl) as (Hback & Hh & Hn). split; [|done].
    rewrite lookup_delete_ne; [done|].
    intros ->. pose proof (Hnc _ Hl) as ->. congruence.
Qed.

Lemma agree_rename h2n n2h hex desired cur_name :
  agree h2n n2h → (∀ h, h2n !! h = Some desired → h = hex) →
  h2n !! hex = Some cur_name → desired ≠ cur_name → Py.truthy desired = true →
  agree (<[hex := desired]> h2n) (<[desired := hex]> (delete cur_name n2h)).
Proof.
  intros Ha Hnc Hcur Hne Ht h' n' Hl.
  destruct (decide (h' = hex)) as [->|Hh].
  - rewrite lookup_insert_eq in Hl. injection Hl as <-.
    rewrite lookup_insert_eq. destruct (Ha hex cur_name Hcur) as (_ & ? & _). done.
  - rewrite lookup_insert_ne in Hl by done.
    destruct (Ha h' n' Hl) as (Hback & ? & ?). split; [|done].
    assert (n' ≠ desired) by (intros ->; by apply Hnc in Hl).
    assert (n' ≠ cur_name).
    { intros ->. destruct (Ha hex cur_name Hcur) as (Hback' & _). congruence. }
    by rewrite lookup_insert_ne, lookup_delete_ne.
Qed.

Lemma agree_register h2n n2h hex name :
  agree h2n n2h → (∀ h, h2n !! h = Some name → h = hex) →
  h2n !! hex = None → Py.truthy hex = true → Py.truthy name = true →
  agree (<[hex := name]> h2n) (<[name := hex]> n2h).
Proof.
  intros Ha Hnc Hnone Hh Hn h' n' Hl.
  destruct (decide (h' = hex)) as [->|Hne].
  - rewrite lookup_insert_eq in Hl. injection Hl as <-. by rewrite lookup_insert_eq.
  - rewrite lookup_insert_ne in Hl by done.
    destruct (Ha h' n' Hl) as (Hback & ? & ?). split; [|done].
    rewrite lookup_insert_ne; [done|].
    intros <-. by apply Hnc in Hl.
Qed.

Lemma agree_expire h2n n2h n :
  agree h2n n2h →
  let hx := n2h !! n in
  agree (if Py.otruthy hx then delete (default "" hx) h2n else h2n) (delete n n2h).
Proof.
  intros Ha hx h' n' Hl.
  assert (Hl' : h2n !! h' = Some n').
  { destruct (Py.otruthy hx); [|done]. by apply lookup_delete_Some in Hl as [_ ?]. }
  destruct (Ha h' n' Hl') as (Hback & Hh & Hn). split; [|done].
  rewrite lookup_delete_ne; [done|].
  intros ->. subst hx. rewrite Hback in Hl. cbn in Hl. rewrite Hh in Hl.
  by rewrite lookup_delete_eq in Hl.
Qed.

Section IdentityProps.

Variable hav : float → float → float → float → exn float.
Variable fmt : float → string.

Lemma no_collision_spec st i h :
  no_collision st i → ADSB.hex_to_name st !! h = Some (ADSB.desired_name_of i) →
  h = ADSB.icao_hex_of i.
Proof. intros Hnc Hl. by apply (Hnc h _ Hl). Qed.

Lemma range_clear_agree st i :
  agree_st st → no_collision st i → agree_st (ADSB.range_clear fmt st i).1.
Proof.
  intros Ha Hnc. unfold agree_st, ADSB.range_clear.
  destruct (ADSB.delete_position _ _ _) as [la lo]. cbn.
  apply (agree_unmap _ _ (ADSB.icao_hex_of i) (ADSB.desired_name_of i) Ha).
  intros h. by apply no_collision_spec.
Qed.

Lemma dwell_delete_agree st st' i :
  ADSB.hex_to_name st' = ADSB.hex_to_name st → ADSB.name_to_hex st' = ADSB.name_to_hex st →
  agree_st st → no_collision st i →
  agree_st (ADSB.dwell_delete fmt st' i (ADSB.tracked_name_of st i)
              (ADSB.current_name_for_hex st i)).1.
Proof.
  intros H1 H2 Ha Hnc. unfold agree_st, ADSB.dwell_delete.
  destruct (ADSB.delete_position _ _ _) as [la lo]. cbn. rewrite H1, H2.
  apply (agree_unmap _ _ (ADSB.icao_hex_of i) (ADSB.desired_name_of i) Ha).
  intros h. by apply no_collision_spec.
Qed.

Lemma emission_maps st i n :
  ADSB.hex_to_name (ADSB.emission hav fmt st i n).1 = ADSB.hex_to_name st ∧
  ADSB.name_to_hex (ADSB.emission hav fmt st i n).1 = ADSB.name_to_hex st.
Proof.
  unfold ADSB.emission. destruct (ADSB.in_symbol i) as [[table code] tag].
  destruct (ADSB.need_send _ _ _ _) as [[|]|e]; [|done..].
  destruct (ADSB.make_adsb_aprs_object _ _ _ _ _ _ _ _ _ _ _ _ _ _); [|done].
  by destruct (ADSB.in_send_ok i).
Qed.

(** The rename and the registration together, on a state whose maps are
    those of [st]. *)
Lemma rename_register_agree st st' i :
  ADSB.hex_to_name st' = ADSB.hex_to_name st → ADSB.name_to_hex st' = ADSB.name_to_hex st →
  agree_st st → no_collision st i →
  let r := ADSB.rename fmt st' i (ADSB.tracked_name_of st i) (ADSB.current_name_for_hex st i) in
  agree_st (ADSB.register r.1.1 i r.1.2).
Proof.
  intros H1 H2 Ha Hnc. cbv zeta.
  unfold ADSB.rename, ADSB.tracked_name_of, ADSB.current_name_for_hex.
  pose proof (λ h, no_collision_spec st i h Hnc) as Hnc'.
  pose proof (desired_name_truthy i) as Hd.
  set (hex := ADSB.icao_hex_of i) in *. set (desired := ADSB.desired_name_of i) in *.
  destruct (Py.otruthy (ADSB.hex_to_name st !! hex)) eqn:Hc.
  - destruct (ADSB.hex_to_name st !! hex) as [cur_name|] eqn:Hcur; [|done].
    change (default "" (Some cur_name)) with cur_name. cbn [andb].
    destruct (String.eqb desired cur_name) eqn:He; cbn [negb].
    + (* the name is the desired one: nothing to rename, nothing to register *)
      cbn [fst snd]. unfold agree_st, ADSB.register. cbn.
      unfold ADSB.has. fold hex. rewrite H1, Hcur. rewrite andb_false_r.
      by rewrite H2.
    + apply String.eqb_neq in He.
      destruct (ADSB.delete_position _ _ _) as [la lo]. cbn [fst snd].
      unfold agree_st, ADSB.register. cbn. unfold ADSB.has. fold hex.
      rewrite lookup_insert_eq, andb_false_r, H1, H2.
      by apply agree_rename.
  - pose proof (agree_current_truthy _ _ hex Ha Hc) as Hnone.
    rewrite Hnone. cbn [andb fst snd Py.otruthy].
    unfold agree_st, ADSB.register. cbn. unfold ADSB.has. fold hex.
    rewrite H1, H2, Hnone. cbn [negb]. rewrite andb_true_r.
    destruct (Py.truthy hex) eqn:Hh; [|done].
    by apply agree_register.
Qed.

Lemma throttled_agree st st' i :
  ADSB.hex_to_name st' = ADSB.hex_to_name st → ADSB.name_to_hex st' = ADSB.name_to_hex st →
  agree_st st → no_collision st i →
  agree_st (ADSB.throttled hav fmt st' i (ADSB.tracked_name_of st i)
              (ADSB.current_name_for_hex st i)).1.
Proof.
  intros H1 H2 Ha Hnc. unfold ADSB.throttled.
  set (st1 := if negb _ then _ else st').
  assert (Hst1 : ADSB.hex_to_name st1 = ADSB.hex_to_name st ∧
                 ADSB.name_to_hex st1 = ADSB.name_to_hex st)
    by (subst st1; by destruct (negb _)).
  destruct Hst1 as [H1' H2']. clearbody st1.
  destruct (_ >=? _).
  - unfold agree_st in *. cbn [fst]. by rewrite H1', H2'.
  - pose proof (rename_register_agree st st1 i H1' H2' Ha Hnc) as Hr. cbv zeta in Hr.
    destruct (ADSB.rename fmt st1 i _ _) as [[st2 n2] dels]. cbn [fst snd] in Hr.
    pose proof (emission_maps (ADSB.register st2 i n2) i n2) as [He1 He2].
    destruct (ADSB.emission hav fmt (ADSB.register st2 i n2) i n2) as [st3 evs].
    cbn [fst] in *. unfold agree_st in *. by rewrite He1, He2.
Qed.

Lemma in_range_agree st i :
  agree_st st → no_collision st i → agree_st (ADSB.in_range hav fmt st i).1.
Proof.
  intros Ha Hnc. unfold ADSB.in_range.
  set (st1 := if _ && _ then _ else st).
  assert (Hst1 : ADSB.hex_to_name st1 = ADSB.hex_to_name st ∧
                 ADSB.name_to_hex st1 = ADSB.name_to_hex st)
    by (subst st1; by destruct (_ && _)).
  destruct Hst1 as [H1 H2]. clearbody st1.
  destruct (_ && _).
  { unfold agree_st in *. cbn [fst]. by rewrite H1, H2. }
  destruct (match SBS.alt (ADSB.in_msg i) with Some _ => _ | None => _ end).
  - set (st2 := if negb _ then _ else st1).
    assert (Hst2 : ADSB.hex_to_name st2 = ADSB.hex_to_name st ∧
                   ADSB.name_to_hex st2 = ADSB.name_to_hex st)
      by (subst st2; by destruct (negb _)).
    destruct Hst2 as [H1' H2']. clearbody st2.
    destruct (_ >=? _).
    + by apply dwell_delete_agree.
    + by apply throttled_agree.
  - by apply throttled_agree.
Qed.

Lemma adsb_record_agree st i :
  agree_st st → no_collision st i → agree_st (ADSB.adsb_record hav fmt st i).1.
Proof.
  intros Ha Hnc. unfold ADSB.adsb_record.
  destruct (ADSB.dist_kbuf hav i) as [d|e]; [|done].
  destruct (_ && _); [by apply range_clear_agree|].
  destruct (_ && _); [done|].
  by apply in_range_agree.
Qed.

Lemma expire_agree c st n : agree_st st → agree_st (ADSB.expire fmt c st n).1.
Proof.
  intros Ha. unfold agree_st, ADSB.expire.
  destruct (match ADSB.last_sent st !! n with Some _ => _ | None => _ end) as [la lo].
  cbn. by apply agree_expire.
Qed.

Lemma expire_all_agree c names : ∀ st,
  agree_st st → agree_st (ADSB.expire_all fmt c st names).1.
Proof.
  induction names as [|n names IH]; intros st Ha; [done|].
  cbn [ADSB.expire_all].
  pose proof (expire_agree c st n Ha) as He.
  destruct (ADSB.expire fmt c st n) as [st1 ev]. cbn [fst] in He.
  specialize (IH st1 He).
  by destruct (ADSB.expire_all fmt c st1 names) as [st2 evs].
Qed.

Lemma cleanup_agree st c : agree_st st → agree_st (ADSB.cleanup fmt st c).1.
Proof. apply expire_all_agree. Qed.

(** Every step keeps the maps in agreement, as long as the record it
    processes does not ask for a name another address holds. *)
Lemma step_agree st a :
  agree_st st →
  match a with ADSB.Record_ i => no_collision st i | ADSB.Cleanup _ => True end →
  agree_st (ADSB.step hav fmt st a).1.
Proof.
  intros Ha Hnc. destruct a as [i|c]; cbn [ADSB.step].
  - by apply adsb_record_agree.
  - by apply cleanup_agree.
Qed.

Lemma run_agree acts : ∀ st,
  agree_st st → collision_free hav fmt st acts = true → agree_st (ADSB.run hav fmt st acts).1.
Proof.
  induction acts as [|a acts IH]; intros st Ha Hcf; [done|].
  cbn [collision_free] in Hcf. apply andb_true_iff in Hcf as [Hnc Hcf].
  cbn [ADSB.run].
  assert (Hs : agree_st (ADSB.step hav fmt st a).1).
  { apply step_agree; [done|]. destruct a; [|done]. by apply bool_decide_eq_true_1 in Hnc. }
  destruct (ADSB.step hav fmt st a) as [st1 ev]. cbn [fst] in *.
  specialize (IH st1 Hs Hcf).
  by destruct (ADSB.run hav fmt st1 acts) as [st2 evs].
Qed.

End IdentityProps.

Lemma agree_init : agree_st ADSB.init.
Proof.
  intros h n Hl. change ((∅ : gmap string string) !! h = Some n) in Hl.
  by rewrite lookup_empty in Hl.
Qed.

(** C4, the claim as stated fails: after the two records of
    [collision_run], two ICAO addresses with the same callsign, the address
    A00001 is mapped to the name UAL123 while the name maps back to
    A00002. *)
Lemma C4_maps_agree_counterexample :
  let st := (ADSB.run flat_distance no_fmt ADSB.init collision_run).1 in
  ADSB.hex_to_name st !! "A00001" = Some "UAL123   " ∧
  ADSB.name_to_hex st !! "UAL123   " = Some "A00002" ∧
  ¬ maps_agree st.
Proof.
  cbv zeta.
  assert (H1 : ADSB.hex_to_name (ADSB.run flat_distance no_fmt ADSB.init collision_run).1
                 !! "A00001" = Some "UAL123   ") by (vm_compute; reflexivity).
  assert (H2 : ADSB.name_to_hex (ADSB.run flat_distance no_fmt ADSB.init collision_run).1
                 !! "UAL123   " = Some "A00002") by (vm_compute; reflexivity).
  split; [done|]. split; [done|].
  intros H. apply H in H1. rewrite H2 in H1. discriminate.
Qed.

(** C4, amended.  In every run of the manager from its initial state in
    which no record asks for an object name that another ICAO address
    holds at that moment, after every step (admission, rename, range
    clear, landed dwell, TTL expiry) each address [h] in [hex_to_name] has
    [name_to_hex[hex_to_name[h]] = h]. *)
Theorem C4_maps_agree_amended
    (hav : float → float → float → float → exn float) (fmt : float → string)
    (acts : list ADSB.action) :
  collision_free hav fmt ADSB.init acts = true →
  maps_agree (ADSB.run hav fmt ADSB.init acts).1.
Proof.
  intros Hcf h n Hl.
  by destruct (run_agree hav fmt acts ADSB.init agree_init Hcf h n Hl).
Qed.

Lemma C4_maps_agree_amended_witness :
  maps_agree (ADSB.run flat_distance no_fmt ADSB.init rename_run).1 ∧
  maps_agree (ADSB.run flat_distance no_fmt ADSB.init (take 4 rename_run)).1.
Proof.
  split; apply C4_maps_agree_amended; vm_compute; reflexivity.
Defined.

(** ** The per-second throttle *)

Lemma count_app {A} (p : A → bool) (l1 l2 : list A) :
  count p (l1 ++ l2) = (count p l1 + count p l2)%nat.
Proof. induction l1 as [|x l1 IH]; cbn; [done|]. rewrite IH. lia. Qed.

Lemma throttle_inv_ext ls sent (c1 c2 : Z → nat) :
  (∀ sec, c1 sec = c2 sec) → throttle_inv ls sent c1 → throttle_inv ls sent c2.
Proof.
  intros Heq (H1 & H2 & H3 & H4).
  split; [done|]. split; [intros sec; rewrite <- Heq; auto|].
  split; [by rewrite <- Heq|]. intros sec Hs. rewrite <- Heq. auto.
Qed.

Lemma throttle_inv_step ls sent cnt now ls' sent' cnt_ev :
  throttle_inv ls sent cnt → ls <= now →
  throttle_step ls sent now ls' sent' cnt_ev →
  throttle_inv ls' sent' (λ sec, cnt sec + cnt_ev sec)%nat ∧ ls' <= now.
Proof.
  intros (Hsent & Hall & Hcur & Hfut) Hnow Hstep.
  unfold throttle_step in Hstep. cbv zeta in Hstep.
  destruct Hstep as [(Hev & -> & ->)|[(Hev & -> & ->)|(Hev & -> & Hlt & ->)]].
  - split; [|done]. repeat split; try lia.
    + intros sec. rewrite Hev. specialize (Hall sec). lia.
    + rewrite Hev. lia.
    + intros sec Hs. rewrite Hev, (Hfut sec Hs). done.
  - split; [|lia].
    destruct (Z.eqb_spec now ls) as [->|Hne].
    + repeat split; try lia.
      * intros sec. rewrite Hev. specialize (Hall sec). lia.
      * rewrite Hev. lia.
      * intros sec Hs. rewrite Hev, (Hfut sec Hs). done.
    + repeat split; try lia.
      * intros sec. rewrite Hev. specialize (Hall sec). lia.
      * rewrite Hev, (Hfut now) by lia. done.
      * intros sec Hs. rewrite Hev, (Hfut sec) by lia. done.
  - split; [|lia].
    destruct (Z.eqb_spec now ls) as [->|Hne].
    + repeat split; try lia.
      * intros sec. rewrite Hev. destruct (Z.eqb_spec sec ls) as [->|?]; [lia|].
        specialize (Hall sec). lia.
      * rewrite Hev, Z.eqb_refl. lia.
      * intros sec Hs. rewrite Hev, (Hfut sec Hs).
        destruct (Z.eqb_spec sec ls); [lia|done].
    + repeat split; try lia.
      * intros sec. rewrite Hev. destruct (Z.eqb_spec sec now) as [->|?].
        -- rewrite (Hfut now) by lia. lia.
        -- specialize (Hall sec). lia.
      * rewrite Hev, Z.eqb_refl, (Hfut now) by lia. lia.
      * intros sec Hs. rewrite Hev, (Hfut sec) by lia.
        destruct (Z.eqb_spec sec now); [lia|done].
Qed.

Section ThrottleProps.

Variable hav : float → float → float → float → exn float.
Variable fmt : float → string.

(** A delete line is not an object update. *)
Lemma try_delete_updates now ts sym ok name lat lon sec :
  count (adsb_update_at sec) (ADSB.try_delete fmt now ts sym ok name lat lon) = 0%nat.
Proof. rewrite try_delete_spec. by destruct (_ && _). Qed.

Lemma record_delete_updates i name lat lon sec :
  count (adsb_update_at sec) (ADSB.record_delete fmt i name lat lon) = 0%nat.
Proof. apply try_delete_updates. Qed.

Lemma rename_throttle st i n cur :
  let r := ADSB.rename fmt st i n cur in
  ADSB.last_sec r.1.1 = ADSB.last_sec st ∧
  ADSB.sent_this_sec r.1.1 = ADSB.sent_this_sec st ∧
  ∀ sec, count (adsb_update_at sec) r.2 = 0%nat.
Proof.
  cbv zeta. unfold ADSB.rename.
  destruct (_ && _); [|done].
  destruct (ADSB.delete_position _ _ _) as [la lo]. cbn [fst snd].
  split; [done|]. split; [done|]. intros sec. apply record_delete_updates.
Qed.

Lemma emission_throttle st i n :
  let r := ADSB.emission hav fmt st i n in
  ADSB.last_sec r.1 = ADSB.last_sec st ∧
  ((ADSB.sent_this_sec r.1 = ADSB.sent_this_sec st ∧
    ∀ sec, count (adsb_update_at sec) r.2 = 0%nat) ∨
   (ADSB.sent_this_sec r.1 = ADSB.sent_this_sec st + 1 ∧
    ∀ sec, count (adsb_update_at sec) r.2
           = if sec =? ADSB.in_now i then 1%nat else 0%nat)).
Proof.
  cbv zeta. unfold ADSB.emission. destruct (ADSB.in_symbol i) as [[table code] tag].
  destruct (ADSB.need_send _ _ _ _) as [[|]|e]; [|by split; [|left]..].
  destruct (ADSB.make_adsb_aprs_object _ _ _ _ _ _ _ _ _ _ _ _ _ _); [|by split; [|left]].
  destruct (ADSB.in_send_ok i); [|by split; [|left]].
  split; [done|]. right. split; [done|].
  intros sec. cbn. rewrite (Z.eqb_sym (ADSB.in_now i) sec).
  by destruct (sec =? ADSB.in_now i).
Qed.

Lemma throttled_throttle st i n cur :
  let r := ADSB.throttled hav fmt st i n cur in
  throttle_step (ADSB.last_sec st) (ADSB.sent_this_sec st) (ADSB.in_now i)
    (ADSB.last_sec r.1) (ADSB.sent_this_sec r.1) (λ sec, count (adsb_update_at sec) r.2).
Proof.
  cbv zeta. unfold ADSB.throttled, throttle_step. cbv zeta.
  set (st1 := if negb _ then _ else st).
  assert (Hst1 : ADSB.last_sec st1 = ADSB.in_now i ∧
                 ADSB.sent_this_sec st1
                 = if ADSB.in_now i =? ADSB.last_sec st then ADSB.sent_this_sec st else 0).
  { subst st1. destruct (Z.eqb_spec (ADSB.in_now i) (ADSB.last_sec st)); cbn; auto. }
  destruct Hst1 as [Hls Hsent]. clearbody st1.
  destruct (ADSB.sent_this_sec st1 >=? ADSB.MAX_PKTS_PER_SEC) eqn:Hfull.
  { right. left. cbn. auto. }
  assert (ADSB.sent_this_sec st1 < 5) by (unfold ADSB.MAX_PKTS_PER_SEC in Hfull; lia).
  pose proof (rename_throttle st1 i n cur) as (Hr1 & Hr2 & Hr3).
  destruct (ADSB.rename fmt st1 i n cur) as [[st2 n2] dels]. cbn [fst snd] in *.
  pose proof (emission_throttle (ADSB.register st2 i n2) i n2) as (He1 & He2).
  destruct (ADSB.emission hav fmt (ADSB.register st2 i n2) i n2) as [st3 evs].
  cbn [fst snd] in *. cbn [ADSB.register ADSB.last_sec ADSB.sent_this_sec] in He1, He2.
  right. destruct He2 as [[Hs Hc]|[Hs Hc]]; [left|right].
  - split; [|split; congruence].
    intros sec. by rewrite count_app, Hr3, Hc.
  - split; [|split; [congruence|split; [congruence|congruence]]].
    intros sec. by rewrite count_app, Hr3, Hc.
Qed.

Lemma in_range_throttle st i :
  let r := ADSB.in_range hav fmt st i in
  throttle_step (ADSB.last_sec st) (ADSB.sent_this_sec st) (ADSB.in_now i)
    (ADSB.last_sec r.1) (ADSB.sent_this_sec r.1) (λ sec, count (adsb_update_at sec) r.2).
Proof.
  cbv zeta. unfold ADSB.in_range.
  set (st1 := if _ && _ then _ else st).
  assert (Hst1 : ADSB.last_sec st1 = ADSB.last_sec st ∧
                 ADSB.sent_this_sec st1 = ADSB.sent_this_sec st)
    by (subst st1; by destruct (_ && _)).
  destruct Hst1 as [H1 H2]. clearbody st1.
  destruct (_ && _).
  { left. cbn. auto. }
  destruct (match SBS.alt (ADSB.in_msg i) with Some _ => _ | None => _ end).
  - set (st2 := if negb _ then _ else st1).
    assert (Hst2 : ADSB.last_sec st2 = ADSB.last_sec st ∧
                   ADSB.sent_this_sec st2 = ADSB.sent_this_sec st)
      by (subst st2; by destruct (negb _)).
    destruct Hst2 as [H1' H2']. clearbody st2.
    destruct (_ >=? _).
    + left. unfold ADSB.dwell_delete.
      destruct (ADSB.delete_position _ _ _). cbn [fst snd ADSB.last_sec ADSB.sent_this_sec].
      split; [|done]. intros sec. apply record_delete_updates.
    + rewrite <- H1', <- H2'. apply throttled_throttle.
  - rewrite <- H1, <- H2.
    apply (throttled_throttle (ADSB.set_low_alt_since st1 _)).
Qed.

Lemma adsb_record_throttle st i :
  let r := ADSB.adsb_record hav fmt st i in
  throttle_step (ADSB.last_sec st) (ADSB.sent_this_sec st) (ADSB.in_now i)
    (ADSB.last_sec r.1) (ADSB.sent_this_sec r.1) (λ sec, count (adsb_update_at sec) r.2).
Proof.
  cbv zeta. unfold ADSB.adsb_record.
  destruct (ADSB.dist_kbuf hav i) as [d|e]; [|left; cbn; auto].
  destruct (_ && _).
  { left. unfold ADSB.range_clear. destruct (ADSB.delete_position _ _ _).
    cbn [fst snd ADSB.last_sec ADSB.sent_this_sec].
    split; [|done]. intros sec. apply record_delete_updates. }
  destruct (_ && _); [left; cbn; auto|].
  apply in_range_throttle.
Qed.

Lemma expire_throttle c st n :
  let r := ADSB.expire fmt c st n in
  ADSB.last_sec r.1 = ADSB.last_sec st ∧
  ADSB.sent_this_sec r.1 = ADSB.sent_this_sec st ∧
  ∀ sec, count (adsb_update_at sec) r.2 = 0%nat.
Proof.
  cbv zeta. unfold ADSB.expire.
  destruct (match ADSB.last_sent st !! n with Some _ => _ | None => _ end) as [la lo].
  cbn [fst snd]. split; [done|]. split; [done|]. intros sec. apply try_delete_updates.
Qed.

Lemma expire_all_throttle c names : ∀ st,
  let r := ADSB.expire_all fmt c st names in
  ADSB.last_sec r.1 = ADSB.last_sec st ∧
  ADSB.sent_this_sec r.1 = ADSB.sent_this_sec st ∧
  ∀ sec, count (adsb_update_at sec) r.2 = 0%nat.
Proof.
  induction names as [|n names IH]; intros st; [done|].
  cbv zeta. cbn [ADSB.expire_all].
  pose proof (expire_throttle c st n) as (He1 & He2 & He3).
  destruct (ADSB.expire fmt c st n) as [st1 ev]. cbn [fst snd] in *.
  specialize (IH st1). cbv zeta in IH. destruct IH as (IH1 & IH2 & IH3).
  destruct (ADSB.expire_all fmt c st1 names) as [st2 evs]. cbn [fst snd] in *.
  split; [congruence|]. split; [congruence|].
  intros sec. by rewrite count_app, He3, IH3.
Qed.

Lemma step_throttle st a :
  let r := ADSB.step hav fmt st a in
  throttle_step (ADSB.last_sec st) (ADSB.sent_this_sec st) (ADSB.action_time a)
    (ADSB.last_sec r.1) (ADSB.sent_this_sec r.1) (λ sec, count (adsb_update_at sec) r.2).
Proof.
  destruct a as [i|c]; cbn [ADSB.step ADSB.action_time].
  - apply adsb_record_throttle.
  - left. pose proof (expire_all_throttle c (ADSB.to_delete st (ADSB.sw_now c)) st)
      as (? & ? & ?).
    done.
Qed.

Lemma run_throttle acts : ∀ st t0 cnt,
  throttle_inv (ADSB.last_sec st) (ADSB.sent_this_sec st) cnt →
  ADSB.last_sec st <= t0 →
  nondecreasing t0 (ADSB.action_time <$> acts) →
  let r := ADSB.run hav fmt st acts in
  throttle_inv (ADSB.last_sec r.1) (ADSB.sent_this_sec r.1)
    (λ sec, cnt sec + count (adsb_update_at sec) r.2)%nat.
Proof.
  induction acts as [|a acts IH]; intros st t0 cnt Hinv Ht0 Hmono; cbv zeta.
  - apply (throttle_inv_ext _ _ cnt); [|done]. intros sec. cbn. lia.
  - cbn [fmap list_fmap nondecreasing] in Hmono. destruct Hmono as [Hle Hmono].
    cbn [ADSB.run].
    pose proof (step_throttle st a) as Hstep. cbv zeta in Hstep.
    destruct (ADSB.step hav fmt st a) as [st1 ev]. cbn [fst snd] in Hstep.
    assert (Hnow : ADSB.last_sec st <= ADSB.action_time a) by lia.
    destruct (throttle_inv_step _ _ _ _ _ _ _ Hinv Hnow Hstep) as [Hinv1 Hls1].
    specialize (IH st1 (ADSB.action_time a) _ Hinv1 Hls1 Hmono). cbv zeta in IH.
    destruct (ADSB.run hav fmt st1 acts) as [st2 evs]. cbn [fst snd] in *.
    eapply throttle_inv_ext; [|exact IH].
    intros sec. cbn beta. rewrite count_app. lia.
Qed.

End ThrottleProps.

Section AisThrottleProps.

Variable hav : Q → Q → Q → Q → Q.
Variables dm1 dm2 : Q → string.

Lemma manage_throttle st i now ts ok :
  let r := AIS.manage hav dm1 dm2 st i now ts ok in
  throttle_step (AIS.last_sec st) (AIS.sent_this_sec st) now
    (AIS.last_sec r.1) (AIS.sent_this_sec r.1) (λ sec, count (ais_line_at sec) r.2).
Proof.
  cbv zeta. unfold AIS.manage, throttle_step. cbv zeta.
  destruct (_ && _); [left; cbn; auto|].
  destruct (Py.qlt AIS.MAX_RANGE_NM _); [left; cbn; auto|].
  destruct (match AIS.last_good st !! AIS.i_mmsi i with Some _ => _ | None => _ end);
    [left; cbn; auto|].
  set (st1 := if negb _ then _ else st).
  assert (Hst1 : AIS.last_sec st1 = now ∧
                 AIS.sent_this_sec st1
                 = if now =? AIS.last_sec st then AIS.sent_this_sec st else 0).
  { subst st1. destruct (Z.eqb_spec now (AIS.last_sec st)); cbn; auto. }
  destruct Hst1 as [Hls Hsent]. clearbody st1.
  destruct (AIS.sent_this_sec st1 >=? AIS.MAX_PKTS_PER_SEC) eqn:Hfull.
  { right. left. cbn. auto. }
  assert (AIS.sent_this_sec st1 < 5) by (unfold AIS.MAX_PKTS_PER_SEC in Hfull; lia).
  destruct (AIS.make_ais_aprs_object _ _ _ _ _) as [[[pkt obj_name] table] code].
  right. right.
  destruct ok; cbn [negb fst snd AIS.last_sec AIS.sent_this_sec].
  - split; [|split; [done|split; [congruence|congruence]]].
    intros sec. cbn. rewrite (Z.eqb_sym now sec). by destruct (sec =? now).
  - split; [|split; [done|split; [congruence|congruence]]].
    intros sec. cbn. rewrite (Z.eqb_sym now sec). by destruct (sec =? now).
Qed.

Lemma process_throttle st payload fill now ts ok r :
  AIS.process hav dm1 dm2 st payload fill now ts ok = Ok r →
  throttle_step (AIS.last_sec st) (AIS.sent_this_sec st) now
    (AIS.last_sec r.1) (AIS.sent_this_sec r.1) (λ sec, count (ais_line_at sec) r.2).
Proof.
  unfold AIS.process. intros H.
  apply bind_Ok in H as (static & _ & H).
  destruct static as [si|w].
  - destruct (Py.truthy _); injection H as <-; left; cbn; auto.
  - apply bind_Ok in H as (d & _ & H).
    destruct d as [i|w']; injection H as <-.
    + apply manage_throttle.
    + left. cbn. auto.
Qed.

Lemma ais_step_throttle st line now ts ok :
  let r := AIS.ais_step hav dm1 dm2 st line now ts ok in
  throttle_step (AIS.last_sec st) (AIS.sent_this_sec st) now
    (AIS.last_sec r.1) (AIS.sent_this_sec r.1) (λ sec, count (ais_line_at sec) r.2).
Proof.
  cbv zeta. unfold AIS.ais_step.
  destruct (AIS.parse_nmea (AIS.frag_store st) line) as [fs [[payload fill]|err]].
  - destruct (AIS.process _ _ _ _ _ _ _ _ _) as [r|e] eqn:Hp.
    + apply (process_throttle _ _ _ _ _ _ _ Hp).
    + left. cbn. auto.
  - left. cbn. auto.
Qed.

Lemma ais_run_throttle ins : ∀ st t0 cnt,
  throttle_inv (AIS.last_sec st) (AIS.sent_this_sec st) cnt →
  AIS.last_sec st <= t0 →
  nondecreasing t0 (AIS.in_now <$> ins) →
  let r := AIS.run hav dm1 dm2 st ins in
  throttle_inv (AIS.last_sec r.1) (AIS.sent_this_sec r.1)
    (λ sec, cnt sec + count (ais_line_at sec) r.2)%nat.
Proof.
  induction ins as [|i ins IH]; intros st t0 cnt Hinv Ht0 Hmono; cbv zeta.
  - apply (throttle_inv_ext _ _ cnt); [|done]. intros sec. cbn. lia.
  - cbn [fmap list_fmap nondecreasing] in Hmono. destruct Hmono as [Hle Hmono].
    cbn [AIS.run].
    pose proof (ais_step_throttle st (AIS.in_line i) (AIS.in_now i)
                  (AIS.in_hhmmss i) (AIS.in_send_ok i)) as Hstep.
    cbv zeta in Hstep.
    destruct (AIS.ais_step _ _ _ _ _ _ _ _) as [st1 ev]. cbn [fst snd] in Hstep.
    assert (Hnow : AIS.last_sec st <= AIS.in_now i) by lia.
    destruct (throttle_inv_step _ _ _ _ _ _ _ Hinv Hnow Hstep) as [Hinv1 Hls1].
    specialize (IH st1 (AIS.in_now i) _ Hinv1 Hls1 Hmono). cbv zeta in IH.
    destruct (AIS.run hav dm1 dm2 st1 ins) as [st2 evs]. cbn [fst snd] in *.
    eapply throttle_inv_ext; [|exact IH].
    intros sec. cbn beta. rewrite count_app. lia.
Qed.

End AisThrottleProps.

Lemma throttle_inv_init : throttle_inv 0 0 (λ _, 0%nat).
Proof. unfold throttle_inv. split; [lia|]. split; [intros; lia|]. split; [done|done]. Qed.

(** C1, the claim as stated fails: the delete lines are not counted by the
    throttle.  In [expiry_run] six aircraft are admitted in seconds 0 and
    1; the clock never goes backwards; the cleanup phase of second 400
    sends six delete lines in that one second. *)
Lemma C1_rate_limit_counterexample :
  let log := (ADSB.run flat_distance no_fmt ADSB.init expiry_run).2 in
  nondecreasing 0 (ADSB.action_time <$> expiry_run) ∧
  count (adsb_line_at 400) log = 6%nat ∧
  ¬ (count (adsb_line_at 400) log <= 5)%nat.
Proof.
  cbv zeta.
  assert (H : count (adsb_line_at 400)
                 (ADSB.run flat_distance no_fmt ADSB.init expiry_run).2 = 6%nat)
    by (vm_compute; reflexivity).
  split; [cbn; lia|]. split; [exact H|]. rewrite H. lia.
Qed.

(** C1, amended.  While the clock readings never go backwards, in every
    wall-clock second each pipeline hands at most MAX_PKTS_PER_SEC = 5
    object updates to [aprs.send]: for ADS-B the update lines that were
    sent (the delete lines of range clear, landed dwell, rename and TTL
    expiry are outside the count), for AIS every line, whether the send
    returned or raised. *)
Theorem C1_rate_limit_amended
    (hav : float → float → float → float → exn float) (fmt : float → string)
    (hav_nm : Q → Q → Q → Q → Q) (dm1 dm2 : Q → string)
    (acts : list ADSB.action) (ins : list AIS.input) (sec : Z) :
  (nondecreasing 0 (ADSB.action_time <$> acts) →
   (count (adsb_update_at sec) (ADSB.run hav fmt ADSB.init acts).2 <= 5)%nat) ∧
  (nondecreasing 0 (AIS.in_now <$> ins) →
   (count (ais_line_at sec) (AIS.run hav_nm dm1 dm2 AIS.init ins).2 <= 5)%nat).
Proof.
  split; intros Hmono.
  - pose proof (run_throttle hav fmt acts ADSB.init 0 (λ _, 0%nat)
                  throttle_inv_init ltac:(done) Hmono) as (_ & Hall & _).
    apply (Hall sec).
  - pose proof (ais_run_throttle hav_nm dm1 dm2 ins AIS.init 0 (λ _, 0%nat)
                  throttle_inv_init ltac:(done) Hmono) as (_ & Hall & _).
    apply (Hall sec).
Qed.

Lemma C1_rate_limit_amended_witness :
  (count (adsb_update_at 0) (ADSB.run flat_distance no_fmt ADSB.init expiry_run).2 <= 5)%nat ∧
  (count (ais_line_at 100) (AIS.run flat_miles no_dm no_dm AIS.init ais_burst).2 <= 5)%nat.
Proof.
  split.
  - apply (C1_rate_limit_amended flat_distance no_fmt flat_miles no_dm no_dm
             expiry_run ais_burst 0).
    cbn. lia.
  - apply (C1_rate_limit_amended flat_distance no_fmt flat_miles no_dm no_dm
             expiry_run ais_burst 100).
    cbn. lia.
Defined.

(** ** Fragment reassembly *)

Lemma feed_app lines1 : ∀ fs lines2,
  AIS.feed fs (lines1 ++ lines2)
  = let '(fs1, rs1) := AIS.feed fs lines1 in
    let '(fs2, rs2) := AIS.feed fs1 lines2 in
    (fs2, (rs1 ++ rs2)%list).
Proof.
  induction lines1 as [|l lines1 IH]; intros fs lines2.
  - cbn. by destruct (AIS.feed fs lines2).
  - cbn [app AIS.feed]. destruct (AIS.parse_nmea fs l) as [fs1 r].
    rewrite IH. destruct (AIS.feed fs1 lines1) as [fs2 rs1].
    by destruct (AIS.feed fs2 lines2) as [fs3 rs2].
Qed.

Lemma collected_snoc lines l :
  collected (lines ++ [l]) = <[frag_no l := frag_payload l]> (collected lines).
Proof. unfold collected. by rewrite foldl_app. Qed.

Lemma dom_collected lines : dom (collected lines) = list_to_set (frag_no <$> lines).
Proof.
  induction lines as [|l lines IH] using rev_ind.
  - unfold collected. cbn. apply dom_empty_L.
  - rewrite collected_snoc, dom_insert_L, IH, fmap_app, list_to_set_app_L.
    cbn. rewrite union_empty_r_L. apply (comm_L (∪)).
Qed.

Lemma fragment_of_no n key l : fragment_of n key l → 1 <= frag_no l <= n.
Proof. intros (s & Hs & _ & _ & Hk). unfold frag_no. by rewrite Hs. Qed.

Lemma size_range n : 0 <= n → size (list_to_set (seqZ 1 n) : gset Z) = Z.to_nat n.
Proof.
  intros Hn. rewrite size_list_to_set by apply NoDup_seqZ. apply length_seqZ.
Qed.

(** The collected fragments fill the entry exactly when the lines are
    complete. *)
Lemma collected_full n key lines :
  0 <= n → Forall (fragment_of n key) lines →
  Z.of_nat (size (collected lines)) = n ↔ complete n lines.
Proof.
  intros Hn Hall.
  assert (Hsub : dom (collected lines) ⊆ list_to_set (seqZ 1 n)).
  { rewrite dom_collected. intros k Hk.
    apply elem_of_list_to_set, list_elem_of_fmap in Hk as (l & -> & Hl).
    rewrite Forall_forall in Hall. apply Hall, fragment_of_no in Hl.
    apply elem_of_list_to_set, elem_of_seqZ. lia. }
  rewrite <- size_dom. split.
  - intros Hsize k Hk.
    assert (Heq : dom (collected lines) = list_to_set (seqZ 1 n)).
    { apply set_subseteq_size_eq; [done|]. rewrite size_range by done. lia. }
    assert (Hin : k ∈ dom (collected lines)).
    { rewrite Heq. apply elem_of_list_to_set, elem_of_seqZ. lia. }
    rewrite dom_collected in Hin. by apply elem_of_list_to_set in Hin.
  - intros Hc.
    assert (Heq : dom (collected lines) = list_to_set (seqZ 1 n)).
    { apply set_eq. intros k. split; [apply Hsub|].
      intros Hk. apply elem_of_list_to_set, elem_of_seqZ in Hk.
      rewrite dom_collected. apply elem_of_list_to_set, Hc. lia. }
    rewrite Heq, size_range by done. lia.
Qed.

Lemma complete_mono n lines rest : complete n lines → complete n (lines ++ rest).
Proof.
  intros Hc k Hk. rewrite fmap_app. apply elem_of_app. left. by apply Hc.
Qed.

Lemma collected_latest lines k :
  default "" (collected lines !! k) = latest k lines.
Proof.
  unfold latest.
  induction lines as [|l lines IH] using rev_ind; [done|].
  rewrite collected_snoc, List.filter_app. cbn [List.filter].
  destruct (Z.eqb_spec (frag_no l) k) as [->|Hne].
  - by rewrite lookup_insert_eq, last_snoc.
  - rewrite lookup_insert_ne by done. by rewrite app_nil_r.
Qed.

Lemma join_collected n lines :
  AIS.join_payloads (collected lines) n = assembled n lines.
Proof.
  unfold AIS.join_payloads, assembled. f_equal.
  apply list_fmap_ext. intros _ k _. apply collected_latest.
Qed.

Lemma entry_after_snoc n lines l :
  entry_after n (lines ++ [l])
  = Some (AIS.mk_entry n (collected (lines ++ [l])) (frag_fill l)).
Proof. unfold entry_after. by rewrite last_snoc. Qed.

(** One call of [parse_nmea] on the next fragment of the message. *)
Lemma parse_nmea_fragment n key fs lines l :
  2 <= n → Forall (fragment_of n key) lines → fragment_of n key l →
  fs !! key = entry_after n lines →
  AIS.parse_nmea fs l
  = if Z.of_nat (size (collected (lines ++ [l]))) =? n
    then (delete key fs, inl (assembled n (lines ++ [l]), frag_fill l))
    else (<[key := AIS.mk_entry n (collected (lines ++ [l])) (frag_fill l)]> fs,
          inr AIS.waiting_frag).
Proof.
  intros Hn Hall (s & Hs & Hcount & Hkey & Hk) Hfs.
  unfold AIS.parse_nmea, AIS.reassemble. rewrite Hs, Hcount, Hkey, Hfs.
  assert ((n =? 1) = false) as -> by lia. cbn [andb].
  assert (Hno : frag_no l = AIS.fragnum s) by (unfold frag_no; by rewrite Hs).
  assert (Hpl : frag_payload l = AIS.payload s) by (unfold frag_payload; by rewrite Hs).
  assert (Hfl : frag_fill l = AIS.fillbits s) by (unfold frag_fill; by rewrite Hs).
  rewrite collected_snoc, Hno, Hpl, Hfl.
  assert (Hentry : AIS.payloads (default (AIS.mk_entry n ∅ (AIS.fillbits s))
                                         (entry_after n lines)) = collected lines ∧
                   AIS.total (default (AIS.mk_entry n ∅ (AIS.fillbits s))
                                      (entry_after n lines)) = n).
  { unfold entry_after. destruct (last lines) eqn:Hlast; [done|].
    apply last_None in Hlast as ->. done. }
  destruct Hentry as [-> ->]. cbn [AIS.payloads AIS.total AIS.fill].
  rewrite <- Hno, <- Hpl, <- collected_snoc, join_collected.
  by destruct (_ =? n).
Qed.

(** As long as the message is incomplete every call returns
    [waiting_frag], and the entry of the key holds what was collected. *)
Lemma feed_waiting n key rest : ∀ lines fs,
  2 <= n → Forall (fragment_of n key) (lines ++ rest) →
  fs !! key = entry_after n lines →
  ¬ complete n (lines ++ rest) →
  (AIS.feed fs rest).2 = replicate (length rest) (inr AIS.waiting_frag) ∧
  (AIS.feed fs rest).1 !! key = entry_after n (lines ++ rest).
Proof.
  induction rest as [|l rest IH]; intros lines fs Hn Hall Hfs Hinc.
  - cbn. by rewrite app_nil_r.
  - apply Forall_app in Hall as Hall'. destruct Hall' as [Hl1 Hl2].
    apply Forall_cons in Hl2 as [Hl Hrest].
    assert (Hall1 : Forall (fragment_of n key) (lines ++ [l]))
      by (apply Forall_app; split; [done|by apply Forall_singleton]).
    assert (Hinc1 : ¬ complete n (lines ++ [l])).
    { intros Hc. apply Hinc. rewrite cons_middle, app_assoc. by apply complete_mono. }
    cbn [AIS.feed]. rewrite (parse_nmea_fragment n key fs lines l Hn Hl1 Hl Hfs).
    destruct (Z.eqb_spec (Z.of_nat (size (collected (lines ++ [l])))) n) as [Hfull|_].
    { exfalso. apply Hinc1. apply (collected_full n key); [lia|done|done]. }
    specialize (IH (lines ++ [l])%list
                  (<[key := AIS.mk_entry n (collected (lines ++ [l])) (frag_fill l)]> fs) Hn).
    rewrite <- app_assoc in IH. cbn [app] in IH.
    destruct IH as [IH1 IH2]; [done| |done|].
    { by rewrite lookup_insert_eq, entry_after_snoc. }
    destruct (AIS.feed _ rest) as [fs2 rs]. cbn [fst snd] in *.
    split; [by rewrite IH1|done].
Qed.

(** C8, the claim as stated fails: with fragment numbers outside 1..N the
    count of distinct numbers reaches N while fragments are missing.  Two
    sentences of a two-fragment message numbered 3 and 4 make [parse_nmea]
    return an (empty) assembled payload although neither fragment 1 nor
    fragment 2 has arrived. *)
Lemma C8_reassembly_counterexample :
  let l1 := "!AIVDM,2,3,7,A,BBB,0*00" in
  let l2 := "!AIVDM,2,4,7,A,AAA,0*00" in
  AIS.fields l1 = inl (AIS.mk_sentence 2 3 "7" "A" "BBB" 0) ∧
  AIS.fields l2 = inl (AIS.mk_sentence 2 4 "7" "A" "AAA" 0) ∧
  ¬ complete 2 [l1; l2] ∧
  (AIS.feed ∅ [l1; l2]).2 = [inr AIS.waiting_frag; inl ("", 0)].
Proof.
  cbv zeta. split; [vm_compute; reflexivity|]. split; [vm_compute; reflexivity|].
  split; [|vm_compute; reflexivity].
  intros Hc. specialize (Hc 1 ltac:(lia)).
  assert (Hnos : frag_no <$> ["!AIVDM,2,3,7,A,BBB,0*00"; "!AIVDM,2,4,7,A,AAA,0*00"]
                 = [3; 4]) by (vm_compute; reflexivity).
  rewrite Hnos in Hc. apply list_elem_of_In in Hc. cbn in Hc. lia.
Qed.

(** C8, amended.  For sentences of a message of N >= 2 fragments under one
    (sequence id, channel) key, every fragment number between 1 and N, fed
    to [parse_nmea] from a table without an entry for the key: as long as
    not all fragment numbers 1..N have arrived every call returns
    [waiting_frag]; the call on the sentence that completes them returns
    the payloads in ascending fragment number (for a repeated number the
    last one received), concatenated, with the fill-bit count of that last
    sentence, and removes the entry. *)
Theorem C8_reassembly_amended
    (n : Z) (key : string * string) (fs : gmap (string * string) AIS.frag_entry)
    (lines : list string) (l : string) :
  2 <= n → fs !! key = None →
  Forall (fragment_of n key) (lines ++ [l]) →
  ¬ complete n lines → complete n (lines ++ [l]) →
  (AIS.feed fs (lines ++ [l])).2
    = (replicate (length lines) (inr AIS.waiting_frag)
       ++ [inl (assembled n (lines ++ [l]), frag_fill l)])%list ∧
  (AIS.feed fs (lines ++ [l])).1 !! key = None.
Proof.
  intros Hn Hfs Hall Hinc Hc.
  apply Forall_app in Hall as Hall'. destruct Hall' as [Hl1 Hl2].
  apply Forall_inv in Hl2.
  destruct (feed_waiting n key lines [] fs Hn) as [Hw1 Hw2]; [done|done|done|].
  cbn [app] in Hw2.
  rewrite feed_app. destruct (AIS.feed fs lines) as [fs1 rs1]. cbn [fst snd] in *.
  cbn [AIS.feed]. rewrite (parse_nmea_fragment n key fs1 lines l Hn Hl1 Hl2 Hw2).
  destruct (Z.eqb_spec (Z.of_nat (size (collected (lines ++ [l])))) n) as [_|Hne].
  - cbn [fst snd]. split; [by rewrite Hw1|]. apply lookup_delete_eq.
  - exfalso. apply Hne. by apply (collected_full n key); [lia|done|done].
Qed.

Lemma C8_reassembly_amended_witness :
  (AIS.feed ∅ (three_fragments ++ [third_fragment])).2
    = (replicate (length three_fragments) (inr AIS.waiting_frag)
       ++ [inl (assembled 3 (three_fragments ++ [third_fragment]),
                frag_fill third_fragment)])%list ∧
  assembled 3 (three_fragments ++ [third_fragment]) = "AAAbbbCC" ∧
  frag_fill third_fragment = 2.
Proof.
  assert (Hnos : frag_no <$> three_fragments = [2; 1; 2]) by (vm_compute; reflexivity).
  assert (Hnos' : frag_no <$> (three_fragments ++ [third_fragment])%list = [2; 1; 2; 3])
    by (vm_compute; reflexivity).
  split; [|split; vm_compute; reflexivity].
  apply (C8_reassembly_amended 3 ("7", "A") ∅ three_fragments third_fragment).
  - lia.
  - apply lookup_empty.
  - repeat apply Forall_cons_2; [..|apply Forall_nil_2];
      (eexists; split; [vm_compute; reflexivity|]; cbn; split; [done|split; [done|lia]]).
  - intros Hc. specialize (Hc 3 ltac:(lia)). rewrite Hnos in Hc.
    apply list_elem_of_In in Hc. cbn in Hc. lia.
  - intros k Hk. rewrite Hnos'. apply list_elem_of_In. cbn. lia.
Defined.

(** ** Object names of the ADS-B lines *)

Section NameProps.

Variable hav : float → float → float → float → exn float.
Variable fmt : float → string.

Lemma tracked_name_nine st i : names_nine st → nine (ADSB.tracked_name_of st i).
Proof.
  intros [Hh _]. unfold ADSB.tracked_name_of, ADSB.current_name_for_hex.
  destruct (ADSB.hex_to_name st !! ADSB.icao_hex_of i) as [n|] eqn:Hn; cbn.
  - destruct (Py.truthy n); [by apply (Hh _ _ Hn)|apply desired_name_length].
  - apply desired_name_length.
Qed.

Lemma names_nine_delete_seen st st' n :
  names_nine st →
  (∀ h x, ADSB.hex_to_name st' !! h = Some x → ADSB.hex_to_name st !! h = Some x) →
  ADSB.last_seen st' = delete n (ADSB.last_seen st) →
  names_nine st'.
Proof.
  intros [Hh Hs] Hsub Hseen. split.
  - intros h x Hl. by apply (Hh h), Hsub.
  - intros x t Hl. rewrite Hseen in Hl. apply dict_lookup_delete_Some in Hl as [_ Hl].
    by apply (Hs x t).
Qed.

Lemma maybe_delete_sub (c : bool) (k : string) (m : gmap string string) h x :
  (if c then delete k m else m) !! h = Some x → m !! h = Some x.
Proof. destruct c; [|done]. intros Hl. by apply lookup_delete_Some in Hl as [_ ?]. Qed.

(** The delete line of a name of 9 characters. *)
Lemma try_delete_names now ts sym ok name lat lon :
  nine name → Forall named_nine (ADSB.try_delete fmt now ts sym ok name lat lon).
Proof.
  intros Hn. rewrite try_delete_spec. destruct (_ && _); [|done].
  apply Forall_singleton. by intros n [= <-].
Qed.

Lemma range_clear_names st i :
  names_nine st →
  names_nine (ADSB.range_clear fmt st i).1 ∧
  Forall named_nine (ADSB.range_clear fmt st i).2.
Proof.
  intros Hn. pose proof (tracked_name_nine st i Hn) as Ht.
  unfold ADSB.range_clear. destruct (ADSB.delete_position _ _ _) as [la lo].
  cbn [fst snd]. split.
  - eapply (names_nine_delete_seen st); [done| |done].
    intros h x. cbn. apply maybe_delete_sub.
  - by apply try_delete_names.
Qed.

Lemma dwell_delete_names st st' i :
  names_nine st → ADSB.hex_to_name st' = ADSB.hex_to_name st →
  ADSB.last_seen st' = ADSB.last_seen st →
  let r := ADSB.dwell_delete fmt st' i (ADSB.tracked_name_of st i)
             (ADSB.current_name_for_hex st i) in
  names_nine r.1 ∧ Forall named_nine r.2.
Proof.
  intros Hn H1 H2. cbv zeta. pose proof (tracked_name_nine st i Hn) as Ht.
  unfold ADSB.dwell_delete. destruct (ADSB.delete_position _ _ _) as [la lo].
  cbn [fst snd]. split.
  - eapply (names_nine_delete_seen st); [done| |cbn; by rewrite H2].
    intros h x. cbn. rewrite H1. apply maybe_delete_sub.
  - by apply try_delete_names.
Qed.

Lemma throttled_names st st' i :
  names_nine st → ADSB.hex_to_name st' = ADSB.hex_to_name st →
  ADSB.last_seen st' = ADSB.last_seen st →
  let r := ADSB.throttled hav fmt st' i (ADSB.tracked_name_of st i)
             (ADSB.current_name_for_hex st i) in
  names_nine r.1 ∧ Forall named_nine r.2.
Proof.
  intros Hn H1 H2. cbv zeta. pose proof (tracked_name_nine st i Hn) as Ht.
  pose proof (desired_name_length i) as Hd.
  destruct Hn as [Hh Hs].
  unfold ADSB.throttled.
  set (st1 := if negb _ then _ else st').
  assert (Hst1 : ADSB.hex_to_name st1 = ADSB.hex_to_name st ∧
                 ADSB.last_seen st1 = ADSB.last_seen st)
    by (subst st1; by destruct (negb _)).
  destruct Hst1 as [H1' H2']. clearbody st1.
  destruct (_ >=? _).
  { cbn [fst snd]. split; [|done]. split; [rewrite H1'|rewrite H2']; done. }
  assert (Hren : let r := ADSB.rename fmt st1 i (ADSB.tracked_name_of st i)
                            (ADSB.current_name_for_hex st i) in
                 names_nine r.1.1 ∧ nine r.1.2 ∧ Forall named_nine r.2).
  { cbv zeta. unfold ADSB.rename, ADSB.current_name_for_hex.
    destruct (ADSB.hex_to_name st !! ADSB.icao_hex_of i) as [cur_name|] eqn:Hcur;
      cbn [Py.otruthy andb default from_option id].
    - destruct (Py.truthy cur_name && negb _).
      + destruct (ADSB.delete_position _ _ _) as [la lo]. cbn [fst snd].
        split; [|split; [done|apply try_delete_names; by apply (Hh _ _ Hcur)]].
        split; cbn.
        * intros h x Hl. rewrite H1' in Hl.
          apply lookup_insert_Some in Hl as [[_ <-]|[_ Hl]]; [done|by apply (Hh h)].
        * intros x t Hl. rewrite H2' in Hl.
          apply dict_lookup_delete_Some in Hl as [_ Hl]. by apply (Hs x t).
      + cbn [fst snd]. split; [|done]. split; [rewrite H1'|rewrite H2']; done.
    - cbn [fst snd]. split; [|done]. split; [rewrite H1'|rewrite H2']; done. }
  cbv zeta in Hren.
  destruct (ADSB.rename fmt st1 i _ _) as [[st2 n2] dels]. cbn [fst snd] in Hren.
  destruct Hren as ([Hh2 Hs2] & Hn2 & Hdels).
  assert (Hreg : names_nine (ADSB.register st2 i n2)).
  { unfold ADSB.register. split; cbn.
    - intros h x Hl. destruct (_ && _); [|by apply (Hh2 h)].
      apply lookup_insert_Some in Hl as [[_ <-]|[_ Hl]]; [done|by apply (Hh2 h)].
    - intros x t Hl.
      apply dict_lookup_insert_Some in Hl as [[<- _]|[_ Hl]]; [done|by apply (Hs2 x t)]. }
  assert (Hh1 : ∀ e, Forall named_nine (dels ++ [ADSB.Handler e])).
  { intros e. apply Forall_app. split; [done|]. by apply Forall_singleton. }
  unfold ADSB.emission. destruct (ADSB.in_symbol i) as [[table code] tag].
  destruct (ADSB.need_send _ _ _ _) as [[|]|e]; cbn [fst snd];
    [|by rewrite app_nil_r|split; [done|apply Hh1]].
  destruct (ADSB.make_adsb_aprs_object _ _ _ _ _ _ _ _ _ _ _ _ _ _);
    [|split; [done|apply Hh1]].
  destruct (ADSB.in_send_ok i); cbn [fst snd].
  - split.
    + destruct Hreg as [Hh3 Hs3]. split; cbn; [apply Hh3|apply Hs3].
    + apply Forall_app. split; [done|]. apply Forall_singleton. by intros n [= <-].
  - split; [done|]. apply Forall_app. split; [done|].
    apply Forall_singleton. by intros n [= <-].
Qed.

Lemma in_range_names st i :
  names_nine st →
  names_nine (ADSB.in_range hav fmt st i).1 ∧
  Forall named_nine (ADSB.in_range hav fmt st i).2.
Proof.
  intros Hn. unfold ADSB.in_range.
  set (st1 := if _ && _ then _ else st).
  assert (Hst1 : ADSB.hex_to_name st1 = ADSB.hex_to_name st ∧
                 ADSB.last_seen st1 = ADSB.last_seen st)
    by (subst st1; by destruct (_ && _)).
  destruct Hst1 as [H1 H2]. clearbody st1.
  destruct (_ && _).
  { cbn [fst snd]. split; [|done]. destruct Hn as [Hh Hs].
    split; [rewrite H1|rewrite H2]; done. }
  destruct (match SBS.alt (ADSB.in_msg i) with Some _ => _ | None => _ end).
  - set (st2 := if negb _ then _ else st1).
    assert (Hst2 : ADSB.hex_to_name st2 = ADSB.hex_to_name st ∧
                   ADSB.last_seen st2 = ADSB.last_seen st)
      by (subst st2; by destruct (negb _)).
    destruct Hst2 as [H1' H2']. clearbody st2.
    destruct (_ >=? _).
    + by apply dwell_delete_names.
    + by apply throttled_names.
  - by apply throttled_names.
Qed.

Lemma adsb_record_names st i :
  names_nine st →
  names_nine (ADSB.adsb_record hav fmt st i).1 ∧
  Forall named_nine (ADSB.adsb_record hav fmt st i).2.
Proof.
  intros Hn. unfold ADSB.adsb_record.
  destruct (ADSB.dist_kbuf hav i) as [d|e]; [|split; [done|by apply Forall_singleton]].
  destruct (_ && _); [by apply range_clear_names|].
  destruct (_ && _); [done|].
  by apply in_range_names.
Qed.

Lemma expire_all_names c names : ∀ st,
  names_nine st → Forall nine names →
  names_nine (ADSB.expire_all fmt c st names).1 ∧
  Forall named_nine (ADSB.expire_all fmt c st names).2.
Proof.
  induction names as [|n names IH]; intros st Hn Hall; [done|].
  apply Forall_cons in Hall as [Hn9 Hall].
  cbn [ADSB.expire_all].
  assert (He : names_nine (ADSB.expire fmt c st n).1 ∧
               Forall named_nine (ADSB.expire fmt c st n).2).
  { unfold ADSB.expire.
    destruct (match ADSB.last_sent st !! n with Some _ => _ | None => _ end) as [la lo].
    cbn [fst snd]. split; [|by apply try_delete_names].
    eapply (names_nine_delete_seen st); [done| |done].
    intros h x. cbn. apply maybe_delete_sub. }
  destruct (ADSB.expire fmt c st n) as [st1 ev]. cbn [fst snd] in He.
  destruct He as [He1 He2]. specialize (IH st1 He1 Hall).
  destruct (ADSB.expire_all fmt c st1 names) as [st2 evs]. cbn [fst snd] in *.
  destruct IH as [IH1 IH2]. split; [done|]. by apply Forall_app.
Qed.

Lemma to_delete_names st now : names_nine st → Forall nine (ADSB.to_delete st now).
Proof.
  intros [_ Hs]. apply Forall_forall. intros n Hn. unfold ADSB.to_delete in Hn.
  apply list_elem_of_fmap in Hn as ([n' t] & -> & Hn).
  apply list_elem_of_In, filter_In in Hn as [Hn _]. apply list_elem_of_In in Hn.
  destruct (dict_items_lookup _ _ _ Hn) as [t' Hl].
  by apply (Hs n' t').
Qed.

(** Every line of a run of the ADS-B manager carries a 9-character
    object name. *)
Lemma run_names acts : ∀ st,
  names_nine st →
  names_nine (ADSB.run hav fmt st acts).1 ∧
  Forall named_nine (ADSB.run hav fmt st acts).2.
Proof.
  induction acts as [|a acts IH]; intros st Hn; [done|].
  cbn [ADSB.run].
  assert (Hs : names_nine (ADSB.step hav fmt st a).1 ∧
               Forall named_nine (ADSB.step hav fmt st a).2).
  { destruct a as [i|c]; cbn [ADSB.step].
    - by apply adsb_record_names.
    - apply expire_all_names; [done|by apply to_delete_names]. }
  destruct (ADSB.step hav fmt st a) as [st1 ev]. cbn [fst snd] in Hs.
  destruct Hs as [Hs1 Hs2]. specialize (IH st1 Hs1).
  destruct (ADSB.run hav fmt st1 acts) as [st2 evs]. cbn [fst snd] in *.
  destruct IH as [IH1 IH2]. split; [done|]. by apply Forall_app.
Qed.

End NameProps.

(** Every line the ADS-B pipeline hands to [aprs.send], update or delete,
    has an object name of exactly 9 characters. *)
Lemma adsb_lines_named_nine hav fmt acts e n :
  e ∈ (ADSB.run hav fmt ADSB.init acts).2 → event_name e = Some n →
  String.length n = 9%nat.
Proof.
  assert (Hinit : names_nine ADSB.init).
  { split; intros x y Hl; cbn in Hl; [by rewrite lookup_empty in Hl|done]. }
  destruct (run_names hav fmt acts ADSB.init Hinit) as [_ Hall].
  rewrite Forall_forall in Hall. intros He. by apply (Hall e He).
Qed.
